(** * Expense Tracker: a shallow embedding of [main.py]

    The server keeps, per user, four SQLite tables (expenses, savings,
    saving goals, budgets) and answers analytical queries over them.  This
    development embeds the validation functions, the tenant resolver, the
    ledger tools and the two calculators of [main.py] as Rocq functions over
    an explicit store, and proves the properties of the specification
    against them.

    Modelling conventions.
    - Python [str] values are [string]s of ASCII characters; [str.strip] and
      [str.lower] are written out for ASCII.
    - SQLite [REAL] and Python [float] amounts are exact rationals [Q]; a
      comparison or a sum is therefore exact.
    - SQLite [INTEGER PRIMARY KEY AUTOINCREMENT] ids are unbounded [Z].
    - A coroutine is a function from the store to a result and a store; an
      exception is the [Raise] result.  A connection that raises rolls back,
      so a raising tool leaves the tables as they were (tenant provisioning
      by [init_db] commits on its own and is kept).
    - The JSON resources under [resources/] are inputs of the model
      ([resources]): [None] stands for a file that cannot be read or parsed. *)

From Stdlib Require Import ZArith QArith Qround String Ascii DecimalString List Lia.
From stdpp Require Import base gmap strings list.

Open Scope string_scope.
Open Scope Z_scope.

(** ** Exceptions and results *)

Inductive exn : Type :=
  | ValueError         (* raised by the tools and by [datetime.strptime] *)
  | KeyError           (* [categories[k]] on a missing key *)
  | IndexError         (* [l[0]] on an empty list *)
  | ZeroDivisionError
  | ConfigError.       (* [load_json]: missing or malformed resource file *)

Inductive result (A : Type) : Type :=
  | Ok (a : A)
  | Raise (e : exn).
Arguments Ok {A} a.
Arguments Raise {A} e.

Global Instance result_ret : MRet result := fun A a => Ok a.

Global Instance result_bind : MBind result := fun A B k r =>
  match r with
  | Ok a => k a
  | Raise e => Raise e
  end.

(** ** Python string methods, on ASCII *)

Module Py.

(** [str.isspace] on one ASCII character: TAB, LF, VT, FF, CR, the four
    separators 0x1c-0x1f and the space. *)
Definition isspace (c : ascii) : bool :=
  let n := nat_of_ascii c in
  ((9 <=? n)%nat && (n <=? 13)%nat) || ((28 <=? n)%nat && (n <=? 32)%nat).

Definition lower_char (c : ascii) : ascii :=
  let n := nat_of_ascii c in
  if ((65 <=? n)%nat && (n <=? 90)%nat)%bool then ascii_of_nat (n + 32) else c.

(** [s.lower()] *)
Fixpoint lower (s : string) : string :=
  match s with
  | EmptyString => EmptyString
  | String c s' => String (lower_char c) (lower s')
  end.

(** [s.lstrip()] *)
Fixpoint lstrip (s : string) : string :=
  match s with
  | EmptyString => EmptyString
  | String c s' => if isspace c then lstrip s' else s
  end.

(** [s.rstrip()]: a character is dropped when it is a space and all that
    follows it is dropped too. *)
Fixpoint rstrip (s : string) : string :=
  match s with
  | EmptyString => EmptyString
  | String c s' =>
      match rstrip s' with
      | EmptyString => if isspace c then EmptyString else String c EmptyString
      | r => String c r
      end
  end.

(** [s.strip()] *)
Definition strip (s : string) : string := rstrip (lstrip s).

(** [x in l] for a list of strings *)
Definition mem (x : string) (l : list string) : bool :=
  existsb (String.eqb x) l.

(** [not s] for a string: the empty string is falsy *)
Definition falsy (s : string) : bool :=
  match s with EmptyString => true | _ => false end.

(** [s or ""] for an optional string *)
Definition or_empty (s : option string) : string :=
  match s with Some x => x | None => "" end.

(** [a < b] on rationals ([a <= b] is [Qle_bool]). *)
Definition Qlt_bool (a b : Q) : bool := negb (Qle_bool b a).

(** [max(a, b)] on rationals: the first argument unless the second is
    strictly larger. *)
Definition qmax (a b : Q) : Q := if Qlt_bool a b then b else a.

(** Rounding to the nearest integer, ties to the even one. *)
Definition round_half_even (q : Q) : Z :=
  let f := Qfloor q in
  match Qcompare (q - inject_Z f) (1 # 2) with
  | Lt => f
  | Gt => f + 1
  | Eq => if Z.even f then f else f + 1
  end.

(** [round(q, 2)] *)
Definition round2 (q : Q) : Q :=
  (inject_Z (round_half_even (q * 100)) / 100)%Q.

End Py.

(** ** The vocabulary resources *)

(** [resources/categories.json] is a mapping from a category to the list of
    its subcategories, [resources/saving_sources.json] a list of sources. *)
Record resources : Type := {
  categories_json : option (gmap string (list string));
  saving_sources_json : option (list string)
}.

(** [load_json(path)] *)
Definition load_json {A} (file : option A) : result A :=
  match file with
  | Some v => Ok v
  | None => Raise ConfigError
  end.

(** ** Validation functions *)

Section Validation.

Variable res : resources.

(** ["other" if "other" in l else l[0]] *)
Definition other_or_first (l : list string) : result string :=
  if Py.mem "other" l then Ok "other"
  else match l with
       | x :: _ => Ok x
       | [] => Raise IndexError
       end.

Definition validate_category (category : string) (subcategory : option string)
  : result (string * string) :=
  categories ← load_json (categories_json res);
  let normalized_category := Py.lower (Py.strip category) in
  let normalized_subcategory := Py.lower (Py.strip (Py.or_empty subcategory)) in
  let normalized_category :=
    if bool_decide (is_Some (categories !! normalized_category))
    then normalized_category else "misc" in
  available_subcategories ←
    match categories !! normalized_category with
    | Some l => Ok l
    | None => Raise KeyError
    end;
  normalized_subcategory ←
    (if Py.falsy normalized_subcategory then
       other_or_first available_subcategories
     else if negb (Py.mem normalized_subcategory available_subcategories) then
       other_or_first available_subcategories
     else Ok normalized_subcategory);
  Ok (normalized_category, normalized_subcategory).

Definition validate_saving_source (source : string) : result string :=
  sources ← load_json (saving_sources_json res);
  let normalized_source := Py.lower (Py.strip source) in
  if Py.falsy normalized_source then other_or_first sources
  else if negb (Py.mem normalized_source sources) then other_or_first sources
  else Ok normalized_source.

End Validation.

(** A vocabulary for the examples: the categories the scenarios of the
    specification use, each with its subcategories. *)
Definition sample_categories : gmap string (list string) :=
  <["food" := ["groceries"; "dining"; "other"]]>
  (<["home" := ["rent"; "groceries"; "other"]]>
  (<["transport" := ["fuel"; "taxi"]]>
  (<["misc" := ["other"]]> ∅))).

Definition sample_resources : resources :=
  {| categories_json := Some sample_categories;
     saving_sources_json := Some ["salary"; "gift"; "other"] |}.

(** ** Dates: [datetime.strptime(s, "%Y-%m-%d")] *)

Module Datetime.

Record datetime : Type := { year : Z; month : Z; day : Z }.

Definition is_digit (c : ascii) : bool :=
  let n := nat_of_ascii c in ((48 <=? n)%nat && (n <=? 57)%nat)%bool.

Definition digit_value (c : ascii) : Z := Z.of_nat (nat_of_ascii c) - 48.

(** A digit whose value lies between [lo] and [hi]: the class [[lo-hi]]. *)
Definition in_class (lo hi : Z) (c : ascii) : bool :=
  is_digit c && (lo <=? digit_value c) && (digit_value c <=? hi).

(** [%Y] is the group [\d\d\d\d]. *)
Definition match_Y (s : string) : option (Z * string) :=
  match s with
  | String a (String b (String c (String d rest))) =>
      if is_digit a && is_digit b && is_digit c && is_digit d
      then Some (1000 * digit_value a + 100 * digit_value b
                 + 10 * digit_value c + digit_value d, rest)
      else None
  | _ => None
  end.

(** [%m] is the group [1[0-2]|0[1-9]|[1-9]]: every alternative that matches
    at the head of [s], in the order the regular expression tries them. *)
Definition match_m (s : string) : list (Z * string) :=
  match s with
  | String a rest1 =>
      (match rest1 with
       | String b rest2 =>
           (if Ascii.eqb a "1" && in_class 0 2 b
            then [(10 + digit_value b, rest2)] else [])
           ++ (if Ascii.eqb a "0" && in_class 1 9 b
               then [(digit_value b, rest2)] else [])
       | EmptyString => []
       end)
      ++ (if in_class 1 9 a then [(digit_value a, rest1)] else [])
  | EmptyString => []
  end.

(** [%d] is the group [3[01]|[12]\d|0[1-9]|[1-9]| [1-9]]. *)
Definition match_d (s : string) : list (Z * string) :=
  match s with
  | String a rest1 =>
      (match rest1 with
       | String b rest2 =>
           (if Ascii.eqb a "3" && in_class 0 1 b
            then [(30 + digit_value b, rest2)] else [])
           ++ (if in_class 1 2 a && is_digit b
               then [(10 * digit_value a + digit_value b, rest2)] else [])
           ++ (if Ascii.eqb a "0" && in_class 1 9 b
               then [(digit_value b, rest2)] else [])
       | EmptyString => []
       end)
      ++ (if in_class 1 9 a then [(digit_value a, rest1)] else [])
      ++ (match rest1 with
          | String b rest2 =>
              if Ascii.eqb a " " && in_class 1 9 b
              then [(digit_value b, rest2)] else []
          | EmptyString => []
          end)
  | EmptyString => []
  end.

(** The literal [-] of the format. *)
Definition match_dash (s : string) : option string :=
  match s with
  | String c rest => if Ascii.eqb c "-" then Some rest else None
  | EmptyString => None
  end.

(** [format_regex.match(data_string)]: the first way, in backtracking order,
    to match year, dash, month, dash and day at the head of the string; the
    result is the three groups and the unmatched rest. *)
Definition regex_match (s : string) : option (Z * Z * Z * string) :=
  '(y, s1) ← match_Y s;
  s2 ← match_dash s1;
  head (omap (fun '(m, s3) =>
                s4 ← match_dash s3;
                '(d, s5) ← head (match_d s4);
                Some (y, m, d, s5))
             (match_m s2)).

Definition is_leap (y : Z) : bool :=
  (y mod 4 =? 0) && (negb (y mod 100 =? 0) || (y mod 400 =? 0)).

Definition days_in_month (y m : Z) : Z :=
  if m =? 2 then (if is_leap y then 29 else 28)
  else if (m =? 4) || (m =? 6) || (m =? 9) || (m =? 11) then 30
  else 31.

(** [datetime.strptime(s, "%Y-%m-%d")]: the string must match the format
    with nothing left over, and name a date of the calendar (years 1 to
    9999); otherwise [ValueError]. *)
Definition strptime (s : string) : result datetime :=
  match regex_match s with
  | Some (y, m, d, EmptyString) =>
      if (1 <=? y) && (1 <=? m) && (m <=? 12) && (1 <=? d) && (d <=? days_in_month y m)
      then Ok {| year := y; month := m; day := d |}
      else Raise ValueError
  | _ => Raise ValueError
  end.

End Datetime.

(** The month difference of two dates: days do not count. *)
Definition month_difference (start end_ : Datetime.datetime) : Z :=
  (Datetime.year end_ - Datetime.year start) * 12
  + (Datetime.month end_ - Datetime.month start).

(** [months_between(start_date, end_date)] *)
Definition months_between (start_date end_date : string) : result Z :=
  start ← Datetime.strptime start_date;
  end_ ← Datetime.strptime end_date;
  Ok (month_difference start end_).

(** ** Formatting integers: [f"{n}"] and [f"{n:02d}"] *)

(** [str(n)] *)
Definition str_of_int (n : Z) : string :=
  DecimalString.NilZero.string_of_int (Z.to_int n).

(** [f"{n:02d}"]: at least two characters, padded on the left with zeros;
    a sign counts as a character. *)
Definition format_02d (n : Z) : string :=
  if (0 <=? n) && (n <? 10) then "0" ++ str_of_int n else str_of_int n.

(** [strftime("%Y-%m-%d")] of a date, as the server's platform prints it:
    the year is not padded, which shows only before the year 1000. *)
Definition strftime (d : Datetime.datetime) : string :=
  str_of_int (Datetime.year d) ++ "-" ++ format_02d (Datetime.month d)
  ++ "-" ++ format_02d (Datetime.day d).

(** Strings of decimal digits and the number they write. *)
Fixpoint all_digits (s : string) : bool :=
  match s with
  | EmptyString => true
  | String c s' => Datetime.is_digit c && all_digits s'
  end.

Fixpoint decimal_value (s : string) : Z :=
  match s with
  | EmptyString => 0
  | String c s' =>
      Datetime.digit_value c * 10 ^ Z.of_nat (String.length s') + decimal_value s'
  end.

(** [n] is printed with exactly [k] digits by [print]. *)
Definition prints_digits (print : Z -> string) (k : nat) (n : Z) : bool :=
  let s := print n in
  all_digits s && Nat.eqb (String.length s) k && (decimal_value s =? n).

(** ** The store *)

(** Rows of the four tables of [init_db]. *)
Record expense : Type := {
  e_id : Z; e_date : string; e_amount : Q;
  e_category : string; e_subcategory : string; e_note : string
}.

Record saving : Type := {
  s_id : Z; s_date : string; s_amount : Q; s_source : string; s_note : string
}.

Record saving_goal : Type := {
  g_id : Z; g_name : string; g_target_amount : Q;
  g_start_date : string; g_end_date : option string; g_note : string
}.

Record budget : Type := {
  b_id : Z; b_category : string; b_monthly_limit : Q
}.

(** A table is its rows in rowid order, together with the largest rowid it
    ever held (the [sqlite_sequence] entry of an AUTOINCREMENT key). *)
Record table (A : Type) : Type := { rows : list A; seq : Z }.
Arguments rows {A} t.
Arguments seq {A} t.

Class Row (A : Type) : Type := rowid : A -> Z.
Global Instance expense_row : Row expense := e_id.
Global Instance saving_row : Row saving := s_id.
Global Instance saving_goal_row : Row saving_goal := g_id.
Global Instance budget_row : Row budget := b_id.

Definition empty_table {A} : table A := {| rows := []; seq := 0 |}.

(** The rowid an AUTOINCREMENT insert picks: one more than the largest rowid
    the table holds or ever held. *)
Definition next_rowid {A} `{Row A} (t : table A) : Z :=
  foldr Z.max (seq t) (map rowid (rows t)) + 1.

(** [INSERT INTO t(...) VALUES(...)]; the result carries [cursor.lastrowid]. *)
Definition insert_row {A} `{Row A} (mk : Z -> A) (t : table A) : Z * table A :=
  let i := next_rowid t in
  (i, {| rows := rows t ++ [mk i]; seq := i |}).

(** [SELECT ... WHERE id = ?] followed by [fetchone()] *)
Definition select_by_id {A} `{Row A} (i : Z) (t : table A) : option A :=
  find (fun r => rowid r =? i) (rows t).

(** [cursor.rowcount] of an [UPDATE] or [DELETE ... WHERE id = ?] *)
Definition count_by_id {A} `{Row A} (i : Z) (t : table A) : nat :=
  length (filter (fun r => rowid r = i) (rows t)).

(** The database file of one user. *)
Record database : Type := {
  expenses : table expense;
  savings : table saving;
  saving_goals : table saving_goal;
  budgets : table budget
}.

Definition empty_database : database :=
  {| expenses := empty_table; savings := empty_table;
     saving_goals := empty_table; budgets := empty_table |}.

(** The process: the global [CURRENT_USER_ID] and the database files under
    [data/], one per user directory. *)
Record state : Type := {
  CURRENT_USER_ID : string;
  data : gmap string database
}.

Definition initial_state : state :=
  {| CURRENT_USER_ID := "default_user"; data := ∅ |}.

(** ** Tools as state transformers that may raise *)

Definition tool (A : Type) : Type := state -> result A * state.

Global Instance tool_ret : MRet tool := fun A a st => (Ok a, st).

Global Instance tool_bind : MBind tool := fun A B k m st =>
  match m st with
  | (Ok a, st') => k a st'
  | (Raise e, st') => (Raise e, st')
  end.

Definition raise {A} (e : exn) : tool A := fun st => (Raise e, st).

(** A computation that does not touch the store. *)
Definition pure {A} (r : result A) : tool A := fun st => (r, st).

(** [resolve_user_id(user_id)]: a falsy argument ([None] or the empty
    string) is replaced by the global. *)
Definition resolve_user_id (user_id : option string) : tool string := fun st =>
  match user_id with
  | Some u => if Py.falsy u then (Ok (CURRENT_USER_ID st), st) else (Ok u, st)
  | None => (Ok (CURRENT_USER_ID st), st)
  end.

(** The tables of a user, empty when the user has no database yet. *)
Definition tenant (u : string) (st : state) : database :=
  default empty_database (data st !! u).

(** The store once the database file of a user holds [db]. *)
Definition write_db (u : string) (db : database) (st : state) : state :=
  {| CURRENT_USER_ID := CURRENT_USER_ID st; data := <[u := db]> (data st) |}.

(** [init_db(user_id)]: [CREATE TABLE IF NOT EXISTS] for the four tables. *)
Definition init_db (user_id : string) : tool unit := fun st =>
  match data st !! user_id with
  | Some _ => (Ok tt, st)
  | None => (Ok tt, write_db user_id empty_database st)
  end.

(** Reading through [get_db_connection(user_id)]; every tool runs [init_db]
    first, so the file exists. *)
Definition read_db (user_id : string) : tool database := fun st =>
  (Ok (tenant user_id st), st).

(** Leaving [get_db_connection(user_id)] normally: [conn.commit()]. *)
Definition commit (user_id : string) (db : database) : tool unit := fun st =>
  (Ok tt, write_db user_id db st).

Definition with_expenses (t : table expense) (db : database) : database :=
  {| expenses := t; savings := savings db;
     saving_goals := saving_goals db; budgets := budgets db |}.

Definition with_savings (t : table saving) (db : database) : database :=
  {| expenses := expenses db; savings := t;
     saving_goals := saving_goals db; budgets := budgets db |}.

Definition with_saving_goals (t : table saving_goal) (db : database) : database :=
  {| expenses := expenses db; savings := savings db;
     saving_goals := t; budgets := budgets db |}.

Definition with_budgets (t : table budget) (db : database) : database :=
  {| expenses := expenses db; savings := savings db;
     saving_goals := saving_goals db; budgets := t |}.

(** ** SQL fragments *)

(** [a <= b] on TEXT values (BINARY collation). *)
Definition text_le (a b : string) : bool := String.leb a b.
Definition text_lt (a b : string) : bool := String.ltb a b.

(** [SUM(amount)], with the [None -> 0.0] of the callers. *)
Definition sum_amounts (l : list Q) : Q := foldl Qplus 0%Q l.

(** [ORDER BY date DESC]: a row goes after the rows of a larger date and
    before the others, so rows of equal date stay in scan order. *)
Fixpoint insert_desc {A} (date : A -> string) (x : A) (l : list A) : list A :=
  match l with
  | [] => [x]
  | y :: l' => if text_lt (date x) (date y) then y :: insert_desc date x l'
               else x :: l
  end.

Definition order_by_date_desc {A} (date : A -> string) (l : list A) : list A :=
  foldr (insert_desc date) [] l.

(** ** Results of the tools *)

Record expense_added : Type := {
  added_id : Z; added_category : string; added_subcategory : string
}.

Inductive update_status : Type := Updated | NotFound | NoChanges.

Inductive delete_status : Type := Deleted (deleted_rows : nat) | DeleteNotFound.

Record budget_set : Type := { set_category : string; set_monthly_limit : Q }.

Inductive budget_state : Type := over_budget | under_budget.

Record budget_report : Type := {
  br_category : string; br_year : Z; br_month : Z;
  br_monthly_limit : Q; br_total_expenses : Q; br_remaining_budget : Q;
  br_budget_status : budget_state; br_usage_percentage : Q
}.

Inductive budget_status : Type :=
  | BudgetStatus (r : budget_report)
  | NoBudget.

Inductive pace : Type := missed_goal | on_track | behind.

Record insights : Type := {
  i_goal : string; i_target_amount : Q; i_total_saved : Q;
  i_months_total : Z; i_months_elapsed : Z; i_months_remaining : Z;
  i_required_monthly_saving : Q; i_current_monthly_average : Q;
  i_pace_status : pace
}.

Inductive insights_result : Type :=
  | Insights (r : insights)
  | GoalNotFound
  | NoDeadline.

(** The [SET] clauses an [update_expense] call collects. *)
Record expense_update : Type := {
  upd_date : option string; upd_amount : option Q;
  upd_category : option string; upd_subcategory : option string;
  upd_note : option string
}.

Definition no_updates (u : expense_update) : bool :=
  match upd_date u, upd_amount u, upd_category u, upd_subcategory u, upd_note u with
  | None, None, None, None, None => true
  | _, _, _, _, _ => false
  end.

Definition apply_update (u : expense_update) (e : expense) : expense :=
  {| e_id := e_id e;
     e_date := default (e_date e) (upd_date u);
     e_amount := default (e_amount e) (upd_amount u);
     e_category := default (e_category e) (upd_category u);
     e_subcategory := default (e_subcategory e) (upd_subcategory u);
     e_note := default (e_note e) (upd_note u) |}.

(** [UPDATE budgets SET monthly_limit = ? WHERE category = ?] *)
Definition set_limit (category : string) (monthly_limit : Q)
    (t : table budget) : table budget :=
  {| rows := map (fun b => if bool_decide (b_category b = category)
                           then {| b_id := b_id b; b_category := b_category b;
                                   b_monthly_limit := monthly_limit |}
                           else b) (rows t);
     seq := seq t |}.

(** [DELETE FROM budgets WHERE category = ?] *)
Definition delete_category (category : string) (t : table budget) : table budget :=
  {| rows := filter (fun b => b_category b ≠ category) (rows t); seq := seq t |}.

(** The rows a statement with [WHERE category = ?] touches. *)
Definition with_category (category : string) (t : table budget) : list budget :=
  filter (fun b => b_category b = category) (rows t).

(** [INSERT INTO budgets ... ON CONFLICT(category) DO UPDATE SET
    monthly_limit = excluded.monthly_limit] *)
Definition upsert_budget (category : string) (monthly_limit : Q)
    (t : table budget) : table budget :=
  if existsb (fun b => bool_decide (b_category b = category)) (rows t)
  then set_limit category monthly_limit t
  else (insert_row (fun i => {| b_id := i; b_category := category;
                                b_monthly_limit := monthly_limit |}) t).2.

(** ** The tools *)

Section Tools.

Variable res : resources.

(** *** Expenses *)

Definition add_expense (date : string) (amount : Q)
    (category subcategory note : string) (user_id : option string)
  : tool expense_added :=
  user_id ← resolve_user_id user_id;
  if Qle_bool amount 0 then raise ValueError else
  '(category, subcategory) ← pure (validate_category res category (Some subcategory));
  init_db user_id;;
  db ← read_db user_id;
  let '(expense_id, t) :=
    insert_row (fun i => {| e_id := i; e_date := date; e_amount := amount;
                            e_category := category; e_subcategory := subcategory;
                            e_note := note |}) (expenses db) in
  commit user_id (with_expenses t db);;
  mret {| added_id := expense_id; added_category := category;
          added_subcategory := subcategory |}.

Definition list_expenses (user_id : option string) : tool (list expense) :=
  user_id ← resolve_user_id user_id;
  init_db user_id;;
  db ← read_db user_id;
  mret (order_by_date_desc e_date (rows (expenses db))).

(** The last statement of [update_expense]: [UPDATE expenses SET ... WHERE
    id = ?], unless no clause was collected. *)
Definition run_update (user_id : string) (expense_id : Z) (u : expense_update)
  : tool update_status :=
  if no_updates u then mret NoChanges else
  db ← read_db user_id;
  let t := expenses db in
  commit user_id
    (with_expenses
       {| rows := map (fun e => if e_id e =? expense_id then apply_update u e else e)
                      (rows t);
          seq := seq t |} db);;
  if Nat.eqb (count_by_id expense_id t) 0 then mret NotFound else mret Updated.

Definition update_expense (expense_id : Z) (date : option string)
    (amount : option Q) (category subcategory note : option string)
    (user_id : option string) : tool update_status :=
  user_id ← resolve_user_id user_id;
  init_db user_id;;
  (match amount with
   | Some a => if Qle_bool a 0 then raise ValueError else mret tt
   | None => mret tt
   end);;
  match category with
  | Some category =>
      '(category, normalized_subcategory) ←
        pure (validate_category res category subcategory);
      run_update user_id expense_id
        {| upd_date := date; upd_amount := amount;
           upd_category := Some category;
           upd_subcategory :=
             match subcategory with
             | None => Some normalized_subcategory
             | Some _ => Some normalized_subcategory
             end;
           upd_note := note |}
  | None =>
      match subcategory with
      | Some subcategory =>
          db ← read_db user_id;
          match select_by_id expense_id (expenses db) with
          | None => mret NotFound
          | Some row =>
              let current_category := e_category row in
              '(current_category, normalized_subcategory) ←
                pure (validate_category res current_category (Some subcategory));
              run_update user_id expense_id
                {| upd_date := date; upd_amount := amount;
                   upd_category := None;
                   upd_subcategory := Some normalized_subcategory;
                   upd_note := note |}
          end
      | None =>
          run_update user_id expense_id
            {| upd_date := date; upd_amount := amount;
               upd_category := None; upd_subcategory := None;
               upd_note := note |}
      end
  end.

Definition delete_expense (expense_id : Z) (user_id : option string)
  : tool delete_status :=
  user_id ← resolve_user_id user_id;
  init_db user_id;;
  db ← read_db user_id;
  let t := expenses db in
  commit user_id
    (with_expenses {| rows := filter (fun e => e_id e ≠ expense_id) (rows t);
                      seq := seq t |} db);;
  match count_by_id expense_id t with
  | O => mret DeleteNotFound
  | n => mret (Deleted n)
  end.

(** *** Savings *)

Definition add_saving (date : string) (amount : Q) (source note : string)
    (user_id : option string) : tool Z :=
  user_id ← resolve_user_id user_id;
  if Qle_bool amount 0 then raise ValueError else
  source ← pure (validate_saving_source res source);
  init_db user_id;;
  db ← read_db user_id;
  let '(saving_id, t) :=
    insert_row (fun i => {| s_id := i; s_date := date; s_amount := amount;
                            s_source := source; s_note := note |}) (savings db) in
  commit user_id (with_savings t db);;
  mret saving_id.

(** *** Saving goals *)

Definition add_saving_goal (name : string) (target_amount : Q)
    (start_date : string) (end_date : option string) (note : string)
    (user_id : option string) : tool Z :=
  user_id ← resolve_user_id user_id;
  if Qle_bool target_amount 0 then raise ValueError else
  init_db user_id;;
  db ← read_db user_id;
  let '(goal_id, t) :=
    insert_row (fun i => {| g_id := i; g_name := name;
                            g_target_amount := target_amount;
                            g_start_date := start_date; g_end_date := end_date;
                            g_note := note |}) (saving_goals db) in
  commit user_id (with_saving_goals t db);;
  mret goal_id.

(** [SELECT SUM(amount) FROM savings WHERE date >= ? AND date <= ?] *)
Definition saved_between (lo hi : string) (db : database) : Q :=
  sum_amounts
    (map s_amount
       (filter (fun s => text_le lo (s_date s) ∧ text_le (s_date s) hi)
               (rows (savings db)))).

(** [today] is [datetime.today().strftime("%Y-%m-%d")], read from the clock
    by the source and an argument here. *)
Definition get_saving_goal_insights (today : string) (goal_id : Z)
    (user_id : option string) : tool insights_result :=
  user_id ← resolve_user_id user_id;
  init_db user_id;;
  db ← read_db user_id;
  match select_by_id goal_id (saving_goals db) with
  | None => mret GoalNotFound
  | Some goal =>
      match g_end_date goal with
      | None => mret NoDeadline
      | Some end_date =>
          if Py.falsy end_date then mret NoDeadline else
          let total_saved := saved_between (g_start_date goal) today db in
          total ← pure (months_between (g_start_date goal) end_date);
          let months_total := Z.max total 1 in
          elapsed ← pure (months_between (g_start_date goal) today);
          let months_elapsed := Z.max elapsed 0 in
          let months_remaining := Z.max (months_total - months_elapsed) 0 in
          let remaining_amount := Py.qmax (g_target_amount goal - total_saved) 0 in
          let required_monthly :=
            if 0 <? months_remaining
            then (remaining_amount / inject_Z months_remaining)%Q else 0%Q in
          let current_monthly_avg :=
            if 0 <? months_elapsed
            then (total_saved / inject_Z months_elapsed)%Q else total_saved in
          let status :=
            if (months_remaining =? 0) && Py.Qlt_bool 0 remaining_amount
            then missed_goal
            else if Qle_bool required_monthly current_monthly_avg then on_track
            else behind in
          mret (Insights
                  {| i_goal := g_name goal;
                     i_target_amount := g_target_amount goal;
                     i_total_saved := total_saved;
                     i_months_total := months_total;
                     i_months_elapsed := months_elapsed;
                     i_months_remaining := months_remaining;
                     i_required_monthly_saving := Py.round2 required_monthly;
                     i_current_monthly_average := Py.round2 current_monthly_avg;
                     i_pace_status := status |})
      end
  end.

(** *** Budgets *)

Definition set_budget (category : string) (monthly_limit : Q)
    (user_id : option string) : tool budget_set :=
  user_id ← resolve_user_id user_id;
  if Qle_bool monthly_limit 0 then raise ValueError else
  '(category, _) ← pure (validate_category res category None);
  init_db user_id;;
  db ← read_db user_id;
  commit user_id (with_budgets (upsert_budget category monthly_limit (budgets db)) db);;
  mret {| set_category := category; set_monthly_limit := monthly_limit |}.

(** [SELECT monthly_limit FROM budgets WHERE category = ?], [fetchone()] *)
Definition select_budget (category : string) (db : database) : option budget :=
  find (fun b => bool_decide (b_category b = category)) (rows (budgets db)).

(** [SELECT SUM(amount) FROM expenses WHERE category = ? AND date >= ? AND
    date < ?] *)
Definition spent_between (category lo hi : string) (db : database) : Q :=
  sum_amounts
    (map e_amount
       (filter (fun e => e_category e = category
                         ∧ text_le lo (e_date e) ∧ text_lt (e_date e) hi)
               (rows (expenses db)))).

Definition month_start (year month : Z) : string :=
  str_of_int year ++ "-" ++ format_02d month ++ "-01".

Definition month_end (year month : Z) : string :=
  if month =? 12 then str_of_int (year + 1) ++ "-01-01"
  else str_of_int year ++ "-" ++ format_02d (month + 1) ++ "-01".

Definition check_budget_status (category : string) (year month : Z)
    (user_id : option string) : tool budget_status :=
  user_id ← resolve_user_id user_id;
  init_db user_id;;
  let start_date := month_start year month in
  let end_date := month_end year month in
  db ← read_db user_id;
  match select_budget (Py.lower category) db with
  | None => mret NoBudget
  | Some budget =>
      let total_expenses := spent_between (Py.lower category) start_date end_date db in
      let remaining := (b_monthly_limit budget - total_expenses)%Q in
      let status :=
        if Py.Qlt_bool (b_monthly_limit budget) total_expenses
        then over_budget else under_budget in
      if Qeq_bool (b_monthly_limit budget) 0 then raise ZeroDivisionError else
      mret (BudgetStatus
              {| br_category := Py.lower category;
                 br_year := year; br_month := month;
                 br_monthly_limit := b_monthly_limit budget;
                 br_total_expenses := total_expenses;
                 br_remaining_budget := remaining;
                 br_budget_status := status;
                 br_usage_percentage :=
                   Py.round2 (total_expenses / b_monthly_limit budget * 100) |})
  end.

Definition update_budget (category : string) (monthly_limit : Q)
    (user_id : option string) : tool update_status :=
  user_id ← resolve_user_id user_id;
  if Qle_bool monthly_limit 0 then raise ValueError else
  '(category, _) ← pure (validate_category res category None);
  init_db user_id;;
  db ← read_db user_id;
  let t := budgets db in
  commit user_id (with_budgets (set_limit category monthly_limit t) db);;
  match length (with_category category t) with
  | O => mret NotFound
  | _ => mret Updated
  end.

Definition delete_budget (category : string) (user_id : option string)
  : tool delete_status :=
  user_id ← resolve_user_id user_id;
  init_db user_id;;
  db ← read_db user_id;
  let t := budgets db in
  commit user_id (with_budgets (delete_category (Py.lower category) t) db);;
  match length (with_category (Py.lower category) t) with
  | O => mret DeleteNotFound
  | n => mret (Deleted n)
  end.

End Tools.

(** *** Users *)

Definition initialize_user (user_id : string) : tool string :=
  init_db user_id;;
  mret user_id.

(** [global CURRENT_USER_ID; CURRENT_USER_ID = user_id] *)
Definition assign_current_user (user_id : string) : tool unit := fun st =>
  (Ok tt, {| CURRENT_USER_ID := user_id; data := data st |}).

Definition get_current_user : tool string := fun st =>
  (Ok (CURRENT_USER_ID st), st).

Definition set_current_user (user_id : string) : tool string :=
  assign_current_user user_id;;
  init_db user_id;;
  get_current_user.

(** ** The server: one request at a time *)

Inductive request : Type :=
  | AddExpense (date : string) (amount : Q) (category subcategory note : string)
               (user_id : option string)
  | ListExpenses (user_id : option string)
  | UpdateExpense (expense_id : Z) (date : option string) (amount : option Q)
                  (category subcategory note : option string)
                  (user_id : option string)
  | DeleteExpense (expense_id : Z) (user_id : option string)
  | AddSaving (date : string) (amount : Q) (source note : string)
              (user_id : option string)
  | AddSavingGoal (name : string) (target_amount : Q) (start_date : string)
                  (end_date : option string) (note : string)
                  (user_id : option string)
  | GetSavingGoalInsights (today : string) (goal_id : Z) (user_id : option string)
  | SetBudget (category : string) (monthly_limit : Q) (user_id : option string)
  | CheckBudgetStatus (category : string) (year month : Z)
                      (user_id : option string)
  | UpdateBudget (category : string) (monthly_limit : Q) (user_id : option string)
  | DeleteBudget (category : string) (user_id : option string)
  | InitializeUser (user_id : string)
  | SetCurrentUser (user_id : string)
  | GetCurrentUser.

Inductive response : Type :=
  | ExpenseAdded (r : expense_added)
  | Expenses (l : list expense)
  | UpdateStatus (s : update_status)
  | DeleteStatus (s : delete_status)
  | NewId (i : Z)
  | GoalInsights (r : insights_result)
  | BudgetSet (r : budget_set)
  | BudgetChecked (r : budget_status)
  | User (u : string).

Definition respond {A} (f : A -> response) (t : tool A) : tool response :=
  a ← t; mret (f a).

Definition handle (res : resources) (req : request) : tool response :=
  match req with
  | AddExpense d a c s n u => respond ExpenseAdded (add_expense res d a c s n u)
  | ListExpenses u => respond Expenses (list_expenses u)
  | UpdateExpense i d a c s n u => respond UpdateStatus (update_expense res i d a c s n u)
  | DeleteExpense i u => respond DeleteStatus (delete_expense i u)
  | AddSaving d a s n u => respond NewId (add_saving res d a s n u)
  | AddSavingGoal n t s e o u => respond NewId (add_saving_goal n t s e o u)
  | GetSavingGoalInsights t g u => respond GoalInsights (get_saving_goal_insights t g u)
  | SetBudget c l u => respond BudgetSet (set_budget res c l u)
  | CheckBudgetStatus c y m u => respond BudgetChecked (check_budget_status c y m u)
  | UpdateBudget c l u => respond UpdateStatus (update_budget res c l u)
  | DeleteBudget c u => respond DeleteStatus (delete_budget c u)
  | InitializeUser u => respond User (initialize_user u)
  | SetCurrentUser u => respond User (set_current_user u)
  | GetCurrentUser => respond User get_current_user
  end.

(** The optional [user_id] argument of a request, for the tools that have
    one, and the same request sent on behalf of another user. *)
Definition user_argument (req : request) : option (option string) :=
  match req with
  | AddExpense _ _ _ _ _ u | ListExpenses u | UpdateExpense _ _ _ _ _ _ u
  | DeleteExpense _ u | AddSaving _ _ _ _ u | AddSavingGoal _ _ _ _ _ u
  | GetSavingGoalInsights _ _ u | SetBudget _ _ u | CheckBudgetStatus _ _ _ u
  | UpdateBudget _ _ u | DeleteBudget _ u => Some u
  | InitializeUser _ | SetCurrentUser _ | GetCurrentUser => None
  end.


(** The states the server can be in: it starts in [initial_state] and
    serves requests, each with the resource files as they are at that time
    (all of them satisfying [P]). *)
Inductive reachable (P : resources -> Prop) : state -> Prop :=
  | reachable_initial : reachable P initial_state
  | reachable_handle res req st :
      P res -> reachable P st -> reachable P (handle res req st).2.


Definition serve (res : resources) (reqs : list request) (st : state) : state :=
  foldl (fun st req => (handle res req st).2) st reqs.

(** ** Well-formed vocabularies *)

(** What [validate_category] relies on: the fallback category is listed and
    no category has an empty list of subcategories. *)
Definition vocabulary_ok (categories : gmap string (list string)) : Prop :=
  is_Some (categories !! "misc") ∧ map_Forall (fun _ l => l ≠ []) categories.

Global Instance vocabulary_ok_dec categories : Decision (vocabulary_ok categories).
Proof. unfold vocabulary_ok. apply _. Defined.

(** A vocabulary without the fallback category. *)
Definition categories_without_misc : gmap string (list string) :=
  <["food" := ["groceries"; "other"]]> ∅.

(** A property of the budgets table of every user. *)
Definition budgets_inv (J : table budget -> Prop) (st : state) : Prop :=
  ∀ u, J (budgets (tenant u st)).

(** The budgets of every user name each category at most once. *)
Definition budgets_unique : state -> Prop :=
  budgets_inv (fun t => NoDup (map b_category (rows t))).

(** The budgets of every user are for categories of the vocabulary. *)
Definition budgets_in (categories : gmap string (list string)) : state -> Prop :=
  budgets_inv (fun t => ∀ b, b ∈ rows t -> is_Some (categories !! b_category b)).


(** ** Weakest preconditions of tools *)

(** [wp t Q E st]: run from [st], the tool [t] either returns a value and a
    store that satisfy [Q], or raises and leaves a store that satisfies [E]. *)
Definition wp {A} (t : tool A) (Q : A -> state -> Prop) (E : state -> Prop)
    (st : state) : Prop :=
  match t st with
  | (Ok a, st') => Q a st'
  | (Raise _, st') => E st'
  end.

(** ** Scenarios *)

(** The budget scenario of the specification: a limit of 500 on [food] and
    530 spent on it in March 2024, next to expenses of other months and of
    another category. *)
Definition budget_scenario : state :=
  serve sample_resources
    [ SetBudget "food" 500 None;
      AddExpense "2024-02-29" 20 "food" "dining" "" None;
      AddExpense "2024-03-01" 300 "food" "groceries" "" None;
      AddExpense "2024-03-31" 230 "Food" "dining" "" None;
      AddExpense "2024-03-15" 70 "transport" "fuel" "" None;
      AddExpense "2024-04-01" 50 "food" "dining" "" None ]
    initial_state.



(** One expense on [food], subcategory [groceries]; [home] lists
    [groceries] too. *)
Definition groceries_scenario : state :=
  serve sample_resources
    [ AddExpense "2024-03-05" 40 "food" "groceries" "market" None ]
    initial_state.

(** ** The other tools of [main.py] *)

(** [date BETWEEN ? AND ?] *)
Definition between (lo hi date : string) : Prop :=
  text_le lo date ∧ text_le date hi.

(** [ORDER BY], as an insertion into the rows already ordered: a row goes
    after the rows that precede it strictly and before the others, so rows
    the order does not tell apart stay in scan order. *)
Fixpoint insert_sorted {A} (precedes : A -> A -> bool) (x : A) (l : list A) : list A :=
  match l with
  | [] => [x]
  | y :: l' => if precedes y x then y :: insert_sorted precedes x l' else x :: l
  end.

Definition order_by {A} (precedes : A -> A -> bool) (l : list A) : list A :=
  foldr (insert_sorted precedes) [] l.

(** Every element is related to the one that follows it. *)
Fixpoint adjacent {A} (R : A -> A -> Prop) (l : list A) : Prop :=
  match l with
  | a :: l' => match l' with
               | b :: _ => R a b ∧ adjacent R l'
               | [] => True
               end
  | [] => True
  end.

(** A listing in [ORDER BY date DESC]. *)
Definition descending {A} (date : A -> string) (l : list A) : Prop :=
  adjacent (fun a b => text_le (date b) (date a) = true) l.

(** One row of [SELECT category, SUM(amount), COUNT( * ) ... GROUP BY
    category]. *)
Record category_total : Type := {
  ct_category : string; ct_total_amount : Q; ct_count : nat
}.

(** [GROUP BY category] over the rows a [WHERE] clause kept. *)
Definition group_by_category (l : list expense) : list category_total :=
  map (fun c =>
         let group := filter (fun e => e_category e = c) l in
         {| ct_category := c;
            ct_total_amount := sum_amounts (map e_amount group);
            ct_count := length group |})
      (remove_dups (map e_category l)).

(** [ORDER BY total_amount DESC] *)
Definition order_by_total_desc (l : list category_total) : list category_total :=
  order_by (fun y x => Py.Qlt_bool (ct_total_amount x) (ct_total_amount y)) l.

(** [ORDER BY category ASC] *)
Definition order_by_category_asc (l : list budget) : list budget :=
  order_by (fun y x => text_lt (b_category y) (b_category x)) l.

(** [if s:] for an optional string: neither [None] nor empty. *)
Definition truthy (s : option string) : bool :=
  match s with
  | Some x => negb (Py.falsy x)
  | None => false
  end.

Record progress : Type := {
  p_goal_id : Z; p_name : string; p_target_amount : Q; p_total_saved : Q;
  p_remaining : Q; p_progress_percentage : Q
}.

Inductive progress_result : Type :=
  | Progress (r : progress)
  | ProgressNotFound.

(** The [SET] clauses an [update_saving_goal] call collects. *)
Record goal_update : Type := {
  gu_name : option string; gu_target_amount : option Q;
  gu_start_date : option string; gu_end_date : option string;
  gu_note : option string
}.

Definition no_goal_updates (u : goal_update) : bool :=
  match gu_name u, gu_target_amount u, gu_start_date u, gu_end_date u, gu_note u with
  | None, None, None, None, None => true
  | _, _, _, _, _ => false
  end.

Definition apply_goal_update (u : goal_update) (g : saving_goal) : saving_goal :=
  {| g_id := g_id g;
     g_name := default (g_name g) (gu_name u);
     g_target_amount := default (g_target_amount g) (gu_target_amount u);
     g_start_date := default (g_start_date g) (gu_start_date u);
     g_end_date := match gu_end_date u with
                   | Some d => Some d
                   | None => g_end_date g
                   end;
     g_note := default (g_note g) (gu_note u) |}.

Definition list_expenses_by_date (start_date end_date : string)
    (user_id : option string) : tool (list expense) :=
  user_id ← resolve_user_id user_id;
  init_db user_id;;
  db ← read_db user_id;
  mret (order_by_date_desc e_date
          (filter (fun e => between start_date end_date (e_date e))
                  (rows (expenses db)))).

(** The rows the [WHERE] clause of [expense_summary_by_category] keeps: the
    date range, and the category when one is given. *)
Definition summarised (start_date end_date : string) (category : option string)
    (db : database) : list expense :=
  let in_range :=
    filter (fun e => between start_date end_date (e_date e)) (rows (expenses db)) in
  match category with
  | Some c => if Py.falsy c then in_range
              else filter (fun e => e_category e = Py.lower c) in_range
  | None => in_range
  end.

Definition expense_summary_by_category (start_date end_date : string)
    (category : option string) (user_id : option string)
  : tool (list category_total) :=
  user_id ← resolve_user_id user_id;
  if text_lt end_date start_date then raise ValueError else
  init_db user_id;;
  db ← read_db user_id;
  mret (order_by_total_desc
          (group_by_category (summarised start_date end_date category db))).

(** The rows the [WHERE] clause of [list_savings] keeps: the date range
    when both ends are given, every row otherwise. *)
Definition listed_savings (start_date end_date : option string) (db : database)
  : list saving :=
  if truthy start_date && truthy end_date
  then filter (fun s => between (Py.or_empty start_date) (Py.or_empty end_date)
                                (s_date s))
              (rows (savings db))
  else rows (savings db).

Definition list_savings (start_date end_date : option string)
    (user_id : option string) : tool (list saving) :=
  user_id ← resolve_user_id user_id;
  init_db user_id;;
  db ← read_db user_id;
  mret (order_by_date_desc s_date (listed_savings start_date end_date db)).

Definition delete_saving (saving_id : Z) (user_id : option string)
  : tool delete_status :=
  user_id ← resolve_user_id user_id;
  init_db user_id;;
  db ← read_db user_id;
  let t := savings db in
  commit user_id
    (with_savings {| rows := filter (fun s => s_id s ≠ saving_id) (rows t);
                     seq := seq t |} db);;
  match count_by_id saving_id t with
  | O => mret DeleteNotFound
  | n => mret (Deleted n)
  end.

Definition list_saving_goals (user_id : option string) : tool (list saving_goal) :=
  user_id ← resolve_user_id user_id;
  init_db user_id;;
  db ← read_db user_id;
  mret (order_by_date_desc g_start_date (rows (saving_goals db))).

(** [SELECT SUM(amount) FROM savings WHERE date >= ? AND (date <= ? OR ? IS
    NULL)] *)
Definition saved_since (start_date : string) (end_date : option string)
    (db : database) : Q :=
  sum_amounts
    (map s_amount
       (filter (fun s => text_le start_date (s_date s)
                         && match end_date with
                            | Some d => text_le (s_date s) d
                            | None => true
                            end)
               (rows (savings db)))).

Definition get_saving_goal_progress (goal_id : Z) (user_id : option string)
  : tool progress_result :=
  user_id ← resolve_user_id user_id;
  init_db user_id;;
  db ← read_db user_id;
  match select_by_id goal_id (saving_goals db) with
  | None => mret ProgressNotFound
  | Some goal =>
      let total_saved := saved_since (g_start_date goal) (g_end_date goal) db in
      let progress_pct :=
        if Py.Qlt_bool 0 (g_target_amount goal)
        then (total_saved / g_target_amount goal * 100)%Q else 0%Q in
      mret (Progress
              {| p_goal_id := g_id goal; p_name := g_name goal;
                 p_target_amount := g_target_amount goal;
                 p_total_saved := total_saved;
                 p_remaining := Py.qmax (g_target_amount goal - total_saved) 0;
                 p_progress_percentage := Py.round2 progress_pct |})
  end.

Definition update_saving_goal (goal_id : Z) (name : option string)
    (target_amount : option Q) (start_date end_date note : option string)
    (user_id : option string) : tool update_status :=
  user_id ← resolve_user_id user_id;
  init_db user_id;;
  (match target_amount with
   | Some a => if Qle_bool a 0 then raise ValueError else mret tt
   | None => mret tt
   end);;
  let u := {| gu_name := name; gu_target_amount := target_amount;
              gu_start_date := start_date; gu_end_date := end_date;
              gu_note := note |} in
  if no_goal_updates u then mret NoChanges else
  db ← read_db user_id;
  let t := saving_goals db in
  commit user_id
    (with_saving_goals
       {| rows := map (fun g => if g_id g =? goal_id then apply_goal_update u g else g)
                      (rows t);
          seq := seq t |} db);;
  if Nat.eqb (count_by_id goal_id t) 0 then mret NotFound else mret Updated.

(** The answers of [delete_saving_goal]: [deleted_goal_id], or
    [not_found]. *)
Inductive goal_deleted : Type :=
  | DeletedGoal (deleted_goal_id : Z)
  | GoalDeleteNotFound.

Definition delete_saving_goal (goal_id : Z) (user_id : option string)
  : tool goal_deleted :=
  user_id ← resolve_user_id user_id;
  init_db user_id;;
  db ← read_db user_id;
  let t := saving_goals db in
  commit user_id
    (with_saving_goals {| rows := filter (fun g => g_id g ≠ goal_id) (rows t);
                          seq := seq t |} db);;
  match count_by_id goal_id t with
  | O => mret GoalDeleteNotFound
  | _ => mret (DeletedGoal goal_id)
  end.

Definition list_budgets (user_id : option string) : tool (list (string * Q)) :=
  user_id ← resolve_user_id user_id;
  init_db user_id;;
  db ← read_db user_id;
  mret (map (fun b => (b_category b, b_monthly_limit b))
            (order_by_category_asc (rows (budgets db)))).

(** ** Every tool of the server *)

(** A call of any tool: a [request], or one of the tools above. *)
Inductive call : Type :=
  | Request (req : request)
  | ListExpensesByDate (start_date end_date : string) (user_id : option string)
  | ExpenseSummaryByCategory (start_date end_date : string)
      (category : option string) (user_id : option string)
  | ListSavings (start_date end_date : option string) (user_id : option string)
  | DeleteSaving (saving_id : Z) (user_id : option string)
  | ListSavingGoals (user_id : option string)
  | GetSavingGoalProgress (goal_id : Z) (user_id : option string)
  | UpdateSavingGoal (goal_id : Z) (name : option string) (target_amount : option Q)
      (start_date end_date note : option string) (user_id : option string)
  | DeleteSavingGoal (goal_id : Z) (user_id : option string)
  | ListBudgets (user_id : option string).

Inductive reply : Type :=
  | Response (r : response)
  | Summary (l : list category_total)
  | Savings (l : list saving)
  | Goals (l : list saving_goal)
  | GoalProgress (r : progress_result)
  | GoalDeleted (r : goal_deleted)
  | Budgets (l : list (string * Q)).

Definition answer {A} (f : A -> reply) (t : tool A) : tool reply :=
  a ← t; mret (f a).

Definition dispatch (res : resources) (c : call) : tool reply :=
  match c with
  | Request req => answer Response (handle res req)
  | ListExpensesByDate s e u => answer (fun l => Response (Expenses l))
                                       (list_expenses_by_date s e u)
  | ExpenseSummaryByCategory s e c u => answer Summary (expense_summary_by_category s e c u)
  | ListSavings s e u => answer Savings (list_savings s e u)
  | DeleteSaving i u => answer (fun s => Response (DeleteStatus s)) (delete_saving i u)
  | ListSavingGoals u => answer Goals (list_saving_goals u)
  | GetSavingGoalProgress g u => answer GoalProgress (get_saving_goal_progress g u)
  | UpdateSavingGoal g n t s e o u =>
      answer (fun s => Response (UpdateStatus s)) (update_saving_goal g n t s e o u)
  | DeleteSavingGoal g u => answer GoalDeleted (delete_saving_goal g u)
  | ListBudgets u => answer Budgets (list_budgets u)
  end.

(** The user a call works for: the resolved [user_id] argument, or the
    user named by [initialize_user] and [set_current_user]. *)
Definition call_user (c : call) (st : state) : string :=
  let resolved u := match (resolve_user_id u st).1 with
                    | Ok v => v
                    | Raise _ => CURRENT_USER_ID st
                    end in
  match c with
  | Request (InitializeUser u) | Request (SetCurrentUser u) => u
  | Request GetCurrentUser => CURRENT_USER_ID st
  | Request req => match user_argument req with
                   | Some u => resolved u
                   | None => CURRENT_USER_ID st
                   end
  | ListExpensesByDate _ _ u | ExpenseSummaryByCategory _ _ _ u | ListSavings _ _ u
  | DeleteSaving _ u | ListSavingGoals u | GetSavingGoalProgress _ u
  | UpdateSavingGoal _ _ _ _ _ _ u | DeleteSavingGoal _ u | ListBudgets u => resolved u
  end.

(** The tools that only read the tables. *)
Definition read_only (c : call) : bool :=
  match c with
  | Request (ListExpenses _) | Request (GetSavingGoalInsights _ _ _)
  | Request (CheckBudgetStatus _ _ _ _) | Request GetCurrentUser
  | Request (InitializeUser _) | Request (SetCurrentUser _)
  | ListExpensesByDate _ _ _ | ExpenseSummaryByCategory _ _ _ _ | ListSavings _ _ _
  | ListSavingGoals _ | GetSavingGoalProgress _ _ | ListBudgets _ => true
  | _ => false
  end.

(** The states the server can be in when calls of every tool are served,
    with resource files that satisfy [P]. *)
Inductive served (P : resources -> Prop) : state -> Prop :=
  | served_initial : served P initial_state
  | served_dispatch res c st :
      P res -> served P st -> served P (dispatch res c st).2.

Definition run (res : resources) (calls : list call) (st : state) : state :=
  foldl (fun st c => (dispatch res c st).2) st calls.

(** ** Well-formed ledgers *)

(** A string that normalization leaves as it is. *)
Definition normalized (s : string) : Prop := Py.lower (Py.strip s) = s.

(** A string that does not start with a space. *)
Definition starts_clean (s : string) : Prop :=
  match s with
  | EmptyString => True
  | String c _ => Py.isspace c = false
  end.

(** The tables as the write path makes them: unique rowids, positive
    amounts, targets and limits, one budget row per category; and a property
    of choice for the (category, subcategory) pairs of the expenses, the
    sources of the savings and the categories of the budgets. *)
Section LedgerOk.

Variable Vpair : string -> string -> Prop.
Variable Vsource : string -> Prop.
Variable Vcategory : string -> Prop.

Definition expenses_ok (t : table expense) : Prop :=
  NoDup (map e_id (rows t))
  ∧ Forall (fun e => (0 < e_amount e)%Q ∧ Vpair (e_category e) (e_subcategory e))
           (rows t).

Definition savings_ok (t : table saving) : Prop :=
  NoDup (map s_id (rows t))
  ∧ Forall (fun s => (0 < s_amount s)%Q ∧ Vsource (s_source s)) (rows t).

Definition goals_ok (t : table saving_goal) : Prop :=
  NoDup (map g_id (rows t)) ∧ Forall (fun g => (0 < g_target_amount g)%Q) (rows t).

Definition budgets_ok (t : table budget) : Prop :=
  NoDup (map b_category (rows t))
  ∧ Forall (fun b => (0 < b_monthly_limit b)%Q ∧ Vcategory (b_category b)) (rows t).

Definition ledger_ok (db : database) : Prop :=
  expenses_ok (expenses db) ∧ savings_ok (savings db)
  ∧ goals_ok (saving_goals db) ∧ budgets_ok (budgets db).

(** Every user's ledger is well formed. *)
Definition ledgers_ok (st : state) : Prop := ∀ u, ledger_ok (tenant u st).

End LedgerOk.

(** The resource files hold this vocabulary. *)
Definition holds (categories : gmap string (list string)) (sources : list string)
    (res : resources) : Prop :=
  categories_json res = Some categories ∧ saving_sources_json res = Some sources.

(** A pair of the vocabulary: a normalized key and one of its
    subcategories. *)
Definition pair_of (categories : gmap string (list string)) (c s : string) : Prop :=
  normalized c ∧ ∃ l, categories !! c = Some l ∧ s ∈ l.

Definition anything {A} (x : A) : Prop := True.

(** ** AUTOINCREMENT sequences *)

(** No row has a rowid beyond the sequence entry of its table. *)
Definition issued {A} `{Row A} (t : table A) : Prop :=
  Forall (fun r => rowid r ≤ seq t) (rows t).

(** From [t] to [t'] the sequence entry did not go back, and stays an upper
    bound of the rowids if it was one. *)
Definition sequence_kept {A} `{Row A} (t t' : table A) : Prop :=
  seq t ≤ seq t' ∧ (issued t → issued t').

Definition sequences_kept (db db' : database) : Prop :=
  sequence_kept (expenses db) (expenses db')
  ∧ sequence_kept (savings db) (savings db')
  ∧ sequence_kept (saving_goals db) (saving_goals db').

(** ** Updates *)

(** What [update_expense] may have done to the expenses of its user. *)
Definition expenses_updated (expense_id : Z) (date : option string)
    (amount : option Q) (category subcategory note : option string)
    (r : result update_status) (db db' : database) : Prop :=
  (r ≠ Ok Updated → expenses db' = expenses db)
  ∧ (∀ k e', rows (expenses db') !! k = Some e' →
       ∃ e, rows (expenses db) !! k = Some e
            ∧ e_id e' = e_id e
            ∧ (e_id e ≠ expense_id → e' = e)
            ∧ (category = None → e_category e' = e_category e)
            ∧ (category = None → subcategory = None →
               e_subcategory e' = e_subcategory e)
            ∧ (date = None → e_date e' = e_date e)
            ∧ (amount = None → e_amount e' = e_amount e)
            ∧ (note = None → e_note e' = e_note e)
            ∧ (r = Ok Updated → e_id e = expense_id →
               e_date e' = default (e_date e) date
               ∧ e_amount e' = default (e_amount e) amount
               ∧ e_note e' = default (e_note e) note))
  ∧ length (rows (expenses db')) = length (rows (expenses db))
  ∧ savings db' = savings db ∧ saving_goals db' = saving_goals db
  ∧ budgets db' = budgets db.


(** ** Results of tools *)

(** [outcome t R st]: run from [st], the result and the store of the tool
    [t] satisfy [R]. *)
Definition outcome {A} (t : tool A) (R : result A -> state -> Prop) (st : state)
  : Prop :=
  R (t st).1 (t st).2.


(** A run over most tools, for two users. *)
Definition ledger_scenario : state :=
  run sample_resources
    [ Request (AddExpense "2024-03-01" 300 " Food" "Groceries" "" None);
      Request (AddExpense "2024-03-02" 12 "cinema" "" "" None);
      Request (AddExpense "2024-03-09" 45 "transport" "taxi" "" (Some "ann"));
      Request (UpdateExpense 2 None (Some 15%Q) None (Some "misc") None None);
      Request (DeleteExpense 1 None);
      Request (AddExpense "2024-03-20" 80 "home" "rent" "" None);
      Request (AddSaving "2024-01-15" 100 "Salary" "" None);
      Request (AddSaving "2024-02-15" 150 "lottery" "" None);
      DeleteSaving 1 None;
      Request (AddSavingGoal "trip" 1200 "2024-01-01" (Some "2024-12-31") "" None);
      UpdateSavingGoal 1 None (Some 900%Q) None None None None;
      Request (SetBudget "Food" 500 None);
      Request (SetBudget "home" 700 None);
      Request (UpdateBudget "food" 450 None) ]
    initial_state.

(** * Properties *)

(** ** Evaluation on examples *)

Example validate_food :
  validate_category sample_resources "  Food " (Some "Dining") = Ok ("food", "dining").
Proof. vm_compute. reflexivity. Qed.

Example validate_unknown :
  validate_category sample_resources "zzz" None = Ok ("misc", "other").
Proof. vm_compute. reflexivity. Qed.

Example validate_first :
  validate_category sample_resources "transport" (Some "bus") = Ok ("transport", "fuel").
Proof. vm_compute. reflexivity. Qed.

Example strptime_padded :
  Datetime.strptime "2024-03-01"
  = Ok {| Datetime.year := 2024; Datetime.month := 3; Datetime.day := 1 |}.
Proof. vm_compute. reflexivity. Qed.

Example strptime_unpadded :
  Datetime.strptime "2024-3-1"
  = Ok {| Datetime.year := 2024; Datetime.month := 3; Datetime.day := 1 |}.
Proof. vm_compute. reflexivity. Qed.

Example strptime_no_such_day : Datetime.strptime "2024-02-30" = Raise ValueError.
Proof. vm_compute. reflexivity. Qed.

Example strptime_trailing : Datetime.strptime "2024-12-311" = Raise ValueError.
Proof. vm_compute. reflexivity. Qed.

Example strptime_strftime :
  Datetime.strptime
    (strftime {| Datetime.year := 2024; Datetime.month := 3; Datetime.day := 1 |})
  = Ok {| Datetime.year := 2024; Datetime.month := 3; Datetime.day := 1 |}.
Proof. vm_compute. reflexivity. Qed.

Example months_between_ignores_days : months_between "2024-01-31" "2024-02-01" = Ok 1.
Proof. vm_compute. reflexivity. Qed.

Example month_start_march : month_start 2024 3 = "2024-03-01".
Proof. vm_compute. reflexivity. Qed.

Example month_end_december : month_end 2024 12 = "2025-01-01".
Proof. vm_compute. reflexivity. Qed.

Example round2_third : (Py.round2 (1 / 3 * 100) == 3333 # 100)%Q.
Proof. vm_compute. reflexivity. Qed.

Example round2_tie_to_even : (Py.round2 (1 # 8) == 12 # 100)%Q.
Proof. vm_compute. reflexivity. Qed.

(** The budget scenario of the specification. *)
Example budget_scenario_status :
  ∃ r, (check_budget_status "food" 2024 3 None budget_scenario).1 = Ok (BudgetStatus r)
       ∧ br_budget_status r = over_budget
       ∧ (br_total_expenses r == 530)%Q
       ∧ (br_remaining_budget r == -30)%Q
       ∧ (br_usage_percentage r == 106)%Q.
Proof. vm_compute. eexists. split; [reflexivity |]. simpl. done. Qed.

(** ** The normalizer *)

Lemma mem_elem_of (x : string) (l : list string) : Py.mem x l = true ↔ x ∈ l.
Proof.
  unfold Py.mem. rewrite existsb_exists. split.
  - intros (y & Hin & Heq). apply String.eqb_eq in Heq. subst y.
    by apply list_elem_of_In.
  - intros Hin. exists x. split; [by apply list_elem_of_In | apply String.eqb_refl].
Qed.

Lemma falsy_empty s : Py.falsy s = true ↔ s = "".
Proof. destruct s; simpl; split; congruence. Qed.


Lemma other_or_first_member (l : list string) :
  l ≠ [] → ∃ s, other_or_first l = Ok s ∧ s ∈ l.
Proof.
  intros Hne. unfold other_or_first.
  destruct (Py.mem "other" l) eqn:Hmem.
  - exists "other". split; [done | by apply mem_elem_of].
  - destruct l as [|x l']; [done |]. exists x. split; [done | left].
Qed.

(** Under [vocabulary_ok] the category the normalizer settles on, the
    given one or the fallback, has a list of subcategories, and not an
    empty one. *)
Lemma fallback_category_listed (categories : gmap string (list string)) nc :
  vocabulary_ok categories →
  ∃ l, categories !! (if bool_decide (is_Some (categories !! nc)) then nc else "misc")
       = Some l ∧ l ≠ [].
Proof.
  intros [[lm Hmisc] Hne]. case_bool_decide as Hin.
  - destruct Hin as [l Hl]. exists l. split; [done | exact (Hne _ _ Hl)].
  - exists lm. split; [done | exact (Hne _ _ Hmisc)].
Qed.

(** The subcategory the normalizer settles on is one of the list. *)
Lemma subcategory_choice (l : list string) ns :
  l ≠ [] →
  ∃ s, (if Py.falsy ns then other_or_first l
        else if negb (Py.mem ns l) then other_or_first l
        else Ok ns) = Ok s ∧ s ∈ l.
Proof.
  intros Hne. destruct (other_or_first_member l Hne) as (d & Hd & Hd_in).
  destruct (Py.falsy ns); [by exists d |].
  destruct (Py.mem ns l) eqn:Hmem; simpl; [| by exists d].
  exists ns. split; [done | by apply mem_elem_of].
Qed.

(** Under [vocabulary_ok] the normalizer returns. *)
Lemma validate_category_returns res categories category subcategory :
  categories_json res = Some categories →
  vocabulary_ok categories →
  ∃ c s, validate_category res category subcategory = Ok (c, s).
Proof.
  intros Hload Hok. unfold validate_category. rewrite Hload. simpl.
  destruct (fallback_category_listed categories (Py.lower (Py.strip category)) Hok)
    as (l & -> & Hne). simpl.
  destruct (subcategory_choice l (Py.lower (Py.strip (Py.or_empty subcategory))) Hne)
    as (s & -> & _). simpl. eauto.
Qed.

(** Whatever the vocabulary, a category the normalizer returns is one of
    its keys. *)
Lemma validate_category_key res (categories : gmap string (list string))
    category subcategory c s :
  categories_json res = Some categories →
  validate_category res category subcategory = Ok (c, s) →
  is_Some (categories !! c).
Proof.
  intros Hload. unfold validate_category. rewrite Hload. simpl.
  destruct (categories !! (if bool_decide _ then _ else _)) as [l|] eqn:Hl; [| done].
  simpl. destruct (if Py.falsy _ then _ else _); [| done]. simpl.
  intros [= <- _]. by exists l.
Qed.

(** An absent subcategory is normalized as the empty one: to the default
    of the category. *)
Lemma validate_category_default res category c s :
  validate_category res category None = Ok (c, s) →
  validate_category res category (Some "") = Ok (c, s)
  ∧ ∃ categories l, categories_json res = Some categories
                    ∧ categories !! c = Some l ∧ other_or_first l = Ok s.
Proof.
  intros Hval. split; [exact Hval |].
  unfold validate_category in Hval.
  destruct (categories_json res) as [categories|]; [| done]. simpl in Hval.
  destruct (categories !! (if bool_decide _ then _ else _)) as [l|] eqn:Hl; [| done].
  simpl in Hval. destruct (other_or_first l) as [d|] eqn:Hd; [| done].
  simpl in Hval. injection Hval as <- <-. by exists categories, l.
Qed.


(** C1 (as amended): for every raw category and subcategory, when the
    categories file loads and its vocabulary lists the fallback category
    [misc] and gives no category an empty subcategory list,
    [validate_category] does not raise and returns a category that is a key
    of the loaded mapping together with a member of that key's list. *)
Theorem validate_category_valid res categories category subcategory :
  categories_json res = Some categories →
  vocabulary_ok categories →
  ∃ c s l, validate_category res category subcategory = Ok (c, s)
           ∧ categories !! c = Some l ∧ s ∈ l.
Proof.
  intros Hload Hok. unfold validate_category. rewrite Hload. simpl.
  set (nc := Py.lower (Py.strip category)).
  set (ns := Py.lower (Py.strip (Py.or_empty subcategory))).
  destruct (fallback_category_listed categories nc Hok) as (l & Hl & Hne).
  destruct (subcategory_choice l ns Hne) as (s & Hs & Hin).
  rewrite Hl. simpl. rewrite Hs. simpl.
  by exists (if bool_decide (is_Some (categories !! nc)) then nc else "misc"), s, l.
Qed.

Lemma validate_category_valid_witness :
  categories_json sample_resources = Some sample_categories
  ∧ vocabulary_ok sample_categories
  ∧ ∃ c s l, validate_category sample_resources "Groceries!" (Some " ") = Ok (c, s)
             ∧ sample_categories !! c = Some l ∧ s ∈ l.
Proof.
  split; [reflexivity |].
  split; [apply (bool_decide_unpack _); vm_compute; exact I |].
  apply (validate_category_valid sample_resources sample_categories).
  - reflexivity.
  - apply (bool_decide_unpack _). vm_compute. exact I.
Defined.

(** C1 (as stated) fails: a categories file that loads but does not list
    [misc] makes [validate_category] raise [KeyError] on an unknown
    category. *)
Lemma validate_category_raises_without_misc :
  let res := {| categories_json := Some categories_without_misc;
                saving_sources_json := Some ["other"] |} in
  load_json (categories_json res) = Ok categories_without_misc
  ∧ validate_category res "zzz" (Some "") = Raise KeyError.
Proof. split; vm_compute; reflexivity. Qed.

(** ** The store primitives *)

Lemma resolve_user_id_ok u st : ∃ v, resolve_user_id u st = (Ok v, st).
Proof. unfold resolve_user_id. destruct u as [u|]; [destruct (Py.falsy u)|]; eauto. Qed.


Lemma init_db_ok u st : ∃ st', init_db u st = (Ok tt, st').
Proof. unfold init_db. destruct (data st !! u); eauto. Qed.

Lemma tenant_write_db u db st : tenant u (write_db u db st) = db.
Proof. unfold tenant, write_db. simpl. by rewrite lookup_insert_eq. Qed.

Lemma tenant_write_db_ne u v db st : u ≠ v → tenant v (write_db u db st) = tenant v st.
Proof. intros. unfold tenant, write_db. simpl. by rewrite lookup_insert_ne. Qed.

(** Provisioning a user shows nobody a table that was not there. *)
Lemma tenant_init_db u v st : tenant v (init_db u st).2 = tenant v st.
Proof.
  unfold init_db. destruct (data st !! u) eqn:Hu; simpl; [done |].
  destruct (decide (u = v)) as [->|Hne].
  - rewrite tenant_write_db. unfold tenant. by rewrite Hu.
  - by apply tenant_write_db_ne.
Qed.

Lemma write_db_init_db u db st : write_db u db (init_db u st).2 = write_db u db st.
Proof.
  unfold init_db. destruct (data st !! u); simpl; [done |].
  unfold write_db. simpl. by rewrite insert_insert_eq.
Qed.

Lemma current_user_init_db u st : CURRENT_USER_ID (init_db u st).2 = CURRENT_USER_ID st.
Proof. unfold init_db. by destruct (data st !! u). Qed.

Lemma resolve_user_id_write_db user_id u db st :
  resolve_user_id user_id (write_db u db st)
  = ((resolve_user_id user_id st).1, write_db u db st).
Proof.
  unfold resolve_user_id. destruct user_id as [v|]; [destruct (Py.falsy v)|]; done.
Qed.

(** A tool that provisions the user and then works on the tables. *)
Lemma provision_then {A} u (k : database → tool A) st :
  (init_db u ;; db ← read_db u; k db) st = k (tenant u st) (init_db u st).2.
Proof.
  unfold mbind, tool_bind. destruct (init_db_ok u st) as [st' Hst'].
  rewrite Hst'. simpl. unfold read_db.
  replace st' with (init_db u st).2 by by rewrite Hst'.
  by rewrite tenant_init_db.
Qed.

Lemma positive_not_le (a : Q) : (0 < a)%Q → Qle_bool a 0 = false.
Proof.
  intros Hpos. apply not_true_iff_false. rewrite Qle_bool_iff. by apply Qlt_not_le.
Qed.

Lemma not_le_positive (a : Q) : Qle_bool a 0 = false → (0 < a)%Q.
Proof.
  intros Hle. apply Qnot_le_lt. intros Hle'%Qle_bool_iff. congruence.
Qed.


(** ** Weakest preconditions *)

Section WP.

Context {A : Type} (Q : A → state → Prop) (E : state → Prop) (st : state).

Lemma wp_ret a : Q a st → wp (mret a) Q E st.
Proof. done. Qed.

Lemma wp_raise e : E st → wp (raise e) Q E st.
Proof. done. Qed.

Lemma wp_pure r :
  match r with Ok a => Q a st | Raise _ => E st end → wp (pure r) Q E st.
Proof. done. Qed.

Lemma wp_bind {B} (m : tool B) (k : B → tool A) :
  wp m (fun b => wp (k b) Q E) E st → wp (m ≫= k) Q E st.
Proof.
  unfold wp, mbind, tool_bind. by destruct (m st) as [[b|e] st'].
Qed.

End WP.

Lemma wp_resolve_user_id Q E st user_id :
  (∀ u, resolve_user_id user_id st = (Ok u, st) → Q u st) →
  wp (resolve_user_id user_id) Q E st.
Proof.
  intros HQ. destruct (resolve_user_id_ok user_id st) as [u Hu].
  unfold wp. rewrite Hu. by apply HQ.
Qed.

Lemma wp_init_db Q E st u : Q tt (init_db u st).2 → wp (init_db u) Q E st.
Proof. unfold wp. by destruct (init_db_ok u st) as [st' ->]. Qed.

Lemma wp_read_db Q E st u : Q (tenant u st) st → wp (read_db u) Q E st.
Proof. done. Qed.

Lemma wp_commit Q E st u db : Q tt (write_db u db st) → wp (commit u db) Q E st.
Proof. done. Qed.

Lemma wp_get_current_user Q E st : Q (CURRENT_USER_ID st) st → wp get_current_user Q E st.
Proof. done. Qed.

Lemma wp_assign_current_user Q E st u :
  Q tt {| CURRENT_USER_ID := u; data := data st |} → wp (assign_current_user u) Q E st.
Proof. done. Qed.

(** The store a tool leaves satisfies the postcondition it was run for,
    whether it returned or raised. *)
Lemma wp_final {A} (t : tool A) (I : state → Prop) st :
  wp t (fun _ => I) I st → I (t st).2.
Proof. unfold wp. by destruct (t st) as [[a|e] st']. Qed.

(** One step of the symbolic execution of a tool. *)
Ltac wp_step :=
  lazymatch goal with
  | |- wp (_ ≫= _) _ _ _ => apply wp_bind
  | |- wp (mret _) _ _ _ => apply wp_ret
  | |- wp (raise _) _ _ _ => apply wp_raise
  | |- wp (pure _) _ _ _ => apply wp_pure
  | |- wp (resolve_user_id _) _ _ _ => apply wp_resolve_user_id; intros ? ?
  | |- wp (init_db _) _ _ _ => apply wp_init_db
  | |- wp (read_db _) _ _ _ => apply wp_read_db
  | |- wp (commit _ _) _ _ _ => apply wp_commit
  | |- wp get_current_user _ _ _ => apply wp_get_current_user
  | |- wp (assign_current_user _) _ _ _ => apply wp_assign_current_user
  | |- wp (if ?b then _ else _) _ _ _ => destruct b eqn:?
  | |- wp (match ?x with _ => _ end) _ _ _ => destruct x eqn:?
  | |- match ?x with _ => _ end => destruct x eqn:?
  end.

Ltac wp_run := repeat (wp_step; simpl).

Ltac unfold_tools :=
  unfold handle, respond;
  unfold add_expense, list_expenses, update_expense, run_update, delete_expense,
    add_saving, add_saving_goal, get_saving_goal_insights, set_budget,
    check_budget_status, update_budget, delete_budget, initialize_user,
    set_current_user, insert_row.

(** ** What the tools compute *)

Lemma add_expense_run res date amount category subcategory note user_id st u c s :
  resolve_user_id user_id st = (Ok u, st) →
  (0 < amount)%Q →
  validate_category res category (Some subcategory) = Ok (c, s) →
  let db := tenant u st in
  let i := next_rowid (expenses db) in
  let e := {| e_id := i; e_date := date; e_amount := amount;
              e_category := c; e_subcategory := s; e_note := note |} in
  add_expense res date amount category subcategory note user_id st
  = (Ok {| added_id := i; added_category := c; added_subcategory := s |},
     write_db u (with_expenses {| rows := rows (expenses db) ++ [e]; seq := i |} db) st).
Proof.
  intros Hu Hpos Hval db i e. unfold add_expense.
  unfold mbind at 1. unfold tool_bind at 1. rewrite Hu.
  rewrite (positive_not_le _ Hpos).
  unfold mbind at 1. unfold tool_bind at 1. unfold pure at 1. rewrite Hval.
  rewrite provision_then. fold db. unfold insert_row. fold i.
  unfold mbind, tool_bind, commit, mret, tool_ret. simpl.
  by rewrite write_db_init_db.
Qed.

Lemma add_saving_run res date amount source note user_id st u src :
  resolve_user_id user_id st = (Ok u, st) →
  (0 < amount)%Q →
  validate_saving_source res source = Ok src →
  let db := tenant u st in
  let i := next_rowid (savings db) in
  let s := {| s_id := i; s_date := date; s_amount := amount;
              s_source := src; s_note := note |} in
  add_saving res date amount source note user_id st
  = (Ok i, write_db u (with_savings {| rows := rows (savings db) ++ [s]; seq := i |} db) st).
Proof.
  intros Hu Hpos Hval db i s. unfold add_saving.
  unfold mbind at 1. unfold tool_bind at 1. rewrite Hu.
  rewrite (positive_not_le _ Hpos).
  unfold mbind at 1. unfold tool_bind at 1. unfold pure at 1. rewrite Hval.
  rewrite provision_then. fold db. unfold insert_row. fold i.
  unfold mbind, tool_bind, commit, mret, tool_ret. simpl.
  by rewrite write_db_init_db.
Qed.

Lemma list_expenses_run user_id st u :
  resolve_user_id user_id st = (Ok u, st) →
  list_expenses user_id st
  = (Ok (order_by_date_desc e_date (rows (expenses (tenant u st)))), (init_db u st).2).
Proof.
  intros Hu. unfold list_expenses.
  unfold mbind at 1. unfold tool_bind at 1. rewrite Hu.
  by rewrite provision_then.
Qed.

Lemma set_budget_run res category limit user_id st u c s :
  resolve_user_id user_id st = (Ok u, st) →
  (0 < limit)%Q →
  validate_category res category None = Ok (c, s) →
  set_budget res category limit user_id st
  = (Ok {| set_category := c; set_monthly_limit := limit |},
     write_db u (with_budgets (upsert_budget c limit (budgets (tenant u st)))
                              (tenant u st)) st).
Proof.
  intros Hu Hpos Hval. unfold set_budget.
  unfold mbind at 1. unfold tool_bind at 1. rewrite Hu.
  rewrite (positive_not_le _ Hpos).
  unfold mbind at 1. unfold tool_bind at 1. unfold pure at 1. rewrite Hval.
  rewrite provision_then.
  unfold mbind, tool_bind, commit, mret, tool_ret. simpl.
  by rewrite write_db_init_db.
Qed.

(** ** Rejected writes *)

(** C4: for every amount [a <= 0], [add_expense] and [add_saving] raise
    [ValueError] (the validation error of the specification) before any
    write: the store after the call is the store before it. *)
Theorem nonpositive_amount_rejected res st date amount category subcategory
    source note user_id :
  (amount <= 0)%Q →
  add_expense res date amount category subcategory note user_id st
  = (Raise ValueError, st)
  ∧ add_saving res date amount source note user_id st = (Raise ValueError, st).
Proof.
  intros Hle. apply Qle_bool_iff in Hle.
  destruct (resolve_user_id_ok user_id st) as [v Hv].
  unfold add_expense, add_saving, mbind, tool_bind. rewrite Hv, Hle. done.
Qed.

Lemma nonpositive_amount_rejected_witness :
  (-5 <= 0)%Q
  ∧ add_expense sample_resources "2024-03-05" (-5) "food" "dining" "" (Some "ann")
      budget_scenario = (Raise ValueError, budget_scenario)
  ∧ add_saving sample_resources "2024-03-05" (-5) "salary" "" (Some "ann")
      budget_scenario = (Raise ValueError, budget_scenario).
Proof.
  split; [by vm_compute |].
  apply (nonpositive_amount_rejected sample_resources budget_scenario).
  by vm_compute.
Defined.

(** ** Ordering and row identifiers *)

Lemma insert_desc_perm {A} (date : A → string) x l : insert_desc date x l ≡ₚ x :: l.
Proof.
  induction l as [|y l IH]; simpl; [done |].
  destruct (text_lt (date x) (date y)); [| done].
  rewrite IH. apply Permutation_swap.
Qed.

Lemma order_by_date_desc_perm {A} (date : A → string) l :
  order_by_date_desc date l ≡ₚ l.
Proof.
  unfold order_by_date_desc. induction l as [|x l IH]; simpl; [done |].
  by rewrite insert_desc_perm, IH.
Qed.

(** The rowid of an insert is larger than every rowid of the table. *)
Lemma next_rowid_fresh {A} `{Row A} (t : table A) r :
  r ∈ rows t → rowid r < next_rowid t.
Proof.
  unfold next_rowid. generalize (seq t). induction (rows t) as [|x l IH]; intros z Hin.
  - by apply not_elem_of_nil in Hin.
  - apply elem_of_cons in Hin as [->|Hin]; simpl.
    + lia.
    + specialize (IH z Hin). lia.
Qed.

Lemma filter_none {A} (P : A → Prop) `{∀ x, Decision (P x)} (l : list A) :
  (∀ x, x ∈ l → ¬ P x) → filter P l = [].
Proof.
  induction l as [|x l IH]; intros Hl; [done |].
  rewrite filter_cons_False by (apply Hl; left).
  apply IH. intros y Hy. apply Hl. by right.
Qed.

Lemma find_none_all {A} (f : A → bool) (l : list A) :
  (∀ x, x ∈ l → f x = false) → find f l = None.
Proof.
  induction l as [|x l IH]; intros Hl; simpl; [done |].
  rewrite (Hl x) by left. apply IH. intros y Hy. apply Hl. by right.
Qed.

Lemma find_app_none {A} (f : A → bool) (l l' : list A) :
  (∀ x, x ∈ l → f x = false) → find f (l ++ l') = find f l'.
Proof.
  induction l as [|x l IH]; intros Hl; simpl; [done |].
  rewrite (Hl x) by left. apply IH. intros y Hy. apply Hl. by right.
Qed.

(** The row an insert appends is the row its rowid selects. *)
Lemma select_by_id_inserted {A} `{Row A} (mk : Z → A) (t : table A) :
  (∀ i, rowid (mk i) = i) →
  select_by_id (insert_row mk t).1 (insert_row mk t).2 = Some (mk (next_rowid t)).
Proof.
  intros Hmk. unfold select_by_id, insert_row. simpl.
  rewrite find_app_none.
  - simpl. by rewrite Hmk, Z.eqb_refl.
  - intros x Hx. apply Z.eqb_neq. pose proof (next_rowid_fresh t x Hx). lia.
Qed.

Lemma select_by_id_map {A} `{Row A} (f : A → A) i (t : table A) r :
  (∀ x, rowid (f x) = rowid x) →
  select_by_id i t = Some r →
  select_by_id i {| rows := map (fun x => if rowid x =? i then f x else x) (rows t);
                    seq := seq t |} = Some (f r).
Proof.
  intros Hid. unfold select_by_id. simpl.
  induction (rows t) as [|x l IH]; simpl; [done |].
  destruct (rowid x =? i) eqn:Hx.
  - intros [= ->]. by rewrite Hid, Hx.
  - rewrite Hx. apply IH.
Qed.

Lemma select_by_id_count {A} `{Row A} i (t : table A) r :
  select_by_id i t = Some r → count_by_id i t ≠ 0%nat.
Proof.
  unfold select_by_id, count_by_id. intros [Hin Hr%Z.eqb_eq]%find_some.
  apply list_elem_of_In in Hin.
  assert (r ∈ filter (fun x => rowid x = i) (rows t)) as Hr'
    by by apply list_elem_of_filter.
  destruct (filter _ _); [by apply not_elem_of_nil in Hr' | done].
Qed.

(** ** Dates on the write path *)

(** C5 (as amended): [add_expense] and [add_saving] do not look at the form
    of the date.  For every date string, well formed or not, a call with a
    positive amount whose category and source normalize returns normally
    and persists a row that carries the string unchanged. *)
Theorem dates_stored_unchecked res st date amount category subcategory source
    note user_id c s src :
  (0 < amount)%Q →
  validate_category res category (Some subcategory) = Ok (c, s) →
  validate_saving_source res source = Ok src →
  ∃ u r st1 i st2,
    resolve_user_id user_id st = (Ok u, st)
    ∧ add_expense res date amount category subcategory note user_id st = (Ok r, st1)
    ∧ select_by_id (added_id r) (expenses (tenant u st1))
      = Some {| e_id := added_id r; e_date := date; e_amount := amount;
                e_category := c; e_subcategory := s; e_note := note |}
    ∧ add_saving res date amount source note user_id st = (Ok i, st2)
    ∧ select_by_id i (savings (tenant u st2))
      = Some {| s_id := i; s_date := date; s_amount := amount;
                s_source := src; s_note := note |}.
Proof.
  intros Hpos Hval Hsrc. destruct (resolve_user_id_ok user_id st) as [u Hu].
  pose proof (add_expense_run res date amount category subcategory note
                user_id st u c s Hu Hpos Hval) as Hexp.
  pose proof (add_saving_run res date amount source note user_id st u src
                Hu Hpos Hsrc) as Hsav.
  simpl in Hexp, Hsav.
  eexists u, _, _, _, _. split; [done |].
  split; [exact Hexp |]. split.
  { rewrite tenant_write_db. simpl.
    by apply (select_by_id_inserted
                (fun i => {| e_id := i; e_date := date; e_amount := amount;
                             e_category := c; e_subcategory := s; e_note := note |})). }
  split; [exact Hsav |].
  rewrite tenant_write_db. simpl.
  by apply (select_by_id_inserted
              (fun i => {| s_id := i; s_date := date; s_amount := amount;
                           s_source := src; s_note := note |})).
Qed.

Lemma dates_stored_unchecked_witness :
  (0 < 10)%Q
  ∧ validate_category sample_resources "food" (Some "dining") = Ok ("food", "dining")
  ∧ validate_saving_source sample_resources "salary" = Ok "salary"
  ∧ Datetime.strptime "next friday" = Raise ValueError
  ∧ ∃ u r st1 i st2,
      resolve_user_id None initial_state = (Ok u, initial_state)
      ∧ add_expense sample_resources "next friday" 10 "food" "dining" "" None
          initial_state = (Ok r, st1)
      ∧ select_by_id (added_id r) (expenses (tenant u st1))
        = Some {| e_id := added_id r; e_date := "next friday"; e_amount := 10;
                  e_category := "food"; e_subcategory := "dining"; e_note := "" |}
      ∧ add_saving sample_resources "next friday" 10 "salary" "" None initial_state
        = (Ok i, st2)
      ∧ select_by_id i (savings (tenant u st2))
        = Some {| s_id := i; s_date := "next friday"; s_amount := 10;
                  s_source := "salary"; s_note := "" |}.
Proof.
  split; [by vm_compute |].
  split; [by vm_compute |].
  split; [by vm_compute |].
  split; [by vm_compute |].
  apply (dates_stored_unchecked sample_resources initial_state "next friday" 10
           "food" "dining" "salary" "" None "food" "dining" "salary").
  - by vm_compute.
  - by vm_compute.
  - by vm_compute.
Defined.

(** C5 (as stated) fails: a date that [strptime] rejects is accepted by
    [add_expense] and by [add_saving], and the row is persisted with it. *)
Lemma malformed_date_is_persisted :
  let expense := add_expense sample_resources "31/12/2024" 10 "food" "dining" ""
                   None initial_state in
  let saving := add_saving sample_resources "31/12/2024" 10 "salary" ""
                  None initial_state in
  Datetime.strptime "31/12/2024" = Raise ValueError
  ∧ expense.1 = Ok {| added_id := 1; added_category := "food";
                      added_subcategory := "dining" |}
  ∧ map e_date (rows (expenses (tenant "default_user" expense.2))) = ["31/12/2024"]
  ∧ saving.1 = Ok 1
  ∧ map s_date (rows (savings (tenant "default_user" saving.2))) = ["31/12/2024"].
Proof. vm_compute. done. Qed.

(** ** Adding an expense and listing it *)

(** C7: for every positive amount and every category and subcategory that
    normalize to [(c, s)], [add_expense] followed by [list_expenses] for the
    same user lists exactly one record with the returned id; it bears the
    normalized category and subcategory and the given date, amount and
    note; no expense listed before the call has that id, and the list is
    the former list with this one record added. *)
Theorem add_expense_then_list res st date amount category subcategory note
    user_id c s :
  (0 < amount)%Q →
  validate_category res category (Some subcategory) = Ok (c, s) →
  ∃ r st' before st0 after st'',
    add_expense res date amount category subcategory note user_id st = (Ok r, st')
    ∧ list_expenses user_id st = (Ok before, st0)
    ∧ list_expenses user_id st' = (Ok after, st'')
    ∧ added_category r = c ∧ added_subcategory r = s
    ∧ filter (fun e => e_id e = added_id r) after
      = [ {| e_id := added_id r; e_date := date; e_amount := amount;
             e_category := c; e_subcategory := s; e_note := note |} ]
    ∧ (∀ e, e ∈ before → e_id e ≠ added_id r)
    ∧ after ≡ₚ {| e_id := added_id r; e_date := date; e_amount := amount;
                  e_category := c; e_subcategory := s; e_note := note |} :: before.
Proof.
  intros Hpos Hval. destruct (resolve_user_id_ok user_id st) as [u Hu].
  pose proof (add_expense_run res date amount category subcategory note
                user_id st u c s Hu Hpos Hval) as Hadd. simpl in Hadd.
  set (db := tenant u st) in *. set (i := next_rowid (expenses db)) in *.
  set (e := {| e_id := i; e_date := date; e_amount := amount; e_category := c;
               e_subcategory := s; e_note := note |}) in *.
  set (st' := write_db u _ st) in Hadd.
  assert (resolve_user_id user_id st' = (Ok u, st')) as Hu'.
  { unfold st'. by rewrite resolve_user_id_write_db, Hu. }
  eexists _, st', _, _, _, _. split; [exact Hadd |].
  split; [exact (list_expenses_run user_id st u Hu) |].
  split; [exact (list_expenses_run user_id st' u Hu') |].
  simpl. fold db. unfold st' at 1 2. rewrite tenant_write_db. simpl.
  assert (∀ x, x ∈ rows (expenses db) → e_id x ≠ i) as Hfresh.
  { intros x Hx. pose proof (next_rowid_fresh (expenses db) x Hx) as Hlt.
    fold i in Hlt. unfold rowid, expense_row in Hlt. lia. }
  assert (order_by_date_desc e_date (rows (expenses db) ++ [e]) ≡ₚ
          e :: order_by_date_desc e_date (rows (expenses db))) as Hperm.
  { rewrite !order_by_date_desc_perm. by rewrite Permutation_app_comm. }
  split_and!; [done | done | | | exact Hperm].
  - apply (proj1 (Permutation_singleton_r _ _)). rewrite Hperm.
    rewrite filter_cons_True by done.
    rewrite filter_none; [done |]. intros x Hx.
    apply Hfresh. by rewrite <- (order_by_date_desc_perm e_date).
  - intros x Hx. apply Hfresh. by rewrite <- (order_by_date_desc_perm e_date).
Qed.

Lemma add_expense_then_list_witness :
  (0 < 12)%Q
  ∧ validate_category sample_resources "Food" (Some " Dining ") = Ok ("food", "dining")
  ∧ ∃ r st' before st0 after st'',
      add_expense sample_resources "2024-03-05" 12 "Food" " Dining " "lunch" None
        budget_scenario = (Ok r, st')
      ∧ list_expenses None budget_scenario = (Ok before, st0)
      ∧ list_expenses None st' = (Ok after, st'')
      ∧ added_category r = "food" ∧ added_subcategory r = "dining"
      ∧ filter (fun e => e_id e = added_id r) after
        = [ {| e_id := added_id r; e_date := "2024-03-05"; e_amount := 12;
               e_category := "food"; e_subcategory := "dining";
               e_note := "lunch" |} ]
      ∧ (∀ e, e ∈ before → e_id e ≠ added_id r)
      ∧ after ≡ₚ {| e_id := added_id r; e_date := "2024-03-05"; e_amount := 12;
                    e_category := "food"; e_subcategory := "dining";
                    e_note := "lunch" |} :: before.
Proof.
  split; [by vm_compute |].
  split; [by vm_compute |].
  apply (add_expense_then_list sample_resources budget_scenario "2024-03-05" 12
           "Food" " Dining " "lunch" None "food" "dining").
  - by vm_compute.
  - by vm_compute.
Defined.

(** The listing is by date, latest first, with the new record in place. *)
Example list_after_add :
  map (fun e => (e_id e, e_date e))
      (default []
         (match list_expenses None
                  (add_expense sample_resources "2024-03-05" 12 "Food" " Dining "
                     "lunch" None budget_scenario).2 with
          | (Ok l, _) => Some l
          | (Raise _, _) => None
          end))
  = [(5, "2024-04-01"); (3, "2024-03-31"); (4, "2024-03-15"); (6, "2024-03-05");
     (2, "2024-03-01"); (1, "2024-02-29")].
Proof. vm_compute. reflexivity. Qed.

(** ** Invariants of the budgets table *)

Section BudgetsInvariant.

(** An invariant [J] of the budgets table of every user, closed under the
    three statements that write the table, holds in every state the server
    reaches while its resource files satisfy [P]. *)
Variable P : resources → Prop.
Variable J : table budget → Prop.

Hypothesis J_empty : J empty_table.
Hypothesis J_upsert : ∀ res category c s limit t,
  P res → validate_category res category None = Ok (c, s) → (0 < limit)%Q →
  J t → J (upsert_budget c limit t).
Hypothesis J_set_limit : ∀ c limit t, (0 < limit)%Q → J t → J (set_limit c limit t).
Hypothesis J_delete : ∀ c t, J t → J (delete_category c t).

Lemma budgets_inv_init_db u st : budgets_inv J st → budgets_inv J (init_db u st).2.
Proof. intros H v. by rewrite tenant_init_db. Qed.

Lemma budgets_inv_write_db u db st :
  budgets_inv J st → J (budgets db) → budgets_inv J (write_db u db st).
Proof.
  intros H Hdb v. destruct (decide (u = v)) as [->|Hne].
  - by rewrite tenant_write_db.
  - by rewrite tenant_write_db_ne.
Qed.

Lemma handle_budgets_inv res req st :
  P res → budgets_inv J st → budgets_inv J (handle res req st).2.
Proof.
  intros HP Hst. apply wp_final.
  destruct req; unfold_tools.
  all: wp_run.
  all: try done.
  all: repeat first [ apply budgets_inv_write_db | apply budgets_inv_init_db ]; try done.
  all: simpl; rewrite ?tenant_init_db; try apply Hst.
  all: eauto using not_le_positive.
Qed.

Lemma reachable_budgets_inv st : reachable P st → budgets_inv J st.
Proof.
  induction 1 as [|res req st HP Hreach IH].
  - intros u. unfold tenant. simpl. by rewrite lookup_empty.
  - by apply handle_budgets_inv.
Qed.

End BudgetsInvariant.

Lemma reachable_serve (P : resources → Prop) res reqs st :
  P res → reachable P st → reachable P (serve res reqs st).
Proof.
  intros HP. unfold serve. revert st.
  induction reqs as [|req reqs IH]; intros st Hst; simpl; [done |].
  apply IH. by apply reachable_handle.
Qed.

(** ** The budgets table *)

Lemma existsb_category c (l : list budget) :
  existsb (fun b => bool_decide (b_category b = c)) l = true ↔ c ∈ map b_category l.
Proof.
  rewrite existsb_exists, list_elem_of_fmap. split.
  - intros (b & Hin & Hb). apply bool_decide_eq_true in Hb.
    exists b. split; [done | by apply list_elem_of_In].
  - intros (b & -> & Hin). exists b. split; [by apply list_elem_of_In |].
    by apply bool_decide_eq_true.
Qed.

Lemma set_limit_categories c limit t :
  map b_category (rows (set_limit c limit t)) = map b_category (rows t).
Proof.
  unfold set_limit. simpl. induction (rows t) as [|b l IH]; simpl; [done |].
  rewrite IH. by case_bool_decide.
Qed.

Lemma upsert_budget_categories c limit t :
  map b_category (rows (upsert_budget c limit t))
  = if existsb (fun b => bool_decide (b_category b = c)) (rows t)
    then map b_category (rows t) else (map b_category (rows t) ++ [c])%list.
Proof.
  unfold upsert_budget. destruct (existsb _ _).
  - apply set_limit_categories.
  - simpl. by rewrite map_app.
Qed.

Lemma upsert_budget_unique c limit t :
  NoDup (map b_category (rows t)) → NoDup (map b_category (rows (upsert_budget c limit t))).
Proof.
  intros Hnd. rewrite upsert_budget_categories.
  destruct (existsb _ _) eqn:Hex; [done |].
  apply NoDup_app. split_and!; [done | | apply NoDup_singleton].
  intros x Hx ->%list_elem_of_singleton.
  apply existsb_category in Hx. congruence.
Qed.

Lemma delete_category_unique c t :
  NoDup (map b_category (rows t)) → NoDup (map b_category (rows (delete_category c t))).
Proof.
  unfold delete_category. simpl. induction (rows t) as [|b l IH]; simpl; [done |].
  intros [Hb Hl]%NoDup_cons. destruct (decide (b_category b ≠ c)).
  - rewrite filter_cons_True by done. simpl. apply NoDup_cons. split; [| by apply IH].
    intros (b' & Heq & Hin)%list_elem_of_fmap. apply Hb.
    apply list_elem_of_fmap. exists b'. split; [done |].
    by apply list_elem_of_filter in Hin as [_ Hin].
  - rewrite filter_cons_False by done. by apply IH.
Qed.

(** A category that names at most one row selects that row alone. *)
Lemma with_category_unique c t b :
  NoDup (map b_category (rows t)) → b ∈ rows t → b_category b = c →
  with_category c t = [b].
Proof.
  unfold with_category. induction (rows t) as [|x l IH]; simpl.
  - intros _ Hin. by apply not_elem_of_nil in Hin.
  - intros [Hx Hl]%NoDup_cons Hin Hc.
    apply elem_of_cons in Hin as [<-|Hin].
    + rewrite filter_cons_True by done. f_equal.
      apply filter_none. intros y Hy Hyc. apply Hx.
      apply list_elem_of_fmap. exists y. split; [congruence | done].
    + rewrite filter_cons_False; [by apply IH |].
      intros Hxc. apply Hx. apply list_elem_of_fmap. exists b. split; [congruence | done].
Qed.

(** After an upsert every row of the category carries the new limit. *)
Lemma upsert_budget_lookup c limit t b :
  b ∈ with_category c (upsert_budget c limit t) → b_monthly_limit b = limit.
Proof.
  unfold with_category, upsert_budget. intros [Hc Hin]%list_elem_of_filter.
  destruct (existsb _ _) eqn:Hex.
  - unfold set_limit in Hin. simpl in Hin.
    apply list_elem_of_fmap in Hin as (b0 & -> & Hin).
    case_bool_decide as Hb0; [done | congruence].
  - simpl in Hin. apply elem_of_app in Hin as [Hin|Hin].
    + exfalso. apply not_true_iff_false in Hex. apply Hex, existsb_category.
      apply list_elem_of_fmap. by exists b.
    + by apply list_elem_of_singleton in Hin as ->.
Qed.

(** After an upsert the category names a row. *)
Lemma upsert_budget_present c limit t :
  ∃ b, b ∈ rows (upsert_budget c limit t) ∧ b_category b = c.
Proof.
  unfold upsert_budget. destruct (existsb _ _) eqn:Hex.
  - apply existsb_category, list_elem_of_fmap in Hex as (b & -> & Hin).
    exists {| b_id := b_id b; b_category := b_category b; b_monthly_limit := limit |}.
    split; [| done]. unfold set_limit. simpl. apply list_elem_of_fmap.
    exists b. split; [| done]. by rewrite bool_decide_eq_true_2.
  - eexists. split; [simpl; apply elem_of_app; right; apply list_elem_of_singleton; done |].
    done.
Qed.

Lemma upsert_budget_in (categories : gmap string (list string)) c limit t :
  is_Some (categories !! c) →
  (∀ b, b ∈ rows t → is_Some (categories !! b_category b)) →
  ∀ b, b ∈ rows (upsert_budget c limit t) → is_Some (categories !! b_category b).
Proof.
  intros Hc Ht b. unfold upsert_budget. destruct (existsb _ _).
  - unfold set_limit. simpl. intros (b0 & -> & Hin)%list_elem_of_fmap.
    case_bool_decide; simpl; by apply Ht.
  - simpl. intros [Hin| ->%list_elem_of_singleton]%elem_of_app; [by apply Ht | done].
Qed.


(** Whatever the resource files were at each request, no user ever has two
    budget rows for one category. *)
Lemma reachable_budgets_unique st : reachable (fun _ => True) st → budgets_unique st.
Proof.
  apply (reachable_budgets_inv (fun _ => True)).
  - apply NoDup_nil_2.
  - intros. by apply upsert_budget_unique.
  - intros. by rewrite set_limit_categories.
  - intros. by apply delete_category_unique.
Qed.


(** While the categories file stays the same, budgets are stored under its
    keys only. *)
Lemma reachable_budgets_in (categories : gmap string (list string)) st :
  reachable (fun res => categories_json res = Some categories) st →
  budgets_in categories st.
Proof.
  apply (reachable_budgets_inv (fun res => categories_json res = Some categories)).
  - intros b Hin. by apply not_elem_of_nil in Hin.
  - intros res category c s limit t Hload Hval _ Ht.
    apply upsert_budget_in; [| done]. by eapply validate_category_key.
  - intros c limit t _ Ht b. unfold set_limit. simpl.
    intros (b0 & -> & Hin)%list_elem_of_fmap. case_bool_decide; simpl; by apply Ht.
  - intros c t Ht b. unfold delete_category. simpl.
    intros [_ Hin]%list_elem_of_filter. by apply Ht.
Qed.

(** C6: in every state the server can reach, no user has two budget rows
    for one category; and from such a state, [set_budget(cat, L1)] followed
    by [set_budget(cat, L2)] (positive limits, a category that normalizes
    to [c]) leaves exactly one budget row for [c], with limit [L2]. *)
Theorem set_budget_twice res st category limit1 limit2 user_id c s :
  reachable (fun _ => True) st →
  (0 < limit1)%Q → (0 < limit2)%Q →
  validate_category res category None = Ok (c, s) →
  budgets_unique st
  ∧ ∃ u st1 st2 b,
      resolve_user_id user_id st = (Ok u, st)
      ∧ set_budget res category limit1 user_id st
        = (Ok {| set_category := c; set_monthly_limit := limit1 |}, st1)
      ∧ set_budget res category limit2 user_id st1
        = (Ok {| set_category := c; set_monthly_limit := limit2 |}, st2)
      ∧ with_category c (budgets (tenant u st2)) = [b]
      ∧ b_monthly_limit b = limit2
      ∧ budgets_unique st2.
Proof.
  intros Hreach Hpos1 Hpos2 Hval.
  split; [by apply reachable_budgets_unique |].
  destruct (resolve_user_id_ok user_id st) as [u Hu].
  pose proof (set_budget_run res category limit1 user_id st u c s Hu Hpos1 Hval) as H1.
  set (st1 := write_db u _ st) in H1.
  assert (resolve_user_id user_id st1 = (Ok u, st1)) as Hu1.
  { unfold st1. by rewrite resolve_user_id_write_db, Hu. }
  pose proof (set_budget_run res category limit2 user_id st1 u c s Hu1 Hpos2 Hval) as H2.
  set (st2 := write_db u _ st1) in H2.
  assert (budgets_unique st2) as Hunique.
  { apply reachable_budgets_unique.
    replace st2 with (handle res (SetBudget category limit2 user_id) st1).2
      by (simpl; unfold respond, mbind, tool_bind; by rewrite H2).
    apply reachable_handle; [done |].
    replace st1 with (handle res (SetBudget category limit1 user_id) st).2
      by (simpl; unfold respond, mbind, tool_bind; by rewrite H1).
    by apply reachable_handle. }
  pose proof (Hunique u) as Hnd.
  assert (budgets (tenant u st2)
          = upsert_budget c limit2 (budgets (tenant u st1))) as Ht2.
  { unfold st2. by rewrite tenant_write_db. }
  destruct (upsert_budget_present c limit2 (budgets (tenant u st1))) as (b & Hin & Hc).
  exists u, st1, st2, b. split_and!; try done.
  - rewrite Ht2. apply with_category_unique; [by rewrite <- Ht2 | done | done].
  - apply (upsert_budget_lookup c limit2 (budgets (tenant u st1))).
    unfold with_category. by apply list_elem_of_filter.
Qed.

Lemma budget_scenario_reachable P :
  P sample_resources → reachable P budget_scenario.
Proof. intros HP. apply reachable_serve; [done | constructor]. Qed.

Lemma set_budget_twice_witness :
  reachable (fun _ => True) budget_scenario
  ∧ (0 < 100)%Q ∧ (0 < 150)%Q
  ∧ validate_category sample_resources " Food" None = Ok ("food", "other")
  ∧ budgets_unique budget_scenario
  ∧ ∃ u st1 st2 b,
      resolve_user_id None budget_scenario = (Ok u, budget_scenario)
      ∧ set_budget sample_resources " Food" 100 None budget_scenario
        = (Ok {| set_category := "food"; set_monthly_limit := 100 |}, st1)
      ∧ set_budget sample_resources " Food" 150 None st1
        = (Ok {| set_category := "food"; set_monthly_limit := 150 |}, st2)
      ∧ with_category "food" (budgets (tenant u st2)) = [b]
      ∧ b_monthly_limit b = 150%Q
      ∧ budgets_unique st2.
Proof.
  split; [by apply budget_scenario_reachable |].
  split; [by vm_compute |].
  split; [by vm_compute |].
  split; [by vm_compute |].
  apply (set_budget_twice sample_resources budget_scenario " Food" 100 150 None
           "food" "other").
  - by apply budget_scenario_reachable.
  - by vm_compute.
  - by vm_compute.
  - by vm_compute.
Defined.

(** The two calls on the scenario: one row, the one that was there, now
    with the last limit. *)
Example set_budget_twice_rows :
  rows (budgets (tenant "default_user"
         (serve sample_resources
            [SetBudget " Food" 100 None; SetBudget " Food" 150 None]
            budget_scenario)))
  = [ {| b_id := 1; b_category := "food"; b_monthly_limit := 150 |} ].
Proof. vm_compute. reflexivity. Qed.

(** ** Looking a budget up *)

Lemma select_budget_None c db :
  (∀ b, b ∈ rows (budgets db) → b_category b ≠ c) ↔ select_budget c db = None.
Proof.
  unfold select_budget. split.
  - intros Hne. apply find_none_all. intros b Hin.
    apply bool_decide_eq_false. by apply Hne.
  - intros Hnone b Hin. apply list_elem_of_In in Hin.
    by apply (find_none _ _ Hnone), bool_decide_eq_false in Hin.
Qed.

Lemma select_budget_Some c db b :
  select_budget c db = Some b → b ∈ rows (budgets db) ∧ b_category b = c.
Proof.
  unfold select_budget. intros [Hin Hc%bool_decide_eq_true]%find_some.
  split; [by apply list_elem_of_In | done].
Qed.

Lemma check_budget_status_none category year month user_id st u :
  resolve_user_id user_id st = (Ok u, st) →
  select_budget (Py.lower category) (tenant u st) = None →
  check_budget_status category year month user_id st = (Ok NoBudget, (init_db u st).2).
Proof.
  intros Hu Hnone. unfold check_budget_status.
  unfold mbind at 1. unfold tool_bind at 1. rewrite Hu.
  rewrite provision_then. by rewrite Hnone.
Qed.


Lemma delete_budget_none category user_id st u :
  resolve_user_id user_id st = (Ok u, st) →
  select_budget (Py.lower category) (tenant u st) = None →
  (delete_budget category user_id st).1 = Ok DeleteNotFound.
Proof.
  intros Hu Hnone. unfold delete_budget.
  unfold mbind at 1. unfold tool_bind at 1. rewrite Hu.
  rewrite provision_then. unfold mbind, tool_bind, commit. simpl.
  unfold with_category. rewrite filter_none; [done |].
  intros b Hb. by apply (proj2 (select_budget_None _ _) Hnone).
Qed.

(** C10: [set_budget] stores the budget under the category the normalizer
    returns, a key of the vocabulary, while [check_budget_status] and
    [delete_budget] look for the lowercased raw string.  So, with the
    categories file unchanged since the server started, for every raw
    category whose lowercased form is not a key of the vocabulary,
    [set_budget(c, L)] followed by [check_budget_status(c, y, m)] for the
    same user answers [no_budget], and [delete_budget(c)] answers
    [not_found], although the budget is stored. *)
Theorem set_budget_then_check res categories st category limit year month user_id :
  categories_json res = Some categories →
  vocabulary_ok categories →
  reachable (fun r => categories_json r = Some categories) st →
  (0 < limit)%Q →
  categories !! Py.lower category = None →
  ∃ u c s st1 b,
    resolve_user_id user_id st = (Ok u, st)
    ∧ validate_category res category None = Ok (c, s)
    ∧ is_Some (categories !! c)
    ∧ set_budget res category limit user_id st
      = (Ok {| set_category := c; set_monthly_limit := limit |}, st1)
    ∧ select_budget c (tenant u st1) = Some b ∧ b_monthly_limit b = limit
    ∧ select_budget (Py.lower category) (tenant u st1) = None
    ∧ (check_budget_status category year month user_id st1).1 = Ok NoBudget
    ∧ (delete_budget category user_id st1).1 = Ok DeleteNotFound.
Proof.
  intros Hload Hok Hreach Hpos Hunknown.
  destruct (resolve_user_id_ok user_id st) as [u Hu].
  destruct (validate_category_returns res categories category None Hload Hok)
    as (c & s & Hval).
  destruct (validate_category_key res categories category None c s Hload Hval)
    as [l Hc].
  pose proof (set_budget_run res category limit user_id st u c s Hu Hpos Hval) as Hset.
  set (st1 := write_db u _ st) in Hset.
  assert (resolve_user_id user_id st1 = (Ok u, st1)) as Hu1.
  { unfold st1. by rewrite resolve_user_id_write_db, Hu. }
  assert (budgets (tenant u st1) = upsert_budget c limit (budgets (tenant u st))) as Ht1.
  { unfold st1. by rewrite tenant_write_db. }
  assert (select_budget (Py.lower category) (tenant u st1) = None) as Hnone.
  { apply select_budget_None. intros b Hb Heq. rewrite Ht1 in Hb.
    assert (is_Some (categories !! b_category b)) as [l' Hl']; [| congruence].
    apply (upsert_budget_in categories c limit (budgets (tenant u st)));
      [eauto | | done].
    intros b' Hb'. by apply (reachable_budgets_in categories st Hreach u). }
  destruct (select_budget c (tenant u st1)) as [b|] eqn:Hsel.
  - exists u, c, s, st1, b. split_and!; try done.
    + apply (upsert_budget_lookup c limit (budgets (tenant u st))).
      apply select_budget_Some in Hsel as [Hin Hcat]. rewrite Ht1 in Hin.
      by apply list_elem_of_filter.
    + by rewrite (check_budget_status_none category year month user_id st1 u).
    + by apply (delete_budget_none category user_id st1 u).
  - exfalso. pose proof (proj2 (select_budget_None _ _) Hsel) as Hne.
    destruct (upsert_budget_present c limit (budgets (tenant u st))) as (b & Hin & Hcat).
    rewrite <- Ht1 in Hin. by apply (Hne b).
Qed.

Lemma set_budget_then_check_witness :
  categories_json sample_resources = Some sample_categories
  ∧ vocabulary_ok sample_categories
  ∧ reachable (fun r => categories_json r = Some sample_categories) budget_scenario
  ∧ (0 < 80)%Q
  ∧ sample_categories !! Py.lower " Transport " = None
  ∧ ∃ u c s st1 b,
      resolve_user_id None budget_scenario = (Ok u, budget_scenario)
      ∧ validate_category sample_resources " Transport " None = Ok (c, s)
      ∧ is_Some (sample_categories !! c)
      ∧ set_budget sample_resources " Transport " 80 None budget_scenario
        = (Ok {| set_category := c; set_monthly_limit := 80 |}, st1)
      ∧ select_budget c (tenant u st1) = Some b ∧ b_monthly_limit b = 80%Q
      ∧ select_budget (Py.lower " Transport ") (tenant u st1) = None
      ∧ (check_budget_status " Transport " 2024 3 None st1).1 = Ok NoBudget
      ∧ (delete_budget " Transport " None st1).1 = Ok DeleteNotFound.
Proof.
  split; [reflexivity |].
  split; [apply (bool_decide_unpack _); vm_compute; exact I |].
  split; [by apply budget_scenario_reachable |].
  split; [by vm_compute |].
  split; [by vm_compute |].
  apply (set_budget_then_check sample_resources sample_categories budget_scenario
           " Transport " 80 2024 3 None).
  - reflexivity.
  - apply (bool_decide_unpack _). vm_compute. exact I.
  - by apply budget_scenario_reachable.
  - by vm_compute.
  - by vm_compute.
Defined.

(** A trimmed name finds the budget that the padded name stored. *)
Example padded_category_budget :
  let st1 := (set_budget sample_resources " Transport " 80 None budget_scenario).2 in
  (check_budget_status " Transport " 2024 3 None st1).1 = Ok NoBudget
  ∧ ∃ r, (check_budget_status "Transport" 2024 3 None st1).1 = Ok (BudgetStatus r)
         ∧ (br_total_expenses r == 70)%Q.
Proof. vm_compute. split; [done |]. eexists. split; [reflexivity | done]. Qed.

(** ** Dates as text *)






Lemma prints_digits_spec print k n :
  prints_digits print k n = true →
  all_digits (print n) = true ∧ String.length (print n) = k
  ∧ decimal_value (print n) = n.
Proof.
  unfold prints_digits.
  by intros [[H1 H2%Nat.eqb_eq]%andb_true_iff H3%Z.eqb_eq]%andb_true_iff.
Qed.

(** A year from 1000 to 9999 is printed with four digits. *)
Lemma str_of_int_four_digits y :
  1000 ≤ y ≤ 9999 → prints_digits str_of_int 4 y = true.
Proof.
  intros Hy.
  assert (forallb (prints_digits str_of_int 4) (seqZ 1000 9000) = true) as Hall
    by (vm_compute; reflexivity).
  rewrite forallb_forall in Hall. apply Hall, list_elem_of_In, elem_of_seqZ. lia.
Qed.





(** ** Budget status *)






(** ** Goal pacing *)






(** ** Updating the category of an expense *)

Lemma update_expense_category_run res expense_id date amount category subcategory
    note user_id st u c s :
  resolve_user_id user_id st = (Ok u, st) →
  (∀ a, amount = Some a → (0 < a)%Q) →
  validate_category res category subcategory = Ok (c, s) →
  let db := tenant u st in
  let upd := {| upd_date := date; upd_amount := amount; upd_category := Some c;
                upd_subcategory := Some s; upd_note := note |} in
  update_expense res expense_id date amount (Some category) subcategory note user_id st
  = (Ok (if Nat.eqb (count_by_id expense_id (expenses db)) 0 then NotFound else Updated),
     write_db u
       (with_expenses
          {| rows := map (fun e => if e_id e =? expense_id then apply_update upd e else e)
                         (rows (expenses db));
             seq := seq (expenses db) |} db) st).
Proof.
  intros Hu Hpos Hval db upd. unfold update_expense.
  unfold mbind at 1. unfold tool_bind at 1. rewrite Hu.
  unfold mbind at 1. unfold tool_bind at 1.
  destruct (init_db_ok u st) as [st1 Hst1]. rewrite Hst1.
  assert (st1 = (init_db u st).2) as -> by by rewrite Hst1.
  unfold mbind at 1. unfold tool_bind at 1.
  assert ((match amount with
           | Some a => if Qle_bool a 0 then raise ValueError else mret ()
           | None => mret ()
           end) (init_db u st).2 = (Ok tt, (init_db u st).2)) as ->.
  { destruct amount as [a|]; [| done].
    by rewrite (positive_not_le a (Hpos a eq_refl)). }
  unfold mbind at 1. unfold tool_bind at 1. unfold pure at 1. rewrite Hval.
  assert (match subcategory with Some _ | _ => Some s end = Some s) as ->
    by by destruct subcategory.
  unfold run_update.
  assert (no_updates {| upd_date := date; upd_amount := amount;
                        upd_category := Some c; upd_subcategory := Some s;
                        upd_note := note |} = false) as ->
    by (by destruct date, amount).
  unfold mbind, tool_bind, read_db, commit, mret, tool_ret.
  rewrite tenant_init_db, write_db_init_db. fold db.
  by destruct (Nat.eqb _ _).
Qed.

(** C8 (as amended): for every existing expense, [update_expense] with a
    new category stores the pair that [validate_category] returns for the
    new category and the subcategory argument.  When a subcategory is
    supplied, that is the supplied subcategory normalized against the new
    category.  When none is supplied, it is the result of normalizing the
    empty subcategory: the default of the new category ([other] if it lists
    it, else its first subcategory), whatever subcategory the expense
    had. *)
Theorem update_expense_category res st expense_id date amount category subcategory
    note user_id u e c s :
  resolve_user_id user_id st = (Ok u, st) →
  select_by_id expense_id (expenses (tenant u st)) = Some e →
  (∀ a, amount = Some a → (0 < a)%Q) →
  validate_category res category subcategory = Ok (c, s) →
  ∃ st' e',
    update_expense res expense_id date amount (Some category) subcategory note
      user_id st = (Ok Updated, st')
    ∧ select_by_id expense_id (expenses (tenant u st')) = Some e'
    ∧ e_category e' = c ∧ e_subcategory e' = s
    ∧ (subcategory = None →
       validate_category res category (Some "") = Ok (c, s)
       ∧ ∃ categories l, categories_json res = Some categories
                         ∧ categories !! c = Some l ∧ other_or_first l = Ok s).
Proof.
  intros Hu He Hpos Hval.
  pose proof (update_expense_category_run res expense_id date amount category
                subcategory note user_id st u c s Hu Hpos Hval) as Hrun.
  simpl in Hrun.
  rewrite (proj2 (Nat.eqb_neq _ _) (select_by_id_count _ _ _ He)) in Hrun.
  eexists _, _. split; [exact Hrun |]. rewrite tenant_write_db. simpl.
  split; [by apply (select_by_id_map (apply_update _)) |].
  split_and!; try done.
  intros ->. by apply validate_category_default.
Qed.

Lemma update_expense_category_witness :
  let e := {| e_id := 1; e_date := "2024-03-05"; e_amount := 40;
              e_category := "food"; e_subcategory := "groceries";
              e_note := "market" |} in
  resolve_user_id None groceries_scenario = (Ok "default_user", groceries_scenario)
  ∧ select_by_id 1 (expenses (tenant "default_user" groceries_scenario)) = Some e
  ∧ validate_category sample_resources "Transport" None = Ok ("transport", "fuel")
  ∧ ∃ st' e',
      update_expense sample_resources 1 None None (Some "Transport") None None None
        groceries_scenario = (Ok Updated, st')
      ∧ select_by_id 1 (expenses (tenant "default_user" st')) = Some e'
      ∧ e_category e' = "transport" ∧ e_subcategory e' = "fuel".
Proof.
  intros e.
  split; [by vm_compute |].
  split; [by vm_compute |].
  split; [by vm_compute |].
  destruct (update_expense_category sample_resources groceries_scenario 1 None None
              "Transport" None None None "default_user" e "transport" "fuel")
    as (st' & e' & Hrun & Hsel & Hc & Hs & _).
  - by vm_compute.
  - by vm_compute.
  - discriminate.
  - by vm_compute.
  - by exists st', e'.
Defined.

(** C8 (as stated) fails: the expense has subcategory [groceries], which
    the new category [home] lists too, so re-normalizing it against [home]
    gives [groceries]; the update stores [other]. *)
Lemma update_category_resets_subcategory :
  let st' := (update_expense sample_resources 1 None None (Some "home") None None None
                groceries_scenario).2 in
  map e_subcategory (rows (expenses (tenant "default_user" groceries_scenario)))
  = ["groceries"]
  ∧ validate_category sample_resources "home" (Some "groceries")
    = Ok ("home", "groceries")
  ∧ map (fun e => (e_category e, e_subcategory e))
        (rows (expenses (tenant "default_user" st')))
    = [("home", "other")].
Proof. vm_compute. done. Qed.

(** ** The current user *)






(** * Further properties of the tools *)

Ltac unfold_calls :=
  unfold dispatch, answer; unfold_tools;
  unfold list_expenses_by_date, expense_summary_by_category, list_savings,
    delete_saving, list_saving_goals, get_saving_goal_progress,
    update_saving_goal, delete_saving_goal, list_budgets.

(** ** Saving sources *)

Lemma other_or_first_in (l : list string) s : other_or_first l = Ok s → s ∈ l.
Proof.
  unfold other_or_first. destruct (Py.mem "other" l) eqn:Hmem.
  - intros [= <-]. by apply mem_elem_of.
  - destruct l as [|x l']; [done |]. intros [= <-]. left.
Qed.

(** X1: when the sources file loads and lists at least one source,
    [validate_saving_source] returns, for every input, a source of the
    list; when the file loads an empty list it raises [IndexError] for
    every input. *)
Theorem validate_saving_source_valid res sources source :
  saving_sources_json res = Some sources →
  (sources ≠ [] → ∃ s, validate_saving_source res source = Ok s ∧ s ∈ sources)
  ∧ (sources = [] → validate_saving_source res source = Raise IndexError).
Proof.
  intros Hload. unfold validate_saving_source. rewrite Hload. simpl. split.
  - intros Hne. destruct (other_or_first_member sources Hne) as (d & Hd & Hin).
    destruct (Py.falsy _); [by exists d |].
    destruct (Py.mem _ sources) eqn:Hmem; simpl; [| by exists d].
    eexists. split; [done | by apply mem_elem_of].
  - intros ->. by destruct (Py.falsy _).
Qed.

Lemma validate_saving_source_valid_witness :
  saving_sources_json sample_resources = Some ["salary"; "gift"; "other"]
  ∧ (∃ s, validate_saving_source sample_resources " Lottery " = Ok s
          ∧ s ∈ ["salary"; "gift"; "other"])
  ∧ validate_saving_source sample_resources " GIFT " = Ok "gift".
Proof.
  split; [reflexivity |].
  split; [| by vm_compute].
  apply (validate_saving_source_valid sample_resources ["salary"; "gift"; "other"]
           " Lottery ").
  - reflexivity.
  - discriminate.
Defined.

(** ** Tenants *)



(** X3: the tools that list, summarise or check, and the two that
    provision a user, change no table of any user: the tables of every
    user read the same after the call, also when the call raises. *)
Theorem read_only_tools_keep_tables res c st v :
  read_only c = true →
  tenant v (dispatch res c st).2 = tenant v st.
Proof.
  intros Hro.
  apply (wp_final (dispatch res c) (fun st' => tenant v st' = tenant v st)).
  destruct c as [req| | | | | | | | |]; [destruct req |..];
    try discriminate Hro; unfold_calls.
  all: wp_run.
  all: rewrite ?tenant_init_db; try done.
Qed.

Lemma read_only_tools_keep_tables_witness :
  read_only (ExpenseSummaryByCategory "2024-01-01" "2024-12-31" None (Some "zoe"))
  = true
  ∧ tenant "zoe" (dispatch sample_resources
                    (ExpenseSummaryByCategory "2024-01-01" "2024-12-31" None
                       (Some "zoe")) budget_scenario).2
    = tenant "zoe" budget_scenario.
Proof.
  split; [reflexivity |].
  by apply read_only_tools_keep_tables.
Defined.

(** ** Normalized strings *)

Lemma isspace_lower_char c : Py.isspace (Py.lower_char c) = Py.isspace c.
Proof. by destruct c as [[] [] [] [] [] [] [] []]. Qed.

Lemma lower_char_idemp c : Py.lower_char (Py.lower_char c) = Py.lower_char c.
Proof. by destruct c as [[] [] [] [] [] [] [] []]. Qed.

Lemma lower_idemp s : Py.lower (Py.lower s) = Py.lower s.
Proof. induction s as [|c s IH]; simpl; [done |]. by rewrite lower_char_idemp, IH. Qed.

Lemma lstrip_lower s : Py.lstrip (Py.lower s) = Py.lower (Py.lstrip s).
Proof.
  induction s as [|c s IH]; simpl; [done |].
  rewrite isspace_lower_char. by destruct (Py.isspace c).
Qed.

Lemma rstrip_lower s : Py.rstrip (Py.lower s) = Py.lower (Py.rstrip s).
Proof.
  induction s as [|c s IH]; simpl; [done |].
  rewrite IH, isspace_lower_char.
  destruct (Py.rstrip s); simpl; [by destruct (Py.isspace c) | done].
Qed.

Lemma strip_lower s : Py.strip (Py.lower s) = Py.lower (Py.strip s).
Proof. unfold Py.strip. by rewrite lstrip_lower, rstrip_lower. Qed.

Lemma rstrip_idemp s : Py.rstrip (Py.rstrip s) = Py.rstrip s.
Proof.
  induction s as [|c s IH]; simpl; [done |].
  destruct (Py.rstrip s) as [|c' r] eqn:Hr.
  - destruct (Py.isspace c) eqn:Hc; simpl; [done | by rewrite Hc].
  - simpl in *. by rewrite IH.
Qed.

(** What [lstrip] returns does not start with a space. *)
Lemma lstrip_clean s : starts_clean (Py.lstrip s).
Proof.
  induction s as [|c s IH]; simpl; [done |].
  by destruct (Py.isspace c) eqn:Hc.
Qed.

Lemma lstrip_of_clean s : starts_clean s → Py.lstrip s = s.
Proof. destruct s as [|c s]; simpl; [done |]. by intros ->. Qed.

Lemma rstrip_clean s : starts_clean s → starts_clean (Py.rstrip s).
Proof.
  destruct s as [|c s]; simpl; [done |]. intros Hc.
  destruct (Py.rstrip s); simpl; [by rewrite Hc | done].
Qed.

Lemma strip_idemp s : Py.strip (Py.strip s) = Py.strip s.
Proof.
  unfold Py.strip.
  rewrite (lstrip_of_clean (Py.rstrip (Py.lstrip s))).
  - apply rstrip_idemp.
  - apply rstrip_clean, lstrip_clean.
Qed.

Lemma normalized_normalize s : normalized (Py.lower (Py.strip s)).
Proof.
  unfold normalized. by rewrite strip_lower, lower_idemp, strip_idemp.
Qed.

(** What the normalizer returns is a normalized key of the vocabulary and a
    subcategory of that key: the default of the key, or the normalized
    input when the key lists it. *)
Lemma validate_category_choice res (categories : gmap string (list string))
    category subcategory c s :
  categories_json res = Some categories →
  validate_category res category subcategory = Ok (c, s) →
  normalized c
  ∧ ∃ l, categories !! c = Some l ∧ s ∈ l
         ∧ (other_or_first l = Ok s ∨ (Py.falsy s = false ∧ normalized s)).
Proof.
  intros Hload. unfold validate_category. rewrite Hload. simpl.
  set (nc := Py.lower (Py.strip category)).
  set (ns := Py.lower (Py.strip (Py.or_empty subcategory))).
  destruct (categories !! (if bool_decide _ then _ else _)) as [l|] eqn:Hl; [| done].
  simpl.
  destruct (if Py.falsy ns then _ else _) as [d|] eqn:Hd; [| done]. simpl.
  intros [= <- <-]. split.
  - case_bool_decide; [apply normalized_normalize | done].
  - exists l. split; [done |].
    destruct (Py.falsy ns) eqn:Hfalsy.
    { split; [by apply other_or_first_in | by left]. }
    destruct (Py.mem ns l) eqn:Hmem; simpl in Hd.
    + injection Hd as <-. split; [by apply mem_elem_of |].
      right. split; [done | apply normalized_normalize].
    + split; [by apply other_or_first_in | by left].
Qed.

Lemma validate_category_member res (categories : gmap string (list string))
    category subcategory c s :
  categories_json res = Some categories →
  validate_category res category subcategory = Ok (c, s) →
  normalized c ∧ ∃ l, categories !! c = Some l ∧ s ∈ l.
Proof.
  intros Hload Hval.
  destruct (validate_category_choice res categories category subcategory c s
              Hload Hval) as (Hc & l & Hl & Hin & _).
  split; [done | by exists l].
Qed.

(** Validating a normalized key of the vocabulary again: the category
    stays, and the subcategory is chosen from its list. *)
Lemma validate_category_of_key res (categories : gmap string (list string))
    c l subcategory :
  categories_json res = Some categories →
  normalized c → categories !! c = Some l →
  validate_category res c subcategory
  = (let ns := Py.lower (Py.strip (Py.or_empty subcategory)) in
     s ← (if Py.falsy ns then other_or_first l
          else if negb (Py.mem ns l) then other_or_first l
          else Ok ns);
     Ok (c, s)).
Proof.
  intros Hload Hnorm Hl. unfold validate_category. rewrite Hload. simpl.
  rewrite Hnorm.
  assert (bool_decide (is_Some (categories !! c)) = true) as ->
    by (apply bool_decide_eq_true; by exists l).
  by rewrite Hl.
Qed.

Lemma validate_category_keeps res (categories : gmap string (list string))
    c subcategory c' s' :
  categories_json res = Some categories →
  normalized c → is_Some (categories !! c) →
  validate_category res c subcategory = Ok (c', s') →
  c' = c ∧ ∃ l, categories !! c = Some l ∧ s' ∈ l.
Proof.
  intros Hload Hnorm [l Hl] Hval.
  destruct (validate_category_member res categories c subcategory c' s' Hload Hval)
    as (_ & l' & Hl' & Hin).
  rewrite (validate_category_of_key res categories c l subcategory Hload Hnorm Hl)
    in Hval. simpl in Hval.
  destruct (if Py.falsy _ then _ else _); [| done]. simpl in Hval.
  injection Hval as <- <-. split; [done | by exists l'].
Qed.

(** X4: normalizing twice is normalizing once.  The pair [(c, s)] that
    [validate_category] returns is returned unchanged when it is validated
    again, provided the subcategory [s] is itself written lowercase and
    trimmed (the category always is). *)
Theorem validate_category_idempotent res category subcategory c s :
  validate_category res category subcategory = Ok (c, s) →
  normalized s →
  validate_category res c (Some s) = Ok (c, s).
Proof.
  intros Hval Hs.
  destruct (categories_json res) as [categories|] eqn:Hload;
    [| by unfold validate_category in Hval; rewrite Hload in Hval].
  destruct (validate_category_choice res categories category subcategory c s
              Hload Hval) as (Hc & l & Hl & Hin & Hchoice).
  rewrite (validate_category_of_key res categories c l (Some s) Hload Hc Hl).
  simpl. rewrite Hs.
  destruct (Py.falsy s) eqn:Hfalsy.
  - destruct Hchoice as [-> | [? _]]; [done | congruence].
  - by rewrite (proj2 (mem_elem_of s l) Hin).
Qed.

Lemma validate_category_idempotent_witness :
  validate_category sample_resources " Transport" (Some "Bus") = Ok ("transport", "fuel")
  ∧ normalized "fuel"
  ∧ validate_category sample_resources "transport" (Some "fuel")
    = Ok ("transport", "fuel").
Proof.
  split; [by vm_compute |].
  split; [by vm_compute |].
  apply (validate_category_idempotent sample_resources " Transport" (Some "Bus")).
  - by vm_compute.
  - by vm_compute.
Defined.

(** ** Well-formed ledgers are kept *)

Lemma insert_row_ids {A} `{Row A} (mk : Z → A) (t : table A) :
  (∀ i, rowid (mk i) = i) →
  NoDup (map rowid (rows t)) → NoDup (map rowid (rows (insert_row mk t).2)).
Proof.
  intros Hmk Hnd. simpl. rewrite map_app. simpl. rewrite Hmk.
  apply NoDup_app. split_and!; [done | | apply NoDup_singleton].
  intros i (r & Heq & Hr)%list_elem_of_fmap Hi%list_elem_of_singleton.
  pose proof (next_rowid_fresh t r Hr). lia.
Qed.

Lemma update_rows_ids {A} `{Row A} (f : A → A) (i : Z) (l : list A) :
  (∀ x, rowid (f x) = rowid x) →
  map rowid (map (fun x => if rowid x =? i then f x else x) l) = map rowid l.
Proof.
  intros Hf. induction l as [|x l IH]; simpl; [done |].
  rewrite IH. by destruct (rowid x =? i); rewrite ?Hf.
Qed.

Lemma filter_rows_ids {A} `{Row A} (P : A → Prop) `{∀ x, Decision (P x)} (l : list A) :
  NoDup (map rowid l) → NoDup (map rowid (filter P l)).
Proof.
  induction l as [|x l IH]; simpl; [done |].
  intros [Hx Hl]%NoDup_cons. destruct (decide (P x)).
  - rewrite filter_cons_True by done. simpl. apply NoDup_cons. split; [| by apply IH].
    intros (y & Heq & Hy)%list_elem_of_fmap. apply Hx.
    apply list_elem_of_fmap. exists y. split; [done |].
    by apply list_elem_of_filter in Hy as [_ Hy].
  - rewrite filter_cons_False by done. by apply IH.
Qed.

Lemma Forall_update_rows {A} `{Row A} (Q : A → Prop) (f : A → A) (i : Z) (l : list A) :
  Forall Q l → (∀ x, x ∈ l → rowid x = i → Q x → Q (f x)) →
  Forall Q (map (fun x => if rowid x =? i then f x else x) l).
Proof.
  intros Hl Hf. apply Forall_fmap, Forall_forall. intros x Hx. simpl.
  pose proof (proj1 (Forall_forall _ _) Hl x Hx) as HQ.
  destruct (rowid x =? i) eqn:Hi; [| done]. apply Hf; [done | by apply Z.eqb_eq | done].
Qed.

Lemma Forall_filter_rows {A} (Q P : A → Prop) `{∀ x, Decision (P x)} (l : list A) :
  Forall Q l → Forall Q (filter P l).
Proof.
  intros Hl. apply Forall_forall. intros x [_ Hx]%list_elem_of_filter.
  by apply (proj1 (Forall_forall _ _) Hl).
Qed.

(** With unique rowids, the row [fetchone] returns for an id is the only
    row of that id. *)
Lemma select_by_id_unique {A} `{Row A} i (t : table A) r x :
  NoDup (map rowid (rows t)) → select_by_id i t = Some r →
  x ∈ rows t → rowid x = i → x = r.
Proof.
  unfold select_by_id. induction (rows t) as [|y l IH]; simpl; [done |].
  intros [Hy Hl]%NoDup_cons. destruct (rowid y =? i) eqn:Hyi.
  - intros [= <-] [->|Hx]%elem_of_cons Hxi; [done |].
    exfalso. apply Hy. apply list_elem_of_fmap. exists x.
    split; [| done]. apply Z.eqb_eq in Hyi. congruence.
  - intros Hr [->|Hx]%elem_of_cons Hxi; [| by apply IH].
    apply Z.eqb_neq in Hyi. done.
Qed.

Lemma validate_saving_source_in res sources source s :
  saving_sources_json res = Some sources →
  validate_saving_source res source = Ok s → s ∈ sources.
Proof.
  intros Hload. unfold validate_saving_source. rewrite Hload. simpl.
  destruct (Py.falsy _); [apply other_or_first_in |].
  destruct (Py.mem _ sources) eqn:Hmem; simpl; [| apply other_or_first_in].
  intros [= <-]. by apply mem_elem_of.
Qed.

Section Ledger.

(** The three properties of choice are kept when the validators establish
    them while the resource files satisfy [P]. *)
Variable P : resources → Prop.
Variable Vpair : string → string → Prop.
Variable Vsource : string → Prop.
Variable Vcategory : string → Prop.

Hypothesis Vpair_validated : ∀ res category subcategory c s,
  P res → validate_category res category subcategory = Ok (c, s) → Vpair c s.
Hypothesis Vpair_revalidated : ∀ res c s subcategory c' s',
  P res → Vpair c s →
  validate_category res c (Some subcategory) = Ok (c', s') → Vpair c s'.
Hypothesis Vsource_validated : ∀ res source s,
  P res → validate_saving_source res source = Ok s → Vsource s.
Hypothesis Vcategory_validated : ∀ res category c s,
  P res → validate_category res category None = Ok (c, s) → Vcategory c.

Local Abbreviation ok_expenses := (expenses_ok Vpair).
Local Abbreviation ok_savings := (savings_ok Vsource).
Local Abbreviation ok_budgets := (budgets_ok Vcategory).
Local Abbreviation ok_ledger := (ledger_ok Vpair Vsource Vcategory).
Local Abbreviation ok_ledgers := (ledgers_ok Vpair Vsource Vcategory).

Lemma ledger_ok_empty : ok_ledger empty_database.
Proof.
  repeat split; simpl; first [apply NoDup_nil_2 | apply Forall_nil_2].
Qed.

Lemma ledgers_ok_init_db u st : ok_ledgers st → ok_ledgers (init_db u st).2.
Proof. intros H v. by rewrite tenant_init_db. Qed.

Lemma ledgers_ok_write_db u db st :
  ok_ledgers st → ok_ledger db → ok_ledgers (write_db u db st).
Proof.
  intros H Hdb v. destruct (decide (u = v)) as [->|Hne].
  - by rewrite tenant_write_db.
  - by rewrite tenant_write_db_ne.
Qed.

Lemma expenses_ok_insert mk t :
  (∀ i, e_id (mk i) = i) →
  (∀ i, (0 < e_amount (mk i))%Q ∧ Vpair (e_category (mk i)) (e_subcategory (mk i))) →
  ok_expenses t → ok_expenses (insert_row mk t).2.
Proof.
  intros Hid Hok [Hnd Hall]. split.
  - by apply (insert_row_ids mk t).
  - simpl. apply Forall_app. split; [done |]. by apply Forall_singleton.
Qed.

Lemma expenses_ok_update u i t :
  ok_expenses t →
  (∀ e, e ∈ rows t → e_id e = i →
        (0 < e_amount e)%Q ∧ Vpair (e_category e) (e_subcategory e) →
        (0 < e_amount (apply_update u e))%Q
        ∧ Vpair (e_category (apply_update u e)) (e_subcategory (apply_update u e))) →
  ok_expenses
    {| rows := map (fun e => if e_id e =? i then apply_update u e else e) (rows t);
       seq := seq t |}.
Proof.
  intros [Hnd Hall] Hu. split; simpl.
  - pose proof (update_rows_ids (apply_update u) i (rows t) (fun _ => eq_refl)) as Hids.
    unfold rowid, expense_row in Hids. by rewrite Hids.
  - by apply (Forall_update_rows _ (apply_update u)).
Qed.

Lemma expenses_ok_delete (Q : expense → Prop) `{∀ x, Decision (Q x)} t :
  ok_expenses t → ok_expenses {| rows := filter Q (rows t); seq := seq t |}.
Proof.
  intros [Hnd Hall]. split; simpl.
  - by apply (filter_rows_ids Q).
  - by apply Forall_filter_rows.
Qed.

(** The fields an update gives an expense keep it well formed. *)
Lemma apply_update_ok date amount category subcategory note e :
  (0 < e_amount e)%Q ∧ Vpair (e_category e) (e_subcategory e) →
  (∀ a, amount = Some a → (0 < a)%Q) →
  match category, subcategory with
  | Some c, Some s => Vpair c s
  | None, Some s => Vpair (e_category e) s
  | None, None => True
  | Some _, None => False
  end →
  let e' := apply_update {| upd_date := date; upd_amount := amount;
                            upd_category := category;
                            upd_subcategory := subcategory; upd_note := note |} e in
  (0 < e_amount e')%Q ∧ Vpair (e_category e') (e_subcategory e').
Proof.
  intros (Hamount & Hpair) Hpos Hnew. unfold apply_update. simpl.
  split. { destruct amount as [a|]; simpl; [by apply Hpos | done]. }
  destruct category as [c|], subcategory as [s|]; simpl; done.
Qed.

Lemma expenses_ok_update_category res i date amount note category subcategory c s t :
  P res →
  validate_category res category subcategory = Ok (c, s) →
  (∀ a, amount = Some a → (0 < a)%Q) →
  ok_expenses t →
  ok_expenses
    {| rows := map (fun e => if e_id e =? i
                             then apply_update
                                    {| upd_date := date; upd_amount := amount;
                                       upd_category := Some c;
                                       upd_subcategory := Some s;
                                       upd_note := note |} e
                             else e) (rows t);
       seq := seq t |}.
Proof.
  intros HP Hval Hpos Ht. apply expenses_ok_update; [done |].
  intros e _ _ He. apply apply_update_ok; [done | done |].
  by apply (Vpair_validated res category subcategory).
Qed.

Lemma expenses_ok_update_subcategory res i date amount note subcategory row c s t :
  P res →
  select_by_id i t = Some row →
  validate_category res (e_category row) (Some subcategory) = Ok (c, s) →
  (∀ a, amount = Some a → (0 < a)%Q) →
  ok_expenses t →
  ok_expenses
    {| rows := map (fun e => if e_id e =? i
                             then apply_update
                                    {| upd_date := date; upd_amount := amount;
                                       upd_category := None;
                                       upd_subcategory := Some s;
                                       upd_note := note |} e
                             else e) (rows t);
       seq := seq t |}.
Proof.
  intros HP Hrow Hval Hpos Ht. apply expenses_ok_update; [done |].
  intros e Hin Hid He. apply apply_update_ok; [done | done |].
  destruct Ht as [Hnd _].
  assert (e = row) as -> by by apply (select_by_id_unique i t row e).
  destruct He as [_ Hpair].
  by apply (Vpair_revalidated res _ _ subcategory c s HP Hpair).
Qed.

Lemma expenses_ok_update_plain i date amount note t :
  (∀ a, amount = Some a → (0 < a)%Q) →
  ok_expenses t →
  ok_expenses
    {| rows := map (fun e => if e_id e =? i
                             then apply_update
                                    {| upd_date := date; upd_amount := amount;
                                       upd_category := None;
                                       upd_subcategory := None;
                                       upd_note := note |} e
                             else e) (rows t);
       seq := seq t |}.
Proof.
  intros Hpos Ht. apply expenses_ok_update; [done |].
  intros e _ _ He. by apply apply_update_ok.
Qed.

Lemma savings_ok_insert mk t :
  (∀ i, s_id (mk i) = i) →
  (∀ i, (0 < s_amount (mk i))%Q ∧ Vsource (s_source (mk i))) →
  ok_savings t → ok_savings (insert_row mk t).2.
Proof.
  intros Hid Hok [Hnd Hall]. split.
  - by apply (insert_row_ids mk t).
  - simpl. apply Forall_app. split; [done |]. by apply Forall_singleton.
Qed.

Lemma savings_ok_delete (Q : saving → Prop) `{∀ x, Decision (Q x)} t :
  ok_savings t → ok_savings {| rows := filter Q (rows t); seq := seq t |}.
Proof.
  intros [Hnd Hall]. split; simpl.
  - by apply (filter_rows_ids Q).
  - by apply Forall_filter_rows.
Qed.

Lemma goals_ok_insert mk t :
  (∀ i, g_id (mk i) = i) → (∀ i, (0 < g_target_amount (mk i))%Q) →
  goals_ok t → goals_ok (insert_row mk t).2.
Proof.
  intros Hid Hok [Hnd Hall]. split.
  - by apply (insert_row_ids mk t).
  - simpl. apply Forall_app. split; [done |]. by apply Forall_singleton.
Qed.

Lemma goals_ok_update u i t :
  (∀ a, gu_target_amount u = Some a → (0 < a)%Q) →
  goals_ok t →
  goals_ok {| rows := map (fun g => if g_id g =? i then apply_goal_update u g else g)
                          (rows t);
              seq := seq t |}.
Proof.
  intros Hu [Hnd Hall]. split; simpl.
  - pose proof (update_rows_ids (apply_goal_update u) i (rows t) (fun _ => eq_refl))
      as Hids.
    unfold rowid, saving_goal_row in Hids. by rewrite Hids.
  - apply (Forall_update_rows (fun g => (0 < g_target_amount g)%Q)
             (apply_goal_update u)); [done |].
    intros g _ _ Hg. unfold apply_goal_update. simpl.
    destruct (gu_target_amount u) as [a|]; simpl; [by apply Hu | done].
Qed.

Lemma goals_ok_delete (Q : saving_goal → Prop) `{∀ x, Decision (Q x)} t :
  goals_ok t → goals_ok {| rows := filter Q (rows t); seq := seq t |}.
Proof.
  intros [Hnd Hall]. split; simpl.
  - by apply (filter_rows_ids Q).
  - by apply Forall_filter_rows.
Qed.

Lemma budgets_ok_upsert c limit t :
  (0 < limit)%Q → Vcategory c → ok_budgets t → ok_budgets (upsert_budget c limit t).
Proof.
  intros Hpos Hc [Hnd Hall]. split; [by apply upsert_budget_unique |].
  apply Forall_forall. intros b. unfold upsert_budget. destruct (existsb _ _).
  - unfold set_limit. simpl. intros (b0 & -> & Hin)%list_elem_of_fmap.
    pose proof (proj1 (Forall_forall _ _) Hall b0 Hin) as [? ?].
    by case_bool_decide.
  - simpl. intros [Hin| ->%list_elem_of_singleton]%elem_of_app; [| done].
    by apply (proj1 (Forall_forall _ _) Hall).
Qed.

Lemma budgets_ok_set_limit c limit t :
  (0 < limit)%Q → ok_budgets t → ok_budgets (set_limit c limit t).
Proof.
  intros Hpos [Hnd Hall]. split; [by rewrite set_limit_categories |].
  unfold set_limit. simpl. apply Forall_fmap, Forall_forall. intros b Hb. simpl.
  pose proof (proj1 (Forall_forall _ _) Hall b Hb) as [? ?].
  by case_bool_decide.
Qed.

Lemma budgets_ok_delete c t : ok_budgets t → ok_budgets (delete_category c t).
Proof.
  intros [Hnd Hall]. split; [by apply delete_category_unique |].
  unfold delete_category. simpl. by apply Forall_filter_rows.
Qed.

Ltac positives :=
  repeat match goal with
         | H : Qle_bool ?a 0 = false |- _ =>
             lazymatch goal with
             | _ : (0 < a)%Q |- _ => fail
             | _ => pose proof (not_le_positive a H)
             end
         end.

Ltac ledger_goal Hst :=
  lazymatch goal with
  | |- ledgers_ok _ _ _ (write_db ?u _ _) =>
      apply ledgers_ok_write_db; [ledger_goal Hst |];
      rewrite ?tenant_init_db;
      let He := fresh "He" in let Hs := fresh "Hs" in
      let Hg := fresh "Hg" in let Hb := fresh "Hb" in
      destruct (Hst u) as (He & Hs & Hg & Hb);
      unfold ledger_ok; simpl; split_and!; try done
  | |- ledgers_ok _ _ _ (init_db _ _).2 =>
      apply ledgers_ok_init_db; ledger_goal Hst
  | |- ledgers_ok _ _ _ _ => exact Hst
  end.

(** The step of the invariant for every tool but [update_expense]. *)
Ltac table_goal HP :=
  positives;
  lazymatch goal with
  | |- expenses_ok _ {| rows := filter _ _; seq := _ |} =>
      by apply expenses_ok_delete
  | |- savings_ok _ {| rows := filter _ _; seq := _ |} =>
      by apply savings_ok_delete
  | |- goals_ok {| rows := filter _ _; seq := _ |} => by apply goals_ok_delete
  | |- goals_ok {| rows := map _ _; seq := _ |} =>
      apply goals_ok_update; [simpl; intros ? [= <-]; done || idtac | done];
      try done
  | |- budgets_ok _ (delete_category _ _) => by apply budgets_ok_delete
  | |- budgets_ok _ (set_limit _ _ _) => by apply budgets_ok_set_limit
  | |- budgets_ok _ (upsert_budget _ _ _) =>
      apply budgets_ok_upsert; [done | | done];
      match goal with
      | H : validate_category _ _ _ = Ok _ |- _ =>
          apply (Vcategory_validated _ _ _ _ HP H)
      end
  | |- expenses_ok _
         {| rows := rows ?t ++ [ {| e_id := _; e_date := ?d; e_amount := ?a;
                                    e_category := ?c; e_subcategory := ?s;
                                    e_note := ?n |} ];
            seq := _ |} =>
      apply (expenses_ok_insert
               (fun i => {| e_id := i; e_date := d; e_amount := a; e_category := c;
                            e_subcategory := s; e_note := n |}) t);
      [done | | done];
      intros ?; split; [done |]; simpl;
      match goal with
      | H : validate_category _ _ _ = Ok _ |- _ =>
          apply (Vpair_validated _ _ _ _ _ HP H)
      end
  | |- savings_ok _
         {| rows := rows ?t ++ [ {| s_id := _; s_date := ?d; s_amount := ?a;
                                    s_source := ?c; s_note := ?n |} ];
            seq := _ |} =>
      apply (savings_ok_insert
               (fun i => {| s_id := i; s_date := d; s_amount := a; s_source := c;
                            s_note := n |}) t);
      [done | | done];
      intros ?; split; [done |]; simpl;
      match goal with
      | H : validate_saving_source _ _ = Ok _ |- _ =>
          apply (Vsource_validated _ _ _ HP H)
      end
  | |- goals_ok {| rows := rows ?t ++ [ {| g_id := _; g_name := ?m;
                                           g_target_amount := ?a; g_start_date := ?d;
                                           g_end_date := ?e; g_note := ?n |} ];
                   seq := _ |} =>
      by apply (goals_ok_insert
                  (fun i => {| g_id := i; g_name := m; g_target_amount := a;
                               g_start_date := d; g_end_date := e; g_note := n |}) t)
  end.

Ltac update_goal HP :=
  positives;
  repeat match goal with
         | H : context [tenant _ (init_db _ _).2] |- _ => rewrite tenant_init_db in H
         end;
  repeat match goal with
         | |- context [match ?x with Some _ => Some ?s | None => Some ?s end] =>
             destruct x
         end;
  lazymatch goal with
  | |- expenses_ok _ {| rows := map _ _; seq := _ |} =>
      first
        [ eapply (expenses_ok_update_category _ _ _ _ _ _ _ _ _ _ HP);
          [eassumption | | done]
        | eapply (expenses_ok_update_subcategory _ _ _ _ _ _ _ _ _ _ HP);
          [eassumption | eassumption | | done]
        | eapply expenses_ok_update_plain; [| done] ];
      intros ? [= <-] || intros ? [=]; done
  | |- _ => idtac
  end.

Lemma dispatch_ledgers_ok res c st :
  P res → ok_ledgers st → ok_ledgers (dispatch res c st).2.
Proof.
  intros HP Hst. apply wp_final.
  destruct c as [req| | | | | | | | |]; [destruct req |..]; unfold_calls.
  3: { wp_run; ledger_goal Hst; update_goal HP. }
  all: wp_run.
  all: ledger_goal Hst.
  all: table_goal HP.
Qed.

Lemma served_ledgers_ok st : served P st → ok_ledgers st.
Proof.
  induction 1 as [|res c st HP Hserved IH].
  - intros u. unfold tenant. simpl. rewrite lookup_empty. apply ledger_ok_empty.
  - by apply dispatch_ledgers_ok.
Qed.

End Ledger.

(** ** What every served state satisfies *)

Lemma dispatch_request res req st :
  (dispatch res (Request req) st).2 = (handle res req st).2.
Proof.
  unfold dispatch, answer, mbind, tool_bind.
  by destruct (handle res req st) as [[r|e] st'].
Qed.

(** The states reached through the requests are served states. *)
Lemma reachable_served P st : reachable P st → served P st.
Proof.
  induction 1 as [|res req st HP Hreach IH]; [constructor |].
  rewrite <- dispatch_request. by constructor.
Qed.

Lemma served_run (P : resources → Prop) res calls st :
  P res → served P st → served P (run res calls st).
Proof.
  intros HP. unfold run. revert st.
  induction calls as [|c calls IH]; intros st Hst; simpl; [done |].
  apply IH. by apply served_dispatch.
Qed.

Lemma ledger_scenario_served P : P sample_resources → served P ledger_scenario.
Proof. intros HP. apply served_run; [done | constructor]. Qed.

Example ledger_scenario_rows :
  map (fun e => (e_id e, e_category e, e_subcategory e))
      (rows (expenses (tenant "default_user" ledger_scenario)))
  = [(2, "misc", "other"); (3, "home", "rent")]
  ∧ map (fun s => (s_id s, s_source s))
        (rows (savings (tenant "default_user" ledger_scenario)))
    = [(2, "other")]
  ∧ map (fun b => (b_category b, b_monthly_limit b))
        (rows (budgets (tenant "default_user" ledger_scenario)))
    = [("food", 450%Q); ("home", 700%Q)]
  ∧ map e_id (rows (expenses (tenant "ann" ledger_scenario))) = [1].
Proof. vm_compute. done. Qed.

(** Whatever the resource files were at each call, the tables are well
    formed, with no condition on categories and sources. *)
Lemma served_base st :
  served (fun _ => True) st →
  ledgers_ok (fun _ _ => True) (fun _ => True) (fun _ => True) st.
Proof. by apply served_ledgers_ok. Qed.

(** X5: in every state the server can reach through its tools, whatever the
    resource files were, the rowids of a user's expenses, of the savings
    and of the saving goals are pairwise distinct, and no two budget rows of
    a user name the same category. *)
Theorem ids_are_unique st u :
  served (fun _ => True) st →
  let db := tenant u st in
  NoDup (map e_id (rows (expenses db)))
  ∧ NoDup (map s_id (rows (savings db)))
  ∧ NoDup (map g_id (rows (saving_goals db)))
  ∧ NoDup (map b_category (rows (budgets db))).
Proof.
  intros Hserved. destruct (served_base st Hserved u)
    as ([He _] & [Hs _] & [Hg _] & [Hb _]). done.
Qed.

Lemma ids_are_unique_witness :
  served (fun _ => True) ledger_scenario
  ∧ NoDup (map e_id (rows (expenses (tenant "default_user" ledger_scenario))))
  ∧ NoDup (map b_category (rows (budgets (tenant "default_user" ledger_scenario)))).
Proof.
  split; [by apply ledger_scenario_served |].
  destruct (ids_are_unique ledger_scenario "default_user") as (He & _ & _ & Hb).
  - by apply ledger_scenario_served.
  - done.
Defined.

(** X6: in every state the server can reach through its tools, whatever the
    resource files were, no stored expense or saving has an amount of zero
    or less, no saving goal a target of zero or less, and no budget a limit
    of zero or less. *)
Theorem stored_amounts_positive st u :
  served (fun _ => True) st →
  let db := tenant u st in
  (∀ e, e ∈ rows (expenses db) → (0 < e_amount e)%Q)
  ∧ (∀ s, s ∈ rows (savings db) → (0 < s_amount s)%Q)
  ∧ (∀ g, g ∈ rows (saving_goals db) → (0 < g_target_amount g)%Q)
  ∧ (∀ b, b ∈ rows (budgets db) → (0 < b_monthly_limit b)%Q).
Proof.
  intros Hserved. destruct (served_base st Hserved u)
    as ([_ He] & [_ Hs] & [_ Hg] & [_ Hb]).
  split_and!; intros x Hx.
  - by apply (proj1 (Forall_forall _ _) He x Hx).
  - by apply (proj1 (Forall_forall _ _) Hs x Hx).
  - by apply (proj1 (Forall_forall _ _) Hg x Hx).
  - by apply (proj1 (Forall_forall _ _) Hb x Hx).
Qed.

Lemma stored_amounts_positive_witness :
  served (fun _ => True) ledger_scenario
  ∧ ∀ e, e ∈ rows (expenses (tenant "default_user" ledger_scenario)) →
         (0 < e_amount e)%Q.
Proof.
  split; [by apply ledger_scenario_served |].
  destruct (stored_amounts_positive ledger_scenario "default_user") as (He & _).
  - by apply ledger_scenario_served.
  - done.
Defined.

Lemma pair_of_validated (categories : gmap string (list string)) sources
    res category subcategory c s :
  holds categories sources res →
  validate_category res category subcategory = Ok (c, s) → pair_of categories c s.
Proof. intros [Hcat _]. by apply validate_category_member. Qed.

Lemma pair_of_revalidated (categories : gmap string (list string)) sources
    res c s subcategory c' s' :
  holds categories sources res → pair_of categories c s →
  validate_category res c (Some subcategory) = Ok (c', s') → pair_of categories c s'.
Proof.
  intros [Hcat _] (Hnorm & l & Hl & _) Hval. split; [done |].
  by destruct (validate_category_keeps res categories c (Some subcategory) c' s'
                 Hcat Hnorm (ex_intro _ l Hl) Hval) as [_ ?].
Qed.

(** X7: while the resource files stay the same, in every state the server
    can reach through its tools every stored expense has a category that is
    a normalized key of the categories file and a subcategory that this key
    lists; every stored saving has a source of the sources file; and every
    budget is for a key of the categories file. *)
Theorem stored_vocabulary (categories : gmap string (list string)) sources st u :
  served (holds categories sources) st →
  let db := tenant u st in
  (∀ e, e ∈ rows (expenses db) →
        normalized (e_category e)
        ∧ ∃ l, categories !! e_category e = Some l ∧ e_subcategory e ∈ l)
  ∧ (∀ s, s ∈ rows (savings db) → s_source s ∈ sources)
  ∧ (∀ b, b ∈ rows (budgets db) → is_Some (categories !! b_category b)).
Proof.
  intros Hserved.
  assert (ledgers_ok (pair_of categories) (fun s => s ∈ sources)
            (fun c => is_Some (categories !! c)) st) as Hok.
  { revert Hserved. apply served_ledgers_ok.
    - apply pair_of_validated.
    - apply pair_of_revalidated.
    - intros res source s [_ Hsrc]. by apply validate_saving_source_in.
    - intros res category c s [Hcat _]. by apply validate_category_key. }
  destruct (Hok u) as ([_ He] & [_ Hs] & _ & [_ Hb]).
  split_and!; intros x Hx.
  - by apply (proj1 (Forall_forall _ _) He x Hx).
  - by apply (proj1 (Forall_forall _ _) Hs x Hx).
  - by apply (proj1 (Forall_forall _ _) Hb x Hx).
Qed.

Lemma stored_vocabulary_witness :
  served (holds sample_categories ["salary"; "gift"; "other"]) ledger_scenario
  ∧ (∀ e, e ∈ rows (expenses (tenant "default_user" ledger_scenario)) →
          normalized (e_category e)
          ∧ ∃ l, sample_categories !! e_category e = Some l ∧ e_subcategory e ∈ l).
Proof.
  split; [by apply ledger_scenario_served |].
  destruct (stored_vocabulary sample_categories ["salary"; "gift"; "other"]
              ledger_scenario "default_user") as (He & _).
  - by apply ledger_scenario_served.
  - done.
Defined.

(** ** Rowids are not reused *)

Lemma sequence_kept_refl {A} `{Row A} (t : table A) : sequence_kept t t.
Proof. split; [lia | done]. Qed.

Lemma foldr_max_le (l : list Z) (b : Z) : b ≤ foldr Z.max b l.
Proof. induction l as [|x l IH]; simpl; lia. Qed.

Lemma seq_below_next {A} `{Row A} (t : table A) : seq t < next_rowid t.
Proof. unfold next_rowid. pose proof (foldr_max_le (map rowid (rows t)) (seq t)). lia. Qed.

Lemma sequence_kept_insert {A} `{Row A} (mk : Z → A) (t : table A) :
  (∀ i, rowid (mk i) = i) → sequence_kept t (insert_row mk t).2.
Proof.
  intros Hmk. split; simpl.
  - pose proof (seq_below_next t). lia.
  - intros _. apply Forall_app. split.
    + apply Forall_forall. intros r Hr. pose proof (next_rowid_fresh t r Hr). simpl. lia.
    + apply Forall_singleton. simpl. rewrite Hmk. lia.
Qed.

Lemma sequence_kept_update {A} `{Row A} (f : A → A) i (t : table A) :
  (∀ x, rowid (f x) = rowid x) →
  sequence_kept t {| rows := map (fun x => if rowid x =? i then f x else x) (rows t);
                     seq := seq t |}.
Proof.
  intros Hf. split; simpl; [lia |]. unfold issued. simpl. intros Ht.
  apply Forall_fmap. eapply Forall_impl; [exact Ht |]. simpl.
  intros x Hx. by destruct (rowid x =? i); rewrite ?Hf.
Qed.

Lemma sequence_kept_filter {A} `{Row A} (P : A → Prop) `{∀ x, Decision (P x)}
    (t : table A) :
  sequence_kept t {| rows := filter P (rows t); seq := seq t |}.
Proof.
  split; simpl; [lia |]. unfold issued. simpl. intros Ht.
  apply Forall_forall. intros x [_ Hx]%list_elem_of_filter.
  by apply (proj1 (Forall_forall _ _) Ht).
Qed.

Lemma sequence_kept_append {A} `{Row A} (r : A) (t : table A) :
  rowid r = next_rowid t →
  sequence_kept t {| rows := rows t ++ [r]; seq := next_rowid t |}.
Proof.
  intros Hr. split; simpl.
  - pose proof (seq_below_next t). lia.
  - intros _. apply Forall_app. split.
    + apply Forall_forall. intros x Hx. pose proof (next_rowid_fresh t x Hx). simpl. lia.
    + apply Forall_singleton. simpl. lia.
Qed.

Lemma dispatch_sequences_kept res c st u :
  sequences_kept (tenant u st) (tenant u (dispatch res c st).2).
Proof.
  apply (wp_final (dispatch res c)
           (fun st' => sequences_kept (tenant u st) (tenant u st'))).
  destruct c as [req| | | | | | | | |]; [destruct req |..]; unfold_calls.
  all: wp_run.
  all: try (rewrite ?tenant_init_db; split_and!; apply sequence_kept_refl).
  all: match goal with
       | H : resolve_user_id _ _ = (Ok ?v, _) |- _ =>
           destruct (decide (u = v)) as [->|Hne]
       end.
  all: rewrite ?tenant_write_db, ?tenant_write_db_ne, ?tenant_init_db by congruence.
  all: try (rewrite ?tenant_init_db; split_and!; apply sequence_kept_refl).
  all: unfold sequences_kept; simpl; split_and!; try apply sequence_kept_refl.
  all: try (by apply sequence_kept_append).
  all: try apply sequence_kept_filter.
  all: try (apply sequence_kept_update; by intros []).
Qed.

Lemma sequence_kept_trans {A} `{Row A} (t1 t2 t3 : table A) :
  sequence_kept t1 t2 → sequence_kept t2 t3 → sequence_kept t1 t3.
Proof. intros [? ?] [? ?]. split; [lia | auto]. Qed.

Lemma run_sequences_kept res calls st u :
  sequences_kept (tenant u st) (tenant u (run res calls st)).
Proof.
  unfold run. revert st. induction calls as [|c calls IH]; intros st; simpl.
  - split_and!; apply sequence_kept_refl.
  - destruct (dispatch_sequences_kept res c st u) as (He & Hs & Hg).
    destruct (IH (dispatch res c st).2) as (He' & Hs' & Hg').
    split_and!; eapply sequence_kept_trans; eassumption.
Qed.

Lemma served_issued P st u :
  served P st →
  issued (expenses (tenant u st)) ∧ issued (savings (tenant u st))
  ∧ issued (saving_goals (tenant u st)).
Proof.
  induction 1 as [|res c st HP Hserved (He & Hs & Hg)].
  - unfold tenant. simpl. rewrite lookup_empty. simpl.
    split_and!; apply Forall_nil_2.
  - destruct (dispatch_sequences_kept res c st u) as ([_ He'] & [_ Hs'] & [_ Hg']).
    auto.
Qed.

(** A row that was once stored has a rowid below the one the next insert
    picks, whatever happened to the table since. *)
Lemma issued_below_next {A} `{Row A} (t t' : table A) r :
  issued t → sequence_kept t t' → r ∈ rows t → rowid r < next_rowid t'.
Proof.
  intros Ht [Hseq _] Hr. pose proof (proj1 (Forall_forall _ _) Ht r Hr) as Hle.
  pose proof (seq_below_next t'). simpl in Hle. lia.
Qed.

Lemma add_saving_goal_run name target start_date end_date note user_id st u :
  resolve_user_id user_id st = (Ok u, st) →
  (0 < target)%Q →
  let db := tenant u st in
  let i := next_rowid (saving_goals db) in
  let g := {| g_id := i; g_name := name; g_target_amount := target;
              g_start_date := start_date; g_end_date := end_date; g_note := note |} in
  add_saving_goal name target start_date end_date note user_id st
  = (Ok i, write_db u (with_saving_goals
                         {| rows := rows (saving_goals db) ++ [g]; seq := i |} db) st).
Proof.
  intros Hu Hpos db i g. unfold add_saving_goal.
  unfold mbind at 1. unfold tool_bind at 1. rewrite Hu.
  rewrite (positive_not_le _ Hpos).
  rewrite provision_then. fold db. unfold insert_row. fold i.
  unfold mbind, tool_bind, commit, mret, tool_ret. simpl.
  by rewrite write_db_init_db.
Qed.

(** X8: rowids are never reused. A row that is stored in some state the
    server reached has a rowid smaller than every identifier that
    [add_expense], [add_saving] or [add_saving_goal] returns for the same
    user after any further calls, also when the row has been deleted in
    between. *)
Theorem rowids_never_reused res res' calls st user_id u :
  served (fun _ => True) st →
  let st' := run res calls st in
  resolve_user_id user_id st' = (Ok u, st') →
  (∀ e date amount category subcategory note added st'',
      e ∈ rows (expenses (tenant u st)) →
      add_expense res' date amount category subcategory note user_id st'
      = (Ok added, st'') →
      e_id e < added_id added)
  ∧ (∀ s date amount source note i st'',
      s ∈ rows (savings (tenant u st)) →
      add_saving res' date amount source note user_id st' = (Ok i, st'') →
      s_id s < i)
  ∧ (∀ g name target start_date end_date note i st'',
      g ∈ rows (saving_goals (tenant u st)) →
      add_saving_goal name target start_date end_date note user_id st' = (Ok i, st'') →
      g_id g < i).
Proof.
  intros Hserved st' Hu.
  destruct (served_issued _ st u Hserved) as (He & Hs & Hg).
  destruct (run_sequences_kept res calls st u) as (He' & Hs' & Hg').
  split_and!.
  - intros e date amount category subcategory note added st'' Hin Hadd.
    assert (added_id added = next_rowid (expenses (tenant u st'))) as ->.
    { destruct (Qle_bool amount 0) eqn:Ha.
      { unfold add_expense, mbind, tool_bind in Hadd. rewrite Hu, Ha in Hadd.
        discriminate. }
      destruct (validate_category res' category (Some subcategory)) as [[c s]|x] eqn:Hv.
      - pose proof (add_expense_run res' date amount category subcategory note
                      user_id st' u c s Hu (not_le_positive _ Ha) Hv) as Hrun.
        cbv zeta in Hrun. rewrite Hrun in Hadd. by injection Hadd as <- _.
      - unfold add_expense, mbind, tool_bind, pure in Hadd.
        rewrite Hu, Ha, Hv in Hadd. discriminate. }
    by apply (issued_below_next (expenses (tenant u st)) _ e).
  - intros s date amount source note i st'' Hin Hadd.
    assert (i = next_rowid (savings (tenant u st'))) as ->.
    { destruct (Qle_bool amount 0) eqn:Ha.
      { unfold add_saving, mbind, tool_bind in Hadd. rewrite Hu, Ha in Hadd.
        discriminate. }
      destruct (validate_saving_source res' source) as [src|x] eqn:Hv.
      - pose proof (add_saving_run res' date amount source note user_id st' u src
                      Hu (not_le_positive _ Ha) Hv) as Hrun.
        cbv zeta in Hrun. rewrite Hrun in Hadd. by injection Hadd as <- _.
      - unfold add_saving, mbind, tool_bind, pure in Hadd.
        rewrite Hu, Ha, Hv in Hadd. discriminate. }
    by apply (issued_below_next (savings (tenant u st)) _ s).
  - intros g name target start_date end_date note i st'' Hin Hadd.
    assert (i = next_rowid (saving_goals (tenant u st'))) as ->.
    { destruct (Qle_bool target 0) eqn:Ha.
      - unfold add_saving_goal, mbind, tool_bind in Hadd. rewrite Hu, Ha in Hadd.
        discriminate.
      - pose proof (add_saving_goal_run name target start_date end_date note
                      user_id st' u Hu (not_le_positive _ Ha)) as Hrun.
        cbv zeta in Hrun. rewrite Hrun in Hadd. by injection Hadd as <- _. }
    by apply (issued_below_next (saving_goals (tenant u st)) _ g).
Qed.

Lemma rowids_never_reused_witness :
  served (fun _ => True) ledger_scenario
  ∧ ∀ e added st'',
      e ∈ rows (expenses (tenant "default_user" ledger_scenario)) →
      add_expense sample_resources "2024-04-01" 5 "food" "" "" None
        (run sample_resources [Request (DeleteExpense 3 None);
                               Request (DeleteExpense 2 None)] ledger_scenario)
      = (Ok added, st'') →
      e_id e < added_id added.
Proof.
  split; [by apply ledger_scenario_served |].
  intros e added st''.
  destruct (rowids_never_reused sample_resources sample_resources
              [Request (DeleteExpense 3 None); Request (DeleteExpense 2 None)]
              ledger_scenario None "default_user") as (He & _).
  - by apply ledger_scenario_served.
  - reflexivity.
  - apply He.
Defined.

(** ** Deleting rows *)












(** ** Updating rows *)

(** The result and the store of a tool satisfy what was proved of each way
    it can end. *)
Lemma wp_outcome {A} (t : tool A) (R : result A → state → Prop) st :
  wp t (fun a => R (Ok a)) (fun st' => ∀ e, R (Raise e) st') st →
  R (t st).1 (t st).2.
Proof. unfold wp. destruct (t st) as [[a|e] st']; simpl; auto. Qed.

Lemma update_rows_lookup {A} `{Row A} (f : A → A) i (l : list A) k x' :
  map (fun x => if rowid x =? i then f x else x) l !! k = Some x' →
  ∃ x, l !! k = Some x ∧ (rowid x ≠ i → x' = x) ∧ (rowid x = i → x' = f x).
Proof.
  rewrite list_lookup_fmap. destruct (l !! k) as [x|]; [| done]. simpl.
  intros [= <-]. exists x. split; [done |].
  destruct (rowid x =? i) eqn:Hx.
  - apply Z.eqb_eq in Hx. by split.
  - apply Z.eqb_neq in Hx. by split.
Qed.

Lemma update_rows_absent {A} `{Row A} (f : A → A) i (t : table A) :
  count_by_id i t = 0%nat →
  {| rows := map (fun x => if rowid x =? i then f x else x) (rows t); seq := seq t |}
  = t.
Proof.
  unfold count_by_id. destruct t as [l s]. simpl. intros Hc. f_equal.
  induction l as [|x l IH]; simpl; [done |].
  destruct (decide (rowid x = i)) as [Hx|Hx].
  - rewrite filter_cons_True in Hc by done. done.
  - rewrite filter_cons_False in Hc by done.
    assert ((rowid x =? i) = false) as -> by by apply Z.eqb_neq.
    by rewrite IH.
Qed.

Lemma expenses_updated_refl expense_id date amount category subcategory note r db :
  r ≠ Ok Updated →
  expenses_updated expense_id date amount category subcategory note r db db.
Proof.
  intros Hr. unfold expenses_updated. split_and!; try done.
  intros k e' He'. exists e'. split_and!; done.
Qed.

Lemma expenses_updated_rows expense_id date amount category subcategory note upd r db :
  upd_date upd = date → upd_amount upd = amount → upd_note upd = note →
  (category = None → upd_category upd = None) →
  (category = None → subcategory = None → upd_subcategory upd = None) →
  (r = Ok Updated ∨ r = Ok NotFound ∧ count_by_id expense_id (expenses db) = 0%nat) →
  expenses_updated expense_id date amount category subcategory note r db
    (with_expenses
       {| rows := map (fun e => if e_id e =? expense_id then apply_update upd e else e)
                      (rows (expenses db));
          seq := seq (expenses db) |} db).
Proof.
  intros Hd Ha Hn Hc Hs Hr. unfold expenses_updated. simpl. split_and!; try done.
  - intros Hne. destruct Hr as [Hr|[_ Hr]]; [done |].
    by apply (update_rows_absent (apply_update upd) expense_id (expenses db)).
  - intros k e' He'.
    destruct (update_rows_lookup (apply_update upd) expense_id _ k e' He')
      as (e & He & Hother & Hthis).
    exists e. split; [done |].
    destruct (decide (e_id e = expense_id)) as [Hid|Hid].
    + rewrite (Hthis Hid). unfold apply_update. simpl. subst date amount note.
      split_and!; try done.
      * intros Hcat. by rewrite (Hc Hcat).
      * intros Hcat Hsub. by rewrite (Hs Hcat Hsub).
      * by intros ->.
      * by intros ->.
      * by intros ->.
    + rewrite (Hother Hid). split_and!; done.
  - by rewrite length_map.
Qed.

(** X11: whatever its arguments and however it ends, [update_expense]
    keeps the number, the order and the rowids of its user's expenses,
    leaves every expense of another identifier as it was, and leaves a
    field for which no argument was given as it was; when it answers [ok]
    the date, amount and note of the expense are the arguments given; when
    it answers anything else or raises, the expenses table is unchanged; an
    amount of zero or less raises [ValueError]. The user's savings, goals
    and budgets are never touched. *)
Theorem update_expense_frame res expense_id date amount category subcategory note
    user_id st u :
  resolve_user_id user_id st = (Ok u, st) →
  let r := update_expense res expense_id date amount category subcategory note
             user_id st in
  expenses_updated expense_id date amount category subcategory note r.1
    (tenant u st) (tenant u r.2)
  ∧ (∀ a, amount = Some a → (a <= 0)%Q → r.1 = Raise ValueError).
Proof.
  intros Hu r. subst r. split.
  - apply (wp_outcome
             (update_expense res expense_id date amount category subcategory note
                user_id)
             (fun r st' => expenses_updated expense_id date amount category
                             subcategory note r (tenant u st) (tenant u st'))).
    unfold_tools. wp_run.
    all: match goal with
         | H : resolve_user_id _ _ = (Ok ?v, _) |- _ =>
             rewrite Hu in H; injection H as <-
         end.
    all: try intros ?.
    all: rewrite ?tenant_write_db, ?tenant_init_db.
    all: try (by apply expenses_updated_refl).
    all: apply expenses_updated_rows; simpl; try done.
    all: first [ by left
               | right; split; [done |];
                 match goal with
                 | H : (count_by_id _ _ =? 0)%nat = true |- _ =>
                     rewrite tenant_init_db in H; by apply Nat.eqb_eq in H
                 end ].
  - intros a -> Hle%Qle_bool_iff.
    unfold update_expense, mbind, tool_bind. rewrite Hu.
    destruct (init_db_ok u st) as [st1 ->]. by rewrite Hle.
Qed.

Lemma update_expense_frame_witness :
  resolve_user_id None ledger_scenario = (Ok "default_user", ledger_scenario)
  ∧ expenses_updated 3 None (Some 95%Q) None None None (Ok Updated)
      (tenant "default_user" ledger_scenario)
      (tenant "default_user"
         (update_expense sample_resources 3 None (Some 95%Q) None None None None
            ledger_scenario).2).
Proof.
  split; [reflexivity |].
  apply (update_expense_frame sample_resources 3 None (Some 95%Q) None None None None
           ledger_scenario "default_user").
  reflexivity.
Defined.





(** ** Listings *)

Lemma text_lt_le a b : text_lt a b = true → text_le a b = true.
Proof.
  unfold text_lt, text_le, String.ltb, String.leb. by destruct (String.compare a b).
Qed.

Lemma text_not_lt_le a b : text_lt a b = false → text_le b a = true.
Proof.
  unfold text_lt, text_le, String.ltb, String.leb.
  rewrite (String.compare_antisym a b). by destruct (String.compare b a).
Qed.

Lemma adjacent_cons {A} (R : A → A → Prop) a l :
  adjacent R l → (∀ b, head l = Some b → R a b) → adjacent R (a :: l).
Proof. destruct l as [|b l]; simpl; [done |]. intros Hl Hb. split; auto. Qed.

Lemma adjacent_tail {A} (R : A → A → Prop) a l : adjacent R (a :: l) → adjacent R l.
Proof. destruct l as [|b l]; simpl; [done |]. by intros [_ ?]. Qed.

Lemma adjacent_head {A} (R : A → A → Prop) a b l : adjacent R (a :: b :: l) → R a b.
Proof. simpl. by intros [? _]. Qed.

Lemma insert_desc_descending {A} (date : A → string) x l :
  descending date l → descending date (insert_desc date x l).
Proof.
  unfold descending. induction l as [|y l IH]; simpl insert_desc; [done |].
  intros Hl. destruct (text_lt (date x) (date y)) eqn:Hxy.
  - apply adjacent_cons; [apply IH; by apply adjacent_tail in Hl |].
    destruct l as [|z l]; simpl.
    + intros b [= <-]. by apply text_lt_le.
    + destruct (text_lt (date x) (date z)).
      * intros b [= <-]. by apply adjacent_head in Hl.
      * intros b [= <-]. by apply text_lt_le.
  - apply adjacent_cons; [done |]. simpl. intros b [= <-]. by apply text_not_lt_le.
Qed.

Lemma order_by_date_desc_descending {A} (date : A → string) l :
  descending date (order_by_date_desc date l).
Proof.
  unfold order_by_date_desc. induction l as [|x l IH]; simpl; [done |].
  by apply insert_desc_descending.
Qed.

Lemma insert_sorted_perm {A} (precedes : A → A → bool) x l :
  insert_sorted precedes x l ≡ₚ x :: l.
Proof.
  induction l as [|y l IH]; simpl; [done |].
  destruct (precedes y x); [| done]. rewrite IH. apply Permutation_swap.
Qed.

Lemma order_by_perm {A} (precedes : A → A → bool) l : order_by precedes l ≡ₚ l.
Proof.
  unfold order_by. induction l as [|x l IH]; simpl; [done |].
  by rewrite insert_sorted_perm, IH.
Qed.

Lemma insert_sorted_adjacent {A} (precedes : A → A → bool) (R : A → A → Prop) x l :
  (∀ a b, precedes a b = true → R a b) →
  (∀ a b, precedes a b = false → R b a) →
  adjacent R l → adjacent R (insert_sorted precedes x l).
Proof.
  intros Hyes Hno. induction l as [|y l IH]; simpl insert_sorted; [done |].
  intros Hl. destruct (precedes y x) eqn:Hyx.
  - apply adjacent_cons; [apply IH; by apply adjacent_tail in Hl |].
    destruct l as [|z l]; simpl.
    + intros b [= <-]. by apply Hyes.
    + destruct (precedes z x).
      * intros b [= <-]. by apply adjacent_head in Hl.
      * intros b [= <-]. by apply Hyes.
  - apply adjacent_cons; [done |]. simpl. intros b [= <-]. by apply Hno.
Qed.

Lemma order_by_adjacent {A} (precedes : A → A → bool) (R : A → A → Prop) l :
  (∀ a b, precedes a b = true → R a b) →
  (∀ a b, precedes a b = false → R b a) →
  adjacent R (order_by precedes l).
Proof.
  intros Hyes Hno. unfold order_by. induction l as [|x l IH]; simpl; [done |].
  by apply insert_sorted_adjacent.
Qed.

Lemma list_expenses_by_date_run start_date end_date user_id st u :
  resolve_user_id user_id st = (Ok u, st) →
  list_expenses_by_date start_date end_date user_id st
  = (Ok (order_by_date_desc e_date
           (filter (fun e => between start_date end_date (e_date e))
                   (rows (expenses (tenant u st))))),
     (init_db u st).2).
Proof.
  intros Hu. unfold list_expenses_by_date.
  unfold mbind at 1. unfold tool_bind at 1. rewrite Hu. by rewrite provision_then.
Qed.

Lemma list_savings_run start_date end_date user_id st u :
  resolve_user_id user_id st = (Ok u, st) →
  list_savings start_date end_date user_id st
  = (Ok (order_by_date_desc s_date (listed_savings start_date end_date (tenant u st))),
     (init_db u st).2).
Proof.
  intros Hu. unfold list_savings.
  unfold mbind at 1. unfold tool_bind at 1. rewrite Hu. by rewrite provision_then.
Qed.

Lemma list_saving_goals_run user_id st u :
  resolve_user_id user_id st = (Ok u, st) →
  list_saving_goals user_id st
  = (Ok (order_by_date_desc g_start_date (rows (saving_goals (tenant u st)))),
     (init_db u st).2).
Proof.
  intros Hu. unfold list_saving_goals.
  unfold mbind at 1. unfold tool_bind at 1. rewrite Hu. by rewrite provision_then.
Qed.

(** X13: [list_expenses] returns every expense of the user once, and
    [list_expenses_by_date] exactly the expenses whose date is, as text,
    between the two bounds (both included); [list_saving_goals] returns
    every goal once. Each listing is ordered so that no record has a date
    (a start date, for goals) smaller than the record that follows it. *)
Theorem listings_descending start_date end_date user_id st u :
  resolve_user_id user_id st = (Ok u, st) →
  let db := tenant u st in
  (∃ l, (list_expenses user_id st).1 = Ok l
        ∧ l ≡ₚ rows (expenses db) ∧ descending e_date l)
  ∧ (∃ l, (list_expenses_by_date start_date end_date user_id st).1 = Ok l
          ∧ l ≡ₚ filter (fun e => between start_date end_date (e_date e))
                        (rows (expenses db))
          ∧ descending e_date l)
  ∧ (∃ l, (list_saving_goals user_id st).1 = Ok l
          ∧ l ≡ₚ rows (saving_goals db) ∧ descending g_start_date l).
Proof.
  intros Hu db. split_and!.
  - rewrite (list_expenses_run user_id st u Hu). eexists. split; [done |].
    split; [apply order_by_date_desc_perm | apply order_by_date_desc_descending].
  - rewrite (list_expenses_by_date_run start_date end_date user_id st u Hu).
    eexists. split; [done |].
    split; [| apply order_by_date_desc_descending].
    apply order_by_date_desc_perm.
  - rewrite (list_saving_goals_run user_id st u Hu). eexists. split; [done |].
    split; [apply order_by_date_desc_perm | apply order_by_date_desc_descending].
Qed.

Lemma listings_descending_witness :
  resolve_user_id None ledger_scenario = (Ok "default_user", ledger_scenario)
  ∧ ∃ l, (list_expenses_by_date "2024-03-01" "2024-03-15" None ledger_scenario).1 = Ok l
         ∧ l ≡ₚ filter (fun e => between "2024-03-01" "2024-03-15" (e_date e))
                       (rows (expenses (tenant "default_user" ledger_scenario)))
         ∧ descending e_date l.
Proof.
  split; [reflexivity |].
  destruct (listings_descending "2024-03-01" "2024-03-15" None ledger_scenario
              "default_user") as (_ & H & _); [reflexivity | exact H].
Defined.

(** X14: [list_savings] applies the date range only when both bounds are
    given and not empty: it then returns exactly the savings whose date
    is, as text, between the bounds; with one bound missing or empty it
    returns every saving of the user, like a call with no bound. The
    listing is ordered so that no record has a date smaller than the one
    that follows it. *)
Theorem list_savings_range start_date end_date user_id st u :
  resolve_user_id user_id st = (Ok u, st) →
  let db := tenant u st in
  ∃ l, (list_savings start_date end_date user_id st).1 = Ok l
       ∧ descending s_date l
       ∧ (∀ lo hi, start_date = Some lo → end_date = Some hi → lo ≠ "" → hi ≠ "" →
            l ≡ₚ filter (fun s => between lo hi (s_date s)) (rows (savings db)))
       ∧ (start_date = None ∨ start_date = Some "" ∨ end_date = None
          ∨ end_date = Some "" →
          l ≡ₚ rows (savings db)
          ∧ list_savings start_date end_date user_id st = list_savings None None user_id st).
Proof.
  intros Hu db. rewrite !(list_savings_run _ _ user_id st u Hu). fold db.
  eexists. split; [done |]. split; [apply order_by_date_desc_descending |]. split.
  - intros lo hi -> -> Hlo Hhi. rewrite order_by_date_desc_perm.
    unfold listed_savings. simpl.
    destruct lo; [done |]. by destruct hi.
  - intros Hmissing.
    assert (listed_savings start_date end_date db = rows (savings db)) as ->.
    { unfold listed_savings.
      destruct Hmissing as [-> | [-> | [-> | ->]]]; simpl; try done.
      all: by destruct (truthy start_date). }
    split; [apply order_by_date_desc_perm | done].
Qed.

Lemma list_savings_range_witness :
  resolve_user_id None ledger_scenario = (Ok "default_user", ledger_scenario)
  ∧ ∃ l, (list_savings (Some "2024-03-01") None None ledger_scenario).1 = Ok l
         ∧ l ≡ₚ rows (savings (tenant "default_user" ledger_scenario)).
Proof.
  split; [reflexivity |].
  destruct (list_savings_range (Some "2024-03-01") None None ledger_scenario
              "default_user") as (l & Hl & _ & _ & Hall); [reflexivity |].
  exists l. split; [exact Hl |]. apply Hall. right. right. by left.
Defined.

(** ** The summary by category *)













(** ** Progress of a goal *)





Lemma get_saving_goal_progress_run goal_id user_id st u :
  resolve_user_id user_id st = (Ok u, st) →
  let db := tenant u st in
  (get_saving_goal_progress goal_id user_id st).1
  = Ok (match select_by_id goal_id (saving_goals db) with
        | None => ProgressNotFound
        | Some goal =>
            let total_saved := saved_since (g_start_date goal) (g_end_date goal) db in
            Progress
              {| p_goal_id := g_id goal; p_name := g_name goal;
                 p_target_amount := g_target_amount goal;
                 p_total_saved := total_saved;
                 p_remaining := Py.qmax (g_target_amount goal - total_saved) 0;
                 p_progress_percentage :=
                   Py.round2
                     (if Py.Qlt_bool 0 (g_target_amount goal)
                      then total_saved / g_target_amount goal * 100 else 0) |}
        end).
Proof.
  intros Hu db. unfold get_saving_goal_progress.
  unfold mbind at 1. unfold tool_bind at 1. rewrite Hu. rewrite provision_then.
  fold db. by destruct (select_by_id goal_id (saving_goals db)).
Qed.



(** ** Budgets, from setting to checking *)







Lemma adjacent_map {A B} (f : A → B) (R : B → B → Prop) (l : list A) :
  adjacent (fun a b => R (f a) (f b)) l → adjacent R (map f l).
Proof.
  induction l as [|a l IH]; [done |]. destruct l as [|b l]; [done |].
  intros H. change (adjacent R (f a :: map f (b :: l))).
  apply adjacent_cons; [apply IH; by apply adjacent_tail in H |].
  simpl. intros x [= <-]. by apply adjacent_head in H.
Qed.

Lemma adjacent_distinct {A B} (f : A → B) (R : A → A → Prop) (l : list A) :
  NoDup (map f l) → adjacent R l → adjacent (fun a b => R a b ∧ f a ≠ f b) l.
Proof.
  induction l as [|a l IH]; [done |]. destruct l as [|b l]; [done |].
  intros [Ha Hl]%NoDup_cons H.
  apply adjacent_cons; [apply IH; [done | by apply adjacent_tail in H] |].
  simpl. intros x [= <-]. split; [by apply adjacent_head in H |].
  intros Heq. apply Ha. rewrite Heq. simpl. left.
Qed.

Lemma adjacent_impl {A} (R R' : A → A → Prop) (l : list A) :
  (∀ a b, R a b → R' a b) → adjacent R l → adjacent R' l.
Proof.
  intros HR. induction l as [|a l IH]; [done |]. destruct l as [|b l]; [done |].
  intros H. apply adjacent_cons; [apply IH; by apply adjacent_tail in H |].
  simpl. intros x [= <-]. by apply HR, (adjacent_head R a b l).
Qed.

Lemma text_le_lt a b : text_le a b = true → a ≠ b → text_lt a b = true.
Proof.
  unfold text_le, text_lt, String.leb, String.ltb.
  destruct (String.compare a b) eqn:Hc; try done.
  apply String.compare_eq_iff in Hc. done.
Qed.

Lemma list_budgets_run user_id st u :
  resolve_user_id user_id st = (Ok u, st) →
  list_budgets user_id st
  = (Ok (map (fun b => (b_category b, b_monthly_limit b))
             (order_by_category_asc (rows (budgets (tenant u st))))),
     (init_db u st).2).
Proof.
  intros Hu. unfold list_budgets.
  unfold mbind at 1. unfold tool_bind at 1. rewrite Hu. by rewrite provision_then.
Qed.

(** X18: in a state the server reached, [list_budgets] returns the category
    and limit of every budget of the user once, in strictly ascending
    order of the category: no category is listed twice. *)
Theorem list_budgets_ascending user_id st u :
  served (fun _ => True) st →
  resolve_user_id user_id st = (Ok u, st) →
  ∃ l, (list_budgets user_id st).1 = Ok l
       ∧ l ≡ₚ map (fun b => (b_category b, b_monthly_limit b))
                  (rows (budgets (tenant u st)))
       ∧ adjacent (fun a b => text_lt a.1 b.1 = true) l.
Proof.
  intros Hserved Hu. rewrite (list_budgets_run user_id st u Hu). simpl.
  destruct (served_base st Hserved u) as (_ & _ & _ & [Hnd _]).
  set (l := rows (budgets (tenant u st))) in *.
  pose proof (order_by_perm (fun y x => text_lt (b_category y) (b_category x)) l)
    as Hperm.
  fold (order_by_category_asc l) in Hperm.
  eexists. split; [done |]. split; [by apply Permutation_map |].
  apply (adjacent_map _ (fun a b => text_lt a.1 b.1 = true)). simpl.
  apply (adjacent_impl
           (fun a b => text_le (b_category a) (b_category b) = true
                       ∧ b_category a ≠ b_category b)).
  { intros a b [Hle Hne]. by apply text_le_lt. }
  apply adjacent_distinct.
  - by rewrite Hperm.
  - apply order_by_adjacent.
    + intros a b. apply text_lt_le.
    + intros a b. apply text_not_lt_le.
Qed.

Lemma list_budgets_ascending_witness :
  served (fun _ => True) ledger_scenario
  ∧ ∃ l, (list_budgets None ledger_scenario).1 = Ok l
         ∧ l ≡ₚ map (fun b => (b_category b, b_monthly_limit b))
                    (rows (budgets (tenant "default_user" ledger_scenario)))
         ∧ adjacent (fun a b => text_lt a.1 b.1 = true) l.
Proof.
  split; [by apply ledger_scenario_served |].
  apply (list_budgets_ascending None ledger_scenario "default_user").
  - by apply ledger_scenario_served.
  - reflexivity.
Defined.

(** ** Updating and deleting a budget *)

Lemma select_budget_set_limit c c' limit db :
  select_budget c' (with_budgets (set_limit c limit (budgets db)) db)
  = (b ← select_budget c' db;
     Some (if bool_decide (b_category b = c)
           then {| b_id := b_id b; b_category := b_category b;
                   b_monthly_limit := limit |}
           else b)).
Proof.
  unfold select_budget, set_limit. simpl.
  induction (rows (budgets db)) as [|b l IH]; simpl; [done |].
  destruct (bool_decide (b_category b = c)) eqn:Hb; simpl;
    destruct (bool_decide (b_category b = c')) eqn:Hb'; simpl;
    rewrite ?Hb; done.
Qed.

Lemma with_category_select c db :
  length (with_category c (budgets db)) = 0%nat ↔ select_budget c db = None.
Proof.
  rewrite <- select_budget_None. unfold with_category. split.
  - intros Hlen b Hb Hc.
    assert (b ∈ filter (fun x => b_category x = c) (rows (budgets db))) as Hin
      by by apply list_elem_of_filter.
    destruct (filter _ _); [by apply elem_of_nil in Hin | done].
  - intros Hnone. rewrite filter_none; [done |]. intros b Hb. by apply Hnone.
Qed.

Lemma set_limit_absent c limit db :
  select_budget c db = None → set_limit c limit (budgets db) = budgets db.
Proof.
  intros Hsel. pose proof (proj2 (select_budget_None c db) Hsel) as Hnone.
  clear Hsel. unfold set_limit.
  destruct (budgets db) as [l s]. simpl in *. f_equal.
  induction l as [|b l IH]; simpl; [done |].
  rewrite bool_decide_false by (apply Hnone; left).
  rewrite IH; [done |]. intros x Hx. apply Hnone. by right.
Qed.

(** X19: [update_budget] never creates a budget. For a positive limit and
    a raw category that normalizes to [c], the categories that have a
    budget are the same after the call as before it; when [c] has no
    budget the answer is [not_found] and the budgets table is unchanged;
    when it has one the answer is [ok] and the budget of [c] has the new
    limit; the budget of every other category is as it was. *)
Theorem update_budget_never_creates res category limit user_id st u c s :
  resolve_user_id user_id st = (Ok u, st) →
  (0 < limit)%Q →
  validate_category res category None = Ok (c, s) →
  let r := update_budget res category limit user_id st in
  let db := tenant u st in
  let db' := tenant u r.2 in
  map b_category (rows (budgets db')) = map b_category (rows (budgets db))
  ∧ (select_budget c db = None → r.1 = Ok NotFound ∧ budgets db' = budgets db)
  ∧ (∀ b, select_budget c db = Some b →
          r.1 = Ok Updated
          ∧ select_budget c db'
            = Some {| b_id := b_id b; b_category := c; b_monthly_limit := limit |})
  ∧ (∀ c', c' ≠ c → select_budget c' db' = select_budget c' db).
Proof.
  intros Hu Hpos Hval r db db'. subst r db'.
  assert (update_budget res category limit user_id st
          = (Ok (match length (with_category c (budgets db)) with
                 | O => NotFound
                 | _ => Updated
                 end),
             write_db u (with_budgets (set_limit c limit (budgets db)) db) st))
    as ->.
  { unfold update_budget. unfold mbind at 1. unfold tool_bind at 1. rewrite Hu.
    rewrite (positive_not_le _ Hpos).
    unfold mbind at 1. unfold tool_bind at 1. unfold pure at 1. rewrite Hval.
    rewrite provision_then. fold db.
    unfold mbind, tool_bind, commit, mret, tool_ret. simpl.
    rewrite write_db_init_db. by destruct (length _). }
  cbn [fst snd]. rewrite tenant_write_db. split_and!.
  - apply set_limit_categories.
  - intros Hnone. rewrite (proj2 (with_category_select c db) Hnone).
    split; [done |]. simpl. by apply set_limit_absent.
  - intros b Hb. split.
    + destruct (length (with_category c (budgets db))) eqn:Hlen; [| done].
      apply with_category_select in Hlen. congruence.
    + rewrite select_budget_set_limit, Hb. simpl.
      apply select_budget_Some in Hb as [_ Hc]. rewrite bool_decide_true by done.
      by rewrite Hc.
  - intros c' Hc'. rewrite select_budget_set_limit.
    destruct (select_budget c' db) as [b|] eqn:Hb; [| done]. simpl.
    apply select_budget_Some in Hb as [_ Hc]. rewrite bool_decide_false; [done |].
    congruence.
Qed.

Lemma update_budget_never_creates_witness :
  resolve_user_id None ledger_scenario = (Ok "default_user", ledger_scenario)
  ∧ (0 < 60)%Q
  ∧ validate_category sample_resources "Transport" None = Ok ("transport", "fuel")
  ∧ (update_budget sample_resources "Transport" 60 None ledger_scenario).1 = Ok NotFound.
Proof.
  split; [reflexivity |]. split; [reflexivity |]. split; [by vm_compute |].
  destruct (update_budget_never_creates sample_resources "Transport" 60 None
              ledger_scenario "default_user" "transport" "fuel")
    as (_ & Hnone & _); [reflexivity | reflexivity | by vm_compute |].
  apply Hnone. by vm_compute.
Defined.

Lemma select_budget_deleted c db :
  select_budget c (with_budgets (delete_category c (budgets db)) db) = None.
Proof.
  apply select_budget_None. simpl. by intros b [Hb _]%list_elem_of_filter.
Qed.

Lemma select_budget_delete_other c c' db :
  c' ≠ c →
  select_budget c' (with_budgets (delete_category c (budgets db)) db)
  = select_budget c' db.
Proof.
  intros Hc. unfold select_budget, delete_category. simpl.
  induction (rows (budgets db)) as [|b l IH]; simpl; [done |].
  destruct (decide (b_category b ≠ c)) as [Hb|Hb].
  - rewrite filter_cons_True by done. simpl. by rewrite IH.
  - rewrite filter_cons_False by done. rewrite IH.
    rewrite bool_decide_false; [done |]. apply dec_stable in Hb. congruence.
Qed.

Lemma delete_budget_run category user_id st u :
  resolve_user_id user_id st = (Ok u, st) →
  let db := tenant u st in
  delete_budget category user_id st
  = (Ok (match length (with_category (Py.lower category) (budgets db)) with
         | O => DeleteNotFound
         | n => Deleted n
         end),
     write_db u (with_budgets (delete_category (Py.lower category) (budgets db)) db) st).
Proof.
  intros Hu db. unfold delete_budget.
  unfold mbind at 1. unfold tool_bind at 1. rewrite Hu.
  rewrite provision_then. fold db.
  unfold mbind, tool_bind, commit, mret, tool_ret. simpl.
  rewrite write_db_init_db. by destruct (length _).
Qed.

(** X20: in a state the server reached, [delete_budget] answers
    [deleted_rows = 1] when the lowercased category has a budget and
    [not_found] otherwise; afterwards that category has no budget, so
    [check_budget_status] for the same argument answers [no_budget], and
    the budget of every other category is as it was. The category is
    lowercased only: surrounding blanks are kept. *)
Theorem delete_budget_removes category year month user_id st u :
  served (fun _ => True) st →
  resolve_user_id user_id st = (Ok u, st) →
  let r := delete_budget category user_id st in
  let db := tenant u st in
  let db' := tenant u r.2 in
  r.1 = Ok (match select_budget (Py.lower category) db with
            | Some _ => Deleted 1
            | None => DeleteNotFound
            end)
  ∧ select_budget (Py.lower category) db' = None
  ∧ (∀ c, c ≠ Py.lower category → select_budget c db' = select_budget c db)
  ∧ (check_budget_status category year month user_id r.2).1 = Ok NoBudget.
Proof.
  intros Hserved Hu r db db'. subst r db' db.
  pose proof (delete_budget_run category user_id st u Hu) as Hrun.
  cbv zeta in Hrun. rewrite Hrun. cbn [fst snd]. rewrite tenant_write_db.
  destruct (served_base st Hserved u) as (_ & _ & _ & [Hnd _]).
  split_and!.
  - destruct (select_budget (Py.lower category) (tenant u st)) as [b|] eqn:Hsel.
    + apply select_budget_Some in Hsel as [Hin Hc].
      by rewrite (with_category_unique _ _ b Hnd Hin Hc).
    + by rewrite (proj2 (with_category_select _ (tenant u st)) Hsel).
  - apply select_budget_deleted.
  - intros c Hc. by apply select_budget_delete_other.
  - erewrite check_budget_status_none; [done | |].
    + by rewrite resolve_user_id_write_db, Hu.
    + rewrite tenant_write_db. apply select_budget_deleted.
Qed.

Lemma delete_budget_removes_witness :
  served (fun _ => True) ledger_scenario
  ∧ resolve_user_id None ledger_scenario = (Ok "default_user", ledger_scenario)
  ∧ (delete_budget "FOOD" None ledger_scenario).1 = Ok (Deleted 1)
  ∧ (delete_budget " food" None ledger_scenario).1 = Ok DeleteNotFound.
Proof.
  split; [by apply ledger_scenario_served |]. split; [reflexivity |].
  destruct (delete_budget_removes "FOOD" 2024 3 None ledger_scenario "default_user")
    as (H1 & _); [by apply ledger_scenario_served | reflexivity |].
  destruct (delete_budget_removes " food" 2024 3 None ledger_scenario "default_user")
    as (H2 & _); [by apply ledger_scenario_served | reflexivity |].
  split; [exact H1 | exact H2].
Defined.

(** ** Printing a date and reading it back *)

Lemma four_digits s :
  all_digits s = true → String.length s = 4%nat →
  ∃ a b c d,
    s = String a (String b (String c (String d EmptyString)))
    ∧ Datetime.is_digit a = true ∧ Datetime.is_digit b = true
    ∧ Datetime.is_digit c = true ∧ Datetime.is_digit d = true
    ∧ decimal_value s
      = 1000 * Datetime.digit_value a + 100 * Datetime.digit_value b
        + 10 * Datetime.digit_value c + Datetime.digit_value d.
Proof.
  destruct s as [|a [|b [|c [|d [|e s]]]]]; try discriminate.
  intros Hdigits _. simpl in Hdigits.
  repeat (apply andb_prop in Hdigits as [? Hdigits]).
  exists a, b, c, d. split_and!; try done. simpl. lia.
Qed.

Lemma append_cons a s t : (String a s ++ t)%string = String a (s ++ t).
Proof. done. Qed.

Lemma append_nil t : ("" ++ t)%string = t.
Proof. done. Qed.

(** The year a string starts with does not change how the rest of it is
    matched. *)
Lemma regex_match_year a b c d rest :
  Datetime.is_digit a = true → Datetime.is_digit b = true →
  Datetime.is_digit c = true → Datetime.is_digit d = true →
  Datetime.regex_match (String a (String b (String c (String d rest))))
  = match Datetime.regex_match (String "0" (String "0" (String "0" (String "0" rest))))
    with
    | Some (_, m, day, s) =>
        Some (1000 * Datetime.digit_value a + 100 * Datetime.digit_value b
              + 10 * Datetime.digit_value c + Datetime.digit_value d, m, day, s)
    | None => None
    end.
Proof.
  intros Ha Hb Hc Hd. unfold Datetime.regex_match, Datetime.match_Y.
  rewrite Ha, Hb, Hc, Hd. simpl.
  destruct (Datetime.match_dash rest) as [s2|]; simpl; [| done].
  induction (Datetime.match_m s2) as [|[m s3] l IH]; simpl; [done |].
  destruct (Datetime.match_dash s3) as [s4|]; simpl; [| apply IH].
  destruct (head (Datetime.match_d s4)) as [[day s5]|]; simpl; [done | apply IH].
Qed.

Lemma regex_match_month_day m d :
  1 ≤ m ≤ 12 → 1 ≤ d ≤ 31 →
  Datetime.regex_match ("0000-" ++ format_02d m ++ "-" ++ format_02d d)
  = Some (0, m, d, "").
Proof.
  intros Hm Hd.
  assert (forallb
            (fun m =>
               forallb
                 (fun d =>
                    bool_decide
                      (Datetime.regex_match
                         ("0000-" ++ format_02d m ++ "-" ++ format_02d d)
                       = Some (0, m, d, "")))
                 (seqZ 1 31))
            (seqZ 1 12) = true) as Hall by by vm_compute.
  rewrite forallb_forall in Hall.
  assert (In m (seqZ 1 12)) as Hinm.
  { apply list_elem_of_In, elem_of_seqZ. lia. }
  specialize (Hall m Hinm). rewrite forallb_forall in Hall.
  assert (In d (seqZ 1 31)) as Hind.
  { apply list_elem_of_In, elem_of_seqZ. lia. }
  specialize (Hall d Hind). by apply bool_decide_eq_true in Hall.
Qed.

(** X21: a date of the calendar with a year from 1000 to 9999, printed by
    [strftime] in the format [%Y-%m-%d], is read back by [strptime] as the
    same date. *)
Theorem strptime_of_strftime y m d :
  1000 ≤ y ≤ 9999 → 1 ≤ m ≤ 12 → 1 ≤ d ≤ Datetime.days_in_month y m →
  Datetime.strptime
    (strftime {| Datetime.year := y; Datetime.month := m; Datetime.day := d |})
  = Ok {| Datetime.year := y; Datetime.month := m; Datetime.day := d |}.
Proof.
  intros Hy Hm Hd.
  assert (Datetime.days_in_month y m ≤ 31) as Hdays.
  { unfold Datetime.days_in_month.
    destruct (m =? 2); [by destruct (Datetime.is_leap y) |].
    by destruct ((m =? 4) || (m =? 6) || (m =? 9) || (m =? 11)). }
  destruct (prints_digits_spec str_of_int 4 y (str_of_int_four_digits y Hy))
    as (Hdigits & Hlen & Hvalue).
  destruct (four_digits _ Hdigits Hlen) as (a & b & c & e & Hs & Ha & Hb & Hc & He & Hv).
  unfold Datetime.strptime, strftime.
  cbn [Datetime.year Datetime.month Datetime.day]. rewrite Hs.
  rewrite !append_cons, append_nil.
  rewrite (regex_match_year a b c e _ Ha Hb Hc He).
  pose proof (regex_match_month_day m d Hm ltac:(lia)) as Htail.
  rewrite !append_cons in Htail. rewrite Htail. rewrite <- Hv, Hvalue.
  assert ((1 <=? y) && (1 <=? m) && (m <=? 12) && (1 <=? d)
          && (d <=? Datetime.days_in_month y m) = true) as ->; [| done].
  repeat (apply andb_true_intro; split); apply Z.leb_le; lia.
Qed.

Lemma strptime_of_strftime_witness :
  1000 ≤ 2024 ≤ 9999 ∧ 1 ≤ 2 ≤ 12 ∧ 1 ≤ 29 ≤ Datetime.days_in_month 2024 2
  ∧ Datetime.strptime
      (strftime {| Datetime.year := 2024; Datetime.month := 2; Datetime.day := 29 |})
    = Ok {| Datetime.year := 2024; Datetime.month := 2; Datetime.day := 29 |}.
Proof.
  split; [lia |]. split; [lia |]. split; [vm_compute; split; discriminate |].
  apply strptime_of_strftime; [lia | lia | vm_compute; split; discriminate].
Defined.

(** ** Goals with dates that do not parse *)

Lemma strptime_raises s e : Datetime.strptime s = Raise e → e = ValueError.
Proof.
  unfold Datetime.strptime.
  destruct (Datetime.regex_match s) as [[[[y m] d] [|c rest]]|]; try by intros [= <-].
  destruct (_ && _); [done | by intros [= <-]].
Qed.

Lemma months_between_raises a b :
  Datetime.strptime a = Raise ValueError ∨ Datetime.strptime b = Raise ValueError →
  months_between a b = Raise ValueError.
Proof.
  unfold months_between. intros [Ha|Hb].
  - by rewrite Ha.
  - destruct (Datetime.strptime a) as [da|e] eqn:Ha; simpl.
    + by rewrite Hb.
    + by rewrite (strptime_raises a e Ha).
Qed.

(** X22: [add_saving_goal] stores a goal whose start or end date is not a
    date (the target being positive); [get_saving_goal_progress] still
    reports on that goal, while [get_saving_goal_insights] raises
    [ValueError] for it whenever its end date is not empty: the dates of a
    goal are checked only when its insights are asked for. *)
Theorem goal_dates_checked_on_insights name target start_date end_date note today
    user_id st u :
  resolve_user_id user_id st = (Ok u, st) →
  (0 < target)%Q →
  end_date ≠ "" →
  Datetime.strptime start_date = Raise ValueError
  ∨ Datetime.strptime end_date = Raise ValueError →
  ∃ i st',
    add_saving_goal name target start_date (Some end_date) note user_id st
    = (Ok i, st')
    ∧ (get_saving_goal_insights today i user_id st').1 = Raise ValueError
    ∧ ∃ p, (get_saving_goal_progress i user_id st').1 = Ok (Progress p)
           ∧ p_goal_id p = i ∧ p_target_amount p = target.
Proof.
  intros Hu Hpos Hend Hbad.
  pose proof (add_saving_goal_run name target start_date (Some end_date) note
                user_id st u Hu Hpos) as Hrun.
  cbv zeta in Hrun. eexists _, _. split; [exact Hrun |].
  set (i := next_rowid (saving_goals (tenant u st))) in *.
  set (g := {| g_id := i; g_name := name; g_target_amount := target;
               g_start_date := start_date; g_end_date := Some end_date;
               g_note := note |}) in *.
  set (st' := write_db u _ st).
  assert (resolve_user_id user_id st' = (Ok u, st')) as Hu'
    by by (unfold st'; rewrite resolve_user_id_write_db, Hu).
  assert (select_by_id i (saving_goals (tenant u st')) = Some g) as Hsel.
  { unfold st'. rewrite tenant_write_db. simpl.
    apply (select_by_id_inserted
             (fun i => {| g_id := i; g_name := name; g_target_amount := target;
                          g_start_date := start_date; g_end_date := Some end_date;
                          g_note := note |}) (saving_goals (tenant u st))).
    done. }
  split.
  - unfold get_saving_goal_insights.
    unfold mbind at 1. unfold tool_bind at 1. rewrite Hu'. rewrite provision_then.
    rewrite Hsel. simpl.
    assert (Py.falsy end_date = false) as -> by by destruct end_date.
    unfold mbind, tool_bind, pure. by rewrite (months_between_raises _ _ Hbad).
  - rewrite (get_saving_goal_progress_run i user_id st' u Hu'). cbv zeta.
    rewrite Hsel. eexists. split; [done |]. done.
Qed.

Lemma goal_dates_checked_on_insights_witness :
  resolve_user_id None ledger_scenario = (Ok "default_user", ledger_scenario)
  ∧ (0 < 500)%Q
  ∧ "2025-06-31" ≠ ""
  ∧ ∃ i st',
      add_saving_goal "car" 500 "soon" (Some "2025-06-31") "" None ledger_scenario
      = (Ok i, st')
      ∧ (get_saving_goal_insights "2024-05-05" i None st').1 = Raise ValueError
      ∧ ∃ p, (get_saving_goal_progress i None st').1 = Ok (Progress p)
             ∧ p_goal_id p = i ∧ p_target_amount p = 500%Q.
Proof.
  split; [reflexivity |]. split; [reflexivity |]. split; [discriminate |].
  apply (goal_dates_checked_on_insights "car" 500 "soon" "2025-06-31" "" "2024-05-05"
           None ledger_scenario "default_user").
  - reflexivity.
  - reflexivity.
  - discriminate.
  - left. by vm_compute.
Defined.

(** ** What a call can raise *)

Section Outcome.

Context {A : Type} (R : result A → state → Prop) (st : state).

Lemma outcome_ret a : R (Ok a) st → outcome (mret a) R st.
Proof. done. Qed.

Lemma outcome_raise e : R (Raise e) st → outcome (raise e) R st.
Proof. done. Qed.

Lemma outcome_pure r : R r st → outcome (pure r) R st.
Proof. done. Qed.

Lemma outcome_bind {B} (m : tool B) (k : B → tool A) :
  outcome m (fun r st' => match r with
                          | Ok b => outcome (k b) R st'
                          | Raise e => R (Raise e) st'
                          end) st →
  outcome (m ≫= k) R st.
Proof. unfold outcome, mbind, tool_bind. by destruct (m st) as [[b|e] st']. Qed.

End Outcome.

Lemma outcome_resolve_user_id (R : result string → state → Prop) st user_id :
  (∀ u, resolve_user_id user_id st = (Ok u, st) → R (Ok u) st) →
  outcome (resolve_user_id user_id) R st.
Proof.
  intros HR. destruct (resolve_user_id_ok user_id st) as [u Hu].
  unfold outcome. rewrite Hu. by apply HR.
Qed.

Lemma outcome_init_db (R : result unit → state → Prop) st u :
  R (Ok tt) (init_db u st).2 → outcome (init_db u) R st.
Proof. unfold outcome. by destruct (init_db_ok u st) as [st' ->]. Qed.

Lemma outcome_read_db (R : result database → state → Prop) st u :
  R (Ok (tenant u st)) st → outcome (read_db u) R st.
Proof. done. Qed.

Lemma outcome_commit (R : result unit → state → Prop) st u db :
  R (Ok tt) (write_db u db st) → outcome (commit u db) R st.
Proof. done. Qed.

Lemma outcome_get_current_user (R : result string → state → Prop) st :
  R (Ok (CURRENT_USER_ID st)) st → outcome get_current_user R st.
Proof. done. Qed.

Lemma outcome_assign_current_user (R : result unit → state → Prop) st u :
  R (Ok tt) {| CURRENT_USER_ID := u; data := data st |} →
  outcome (assign_current_user u) R st.
Proof. done. Qed.

Ltac outcome_step :=
  lazymatch goal with
  | |- outcome (_ ≫= _) _ _ => apply outcome_bind
  | |- outcome (mret _) _ _ => apply outcome_ret
  | |- outcome (raise _) _ _ => apply outcome_raise
  | |- outcome (pure ?r) _ _ => apply outcome_pure; destruct r eqn:?
  | |- outcome (resolve_user_id _) _ _ => apply outcome_resolve_user_id; intros ? ?
  | |- outcome (init_db _) _ _ => apply outcome_init_db
  | |- outcome (read_db _) _ _ => apply outcome_read_db
  | |- outcome (commit _ _) _ _ => apply outcome_commit
  | |- outcome get_current_user _ _ => apply outcome_get_current_user
  | |- outcome (assign_current_user _) _ _ => apply outcome_assign_current_user
  | |- outcome (if ?b then _ else _) _ _ => destruct b eqn:?
  | |- outcome (match ?x with _ => _ end) _ _ => destruct x eqn:?
  end.

Ltac outcome_run := repeat (outcome_step; cbv beta iota).







(** ** Databases and the current user *)

Lemma data_write_db u v db st :
  is_Some (data st !! v) → is_Some (data (write_db u db st) !! v).
Proof.
  intros Hv. unfold write_db. simpl. apply lookup_insert_is_Some.
  destruct (decide (u = v)); [by left | by right].
Qed.

Lemma data_write_db_self u db st : is_Some (data (write_db u db st) !! u).
Proof. unfold write_db. simpl. rewrite lookup_insert_eq. by eexists. Qed.

Lemma data_init_db u v st :
  is_Some (data st !! v) → is_Some (data (init_db u st).2 !! v).
Proof.
  intros Hv. unfold init_db. destruct (data st !! u); [done |]. by apply data_write_db.
Qed.

Lemma data_init_db_self u st : is_Some (data (init_db u st).2 !! u).
Proof.
  unfold init_db. destruct (data st !! u) eqn:Hu; simpl.
  - rewrite Hu. by eexists.
  - apply data_write_db_self.
Qed.

Lemma current_user_write_db u db st :
  CURRENT_USER_ID (write_db u db st) = CURRENT_USER_ID st.
Proof. done. Qed.

(** X24: a call of any tool never removes the database of a user; the
    current user after the call is the argument of the call when it is
    [set_current_user] and is unchanged by every other tool; and when a
    call other than [get_current_user] returns, the user it worked for has
    a database. *)
Theorem databases_persist res c st :
  let st' := (dispatch res c st).2 in
  (∀ u, is_Some (data st !! u) → is_Some (data st' !! u))
  ∧ CURRENT_USER_ID st' = match c with
                          | Request (SetCurrentUser v) => v
                          | _ => CURRENT_USER_ID st
                          end
  ∧ (∀ r, (dispatch res c st).1 = Ok r → c ≠ Request GetCurrentUser →
          is_Some (data st' !! call_user c st)).
Proof.
  intros st'. subst st'. split_and!.
  - intros u Hu.
    apply (wp_final (dispatch res c) (fun st' => is_Some (data st' !! u))).
    destruct c as [req| | | | | | | | |]; [destruct req |..]; unfold_calls.
    all: wp_run.
    all: repeat first [ apply data_write_db | apply data_init_db ]; done.
  - apply (wp_final (dispatch res c)
             (fun st' => CURRENT_USER_ID st'
                         = match c with
                           | Request (SetCurrentUser v) => v
                           | _ => CURRENT_USER_ID st
                           end)).
    destruct c as [req| | | | | | | | |]; [destruct req |..]; unfold_calls.
    all: wp_run.
    all: by rewrite ?current_user_write_db, ?current_user_init_db.
  - intros r.
    change (outcome (dispatch res c)
              (fun r' st' => r' = Ok r → c ≠ Request GetCurrentUser →
                             is_Some (data st' !! call_user c st)) st).
    destruct c as [req| | | | | | | | |]; [destruct req |..]; unfold_calls.
    all: outcome_run.
    all: try discriminate.
    all: intros _ Hc; try done.
    all: simpl call_user.
    all: try match goal with
             | H : resolve_user_id _ _ = (Ok _, _) |- _ => rewrite H
             end.
    all: simpl.
    all: repeat first [ apply data_write_db_self | apply data_init_db_self
                      | apply data_write_db | apply data_init_db ].
Qed.

(** ** New rows and the totals *)








